(** * Resource composition of scaffold-sh/aws-serverless-docker

    A shallow embedding of the construct tree of the repository (the
    network, computing and root units and the null-override helpers) and
    the properties its specification states about it.

    Conventions of the embedding.

    - A construct's constructor is a computation in the monad [M]: it
      registers resource descriptors in creation order, may patch a
      registered descriptor ([addOverride]) and may throw.  The effects of
      a computation are kept as an ordered log of [Event]s; [synth] replays
      a log into the list of descriptors handed to the provisioning tool.
    - A registered object is identified by its path in the construct tree
      (the ids from the root scope down to the object).
    - JavaScript numbers are integers ([Z]): every number of the program is
      a count, a port or a percentage.
    - A character is a UTF-16 code unit below 256, so a string is a text
      of the Latin-1 range.
    - JavaScript objects used as maps are plain objects: the association
      list of their own properties in insertion order, over what every
      plain object inherits from [Object.prototype].  A read finds an own
      property first and an inherited member next; an assignment to
      [__proto__] adds no property; [JS.keys] lists integer-like names
      first, as the language does.
    - The constructors of the provider library register an object and
      keep its configuration; what else the library does with an id or a
      configuration is outside the sources and outside the model. *)

From Stdlib Require Import List String Ascii ZArith Lia Bool Arith Permutation.
From Stdlib Require Import DecimalString DecimalNat.
Import ListNotations.

Local Open Scope string_scope.
Local Open Scope Z_scope.

(** ** Strings *)

Module Str.

(** The double quote, as a string *)
Definition quote : string := String (ascii_of_nat 34) EmptyString.

Definition of_nat (n : nat) : string :=
  NilEmpty.string_of_uint (Nat.to_uint n).

Definition of_Z (z : Z) : string :=
  NilZero.string_of_int (Z.to_int z).

(** [s.startsWith(p)] *)
Fixpoint startsWith (p s : string) : bool :=
  match p, s with
  | EmptyString, _ => true
  | String a p', String b s' => Ascii.eqb a b && startsWith p' s'
  | String _ _, EmptyString => false
  end.

Fixpoint drop (n : nat) (s : string) : string :=
  match n, s with
  | O, _ => s
  | S n', String _ s' => drop n' s'
  | S _, EmptyString => EmptyString
  end.

(** [s.replace(/^p/, "")] for a literal [p] *)
Definition stripPrefix (p s : string) : string :=
  if startsWith p s then drop (String.length p) s else s.

Fixpoint map (f : ascii -> ascii) (s : string) : string :=
  match s with
  | EmptyString => EmptyString
  | String a s' => String (f a) (map f s')
  end.

(** The lower-case form of a code unit below 256: the letters [A] to [Z]
    and the capital letters of the Latin-1 supplement (U+00C0 to U+00DE,
    the multiplication sign U+00D7 apart) are 32 below their lower-case
    form; no other unit changes. *)
Definition lower (a : ascii) : ascii :=
  let n := nat_of_ascii a in
  if ((Nat.leb 65 n && Nat.leb n 90)
      || (Nat.leb 192 n && Nat.leb n 222 && negb (Nat.eqb n 215)))%bool
  then ascii_of_nat (n + 32)%nat else a.

(** [s.toLowerCase()] *)
Definition toLowerCase (s : string) : string := map lower s.

(** [s.replace(/_/gi, "-")] *)
Definition underscoresToDashes (s : string) : string :=
  map (fun a => if Ascii.eqb a "_" then "-"%char else a) s.

(** [s.substring(0, n)] *)
Fixpoint take (n : nat) (s : string) : string :=
  match n, s with
  | O, _ => EmptyString
  | S n', String a s' => String a (take n' s')
  | S _, EmptyString => EmptyString
  end.

(** [s.split(c)] for a one-character separator; never empty *)
Fixpoint split (c : ascii) (s : string) : list string :=
  match s with
  | EmptyString => [EmptyString]
  | String a s' =>
      if Ascii.eqb a c then EmptyString :: split c s'
      else match split c s' with
           | [] => [String a EmptyString]
           | w :: ws => String a w :: ws
           end
  end.

Definition isNameChar (a : ascii) : bool :=
  let n := nat_of_ascii a in
  ((Nat.leb 97 n && Nat.leb n 122) || (Nat.leb 65 n && Nat.leb n 90)
   || (Nat.leb 48 n && Nat.leb n 57) || Nat.eqb n 95 || Nat.eqb n 45)%bool.

Fixpoint forallb (f : ascii -> bool) (s : string) : bool :=
  match s with
  | EmptyString => true
  | String a s' => f a && forallb f s'
  end.

(** [s.match(/^[a-z0-9_-]+$/gi)] is not null *)
Definition matchesName (s : string) : bool :=
  match s with
  | EmptyString => false
  | _ => forallb isNameChar s
  end.

Definition isDigit (a : ascii) : bool :=
  let n := nat_of_ascii a in (Nat.leb 48 n && Nat.leb n 57)%bool.

Fixpoint digitsValue (acc : N) (s : string) : N :=
  match s with
  | EmptyString => acc
  | String a s' =>
      digitsValue (acc * 10 + N.of_nat (nat_of_ascii a - 48))%N s'
  end.

(** A canonical array index: the decimal numeral, without a leading zero,
    of an integer below 2^32 - 1.  Such property names are enumerated
    first, in ascending order. *)
Definition arrayIndex (s : string) : option N :=
  match s with
  | EmptyString => None
  | String a rest =>
      if (forallb isDigit s
          && (negb (Ascii.eqb a "0") || String.eqb rest EmptyString)
          && Nat.leb (String.length s) 10)%bool
      then let n := digitsValue 0%N s in
           if (n <? 4294967295)%N then Some n else None
      else None
  end.

End Str.

(** ** Configuration values *)

Set Warnings "-register-all".

Inductive value : Type :=
| VNull
| VBool (b : bool)
| VNum (n : Z)
| VStr (s : string)
| VList (l : list value)
| VObj (fields : list (string * value)).

Definition Config := list (string * value).

Fixpoint lookup {A} (k : string) (o : list (string * A)) : option A :=
  match o with
  | [] => None
  | (k', v) :: o' => if String.eqb k' k then Some v else lookup k o'
  end.

(** Truthiness of [o[k]]: a missing property is [undefined]. *)
Definition truthy (v : option value) : bool :=
  match v with
  | None | Some VNull => false
  | Some (VBool b) => b
  | Some (VNum n) => negb (n =? 0)
  | Some (VStr s) => negb (String.eqb s EmptyString)
  | Some (VList _) | Some (VObj _) => true
  end.

(** A template literal prints a missing value as [undefined]. *)
Definition template (o : option string) : string :=
  match o with
  | Some s => s
  | None => "undefined"
  end.

(** ** Resource descriptors *)

Inductive Kind :=
| TerraformBackendS3 | AwsProvider
| DataAwsRegion | DataAwsCallerIdentity | DataAwsAvailabilityZones
| DataAwsIamPolicyDocument | DataAwsEcsTaskDefinition
| Vpc | InternetGateway | Subnet | Eip | NatGateway
| RouteTable | RouteTableAssociation | AcmCertificate
| SecurityGroup | SecurityGroupRule
| S3Bucket | S3BucketPolicy | Lb | LbTargetGroup | LbListener
| CloudwatchLogGroup | SsmParameter | EcsCluster | EcrRepository
| IamRole | IamRolePolicy | EcsTaskDefinition | EcsService
| AppautoscalingTarget | AppautoscalingPolicy.

Definition terraformResourceType (k : Kind) : string :=
  match k with
  | TerraformBackendS3 => "terraform.backend.s3"
  | AwsProvider => "provider.aws"
  | DataAwsRegion => "data.aws_region"
  | DataAwsCallerIdentity => "data.aws_caller_identity"
  | DataAwsAvailabilityZones => "data.aws_availability_zones"
  | DataAwsIamPolicyDocument => "data.aws_iam_policy_document"
  | DataAwsEcsTaskDefinition => "data.aws_ecs_task_definition"
  | Vpc => "aws_vpc"
  | InternetGateway => "aws_internet_gateway"
  | Subnet => "aws_subnet"
  | Eip => "aws_eip"
  | NatGateway => "aws_nat_gateway"
  | RouteTable => "aws_route_table"
  | RouteTableAssociation => "aws_route_table_association"
  | AcmCertificate => "aws_acm_certificate"
  | SecurityGroup => "aws_security_group"
  | SecurityGroupRule => "aws_security_group_rule"
  | S3Bucket => "aws_s3_bucket"
  | S3BucketPolicy => "aws_s3_bucket_policy"
  | Lb => "aws_lb"
  | LbTargetGroup => "aws_lb_target_group"
  | LbListener => "aws_lb_listener"
  | CloudwatchLogGroup => "aws_cloudwatch_log_group"
  | SsmParameter => "aws_ssm_parameter"
  | EcsCluster => "aws_ecs_cluster"
  | EcrRepository => "aws_ecr_repository"
  | IamRole => "aws_iam_role"
  | IamRolePolicy => "aws_iam_role_policy"
  | EcsTaskDefinition => "aws_ecs_task_definition"
  | EcsService => "aws_ecs_service"
  | AppautoscalingTarget => "aws_appautoscaling_target"
  | AppautoscalingPolicy => "aws_appautoscaling_policy"
  end.

(** The object a constructor call [new K(scope, id, config)] creates. *)
Record Resource := mkResource {
  r_kind : Kind;
  r_path : list string;
  r_config : Config;
}.

(** The address of a resource in the generated configuration. *)
Definition fqn (r : Resource) : string :=
  terraformResourceType (r_kind r) ++ "." ++ String.concat "_" (r_path r).

(** A computed attribute: a reference resolved at provisioning time. *)
Definition attr (r : Resource) (a : string) : string :=
  "${" ++ fqn r ++ "." ++ a ++ "}".

(** An input attribute: the getter returns what the constructor was given. *)
Definition input (r : Resource) (a : string) : option value :=
  lookup a (r_config r).

Definition inputString (r : Resource) (a : string) : string :=
  match input r a with
  | Some (VStr s) => s
  | _ => "undefined"
  end.

Definition inputList (r : Resource) (a : string) : list value :=
  match input r a with
  | Some (VList l) => l
  | _ => []
  end.

Definition getArn (r : Resource) : string := attr r "arn".
Definition getId (r : Resource) : string := attr r "id".

(** ** The composition monad *)

Inductive result (A : Type) : Type :=
| Ok (a : A)
| Throw (msg : string).
Arguments Ok {A} a.
Arguments Throw {A} msg.

Inductive Event : Type :=
| Emit (r : Resource)
| Override (target : list string) (key : string) (v : value).

Definition M (A : Type) : Type := (result A * list Event)%type.

Definition outcome {A} (m : M A) : result A := fst m.
Definition events {A} (m : M A) : list Event := snd m.

Definition ret {A} (a : A) : M A := (Ok a, []).

Definition throw {A} (msg : string) : M A := (Throw msg, []).

Definition bind {A B} (m : M A) (f : A -> M B) : M B :=
  match m with
  | (Ok a, l) => let (r, l') := f a in (r, (l ++ l')%list)
  | (Throw msg, l) => (Throw msg, l)
  end.

Notation "x <- m ;; k" := (bind m (fun x => k))
  (at level 61, m at next level, right associativity).
Notation "m ;;; k" := (bind m (fun _ => k))
  (at level 61, right associativity).

(** [new K(scope, id, config)]: registers the object under [scope]. *)
Definition new (k : Kind) (scope : list string) (id : string)
    (config : Config) : M Resource :=
  let r := mkResource k (scope ++ [id])%list config in
  (Ok r, [Emit r]).

(** [r.addOverride(key, v)] *)
Definition addOverride (r : Resource) (key : string) (v : value) : M unit :=
  (Ok tt, [Override (r_path r) key v]).

(** [xs.forEach(f)] *)
Fixpoint forEach {A} (f : A -> M unit) (xs : list A) : M unit :=
  match xs with
  | [] => ret tt
  | x :: xs' => f x ;;; forEach f xs'
  end.

(** A loop whose body pushes one object on an array per element. *)
Fixpoint collect {A B} (f : A -> M B) (xs : list A) : M (list B) :=
  match xs with
  | [] => ret []
  | x :: xs' => y <- f x ;; ys <- collect f xs' ;; ret (y :: ys)
  end.

(** The indices of [for (let i = 0; i < n; ++i)]. *)
Definition upto (n : Z) : list nat := seq 0 (Z.to_nat n).

(** [xs.forEach((x, index) => ...)] *)
Definition indexed {A} (xs : list A) : list (A * nat) :=
  combine xs (seq 0 (List.length xs)).

(** ** Synthesis *)

Record Descriptor := mkDescriptor {
  d_resource : Resource;
  d_overrides : list (string * value);
}.

Fixpoint setOverride (k : string) (v : value) (o : list (string * value))
    : list (string * value) :=
  match o with
  | [] => [(k, v)]
  | (k', v') :: o' =>
      if String.eqb k' k then (k', v) :: o' else (k', v') :: setOverride k v o'
  end.

Fixpoint pathEqb (p q : list string) : bool :=
  match p, q with
  | [], [] => true
  | a :: p', b :: q' => String.eqb a b && pathEqb p' q'
  | _, _ => false
  end.

Definition applyEvent (ds : list Descriptor) (e : Event) : list Descriptor :=
  match e with
  | Emit r => (ds ++ [mkDescriptor r []])%list
  | Override target k v =>
      List.map (fun d =>
        if pathEqb (r_path (d_resource d)) target
        then mkDescriptor (d_resource d) (setOverride k v (d_overrides d))
        else d) ds
  end.

Definition replay (l : list Event) (ds : list Descriptor) : list Descriptor :=
  fold_left applyEvent l ds.

(** The descriptors handed to the provisioning tool. *)
Definition synth (l : list Event) : list Descriptor := replay l [].

(** ** Null overrides for unset optional fields *)

Module Utils.

(** [element[property]] for an element of a rule or route list *)
Definition field (k : string) (v : value) : option value :=
  match v with
  | VObj fields => lookup k fields
  | _ => None
  end.

(** [overrideNullValuesForSecurityGroupRule]: the rule's own properties. *)
Definition securityGroupRulePropertiesToOverride : list (string * string) :=
  [ ("description", "description");
    ("ipv6CidrBlocks", "ipv6_cidr_blocks");
    ("prefixListIds", "prefix_list_ids");
    ("sourceSecurityGroupId", "source_security_group_id");
    ("self", "self");
    ("cidrBlocks", "cidr_blocks") ].

Definition overrideNullValuesForSecurityGroupRule (securityGroupRule : Resource)
    : M Resource :=
  forEach (fun propertyToOverride : string * string =>
      if negb (truthy (input securityGroupRule (fst propertyToOverride)))
      then addOverride securityGroupRule (snd propertyToOverride) VNull
      else ret tt)
    securityGroupRulePropertiesToOverride ;;;
  ret securityGroupRule.

(** The loop shared by the security-group and route-table helpers: for
    each element of the list [block] of [r] and each property, a null
    override at [block.index.name] unless the element sets the property. *)
Definition overrideNullValuesIn (r : Resource) (block : string)
    (propertiesToOverride : list (string * string)) : M unit :=
  if Nat.eqb (List.length (inputList r block)) 0 then ret tt
  else
    forEach (fun element : value * nat =>
      forEach (fun propertyToOverride : string * string =>
          if negb (truthy (field (fst propertyToOverride) (fst element)))
          then addOverride r
                 (block ++ "." ++ Str.of_nat (snd element) ++ "."
                  ++ snd propertyToOverride) VNull
          else ret tt)
        propertiesToOverride)
      (indexed (inputList r block)).

Definition securityGroupPropertiesToOverride : list (string * string) :=
  [ ("description", "description");
    ("ipv6CidrBlocks", "ipv6_cidr_blocks");
    ("prefixListIds", "prefix_list_ids");
    ("securityGroups", "security_groups");
    ("self", "self");
    ("cidrBlocks", "cidr_blocks") ].

Definition overrideNullValuesForSecurityGroup (securityGroup : Resource)
    : M Resource :=
  overrideNullValuesIn securityGroup "ingress" securityGroupPropertiesToOverride ;;;
  overrideNullValuesIn securityGroup "egress" securityGroupPropertiesToOverride ;;;
  ret securityGroup.

Definition routeTablePropertiesToOverride : list (string * string) :=
  [ ("egressOnlyGatewayId", "egress_only_gateway_id");
    ("instanceId", "instance_id");
    ("ipv6CidrBlock", "ipv6_cidr_block");
    ("localGatewayId", "local_gateway_id");
    ("natGatewayId", "nat_gateway_id");
    ("networkInterfaceId", "network_interface_id");
    ("transitGatewayId", "transit_gateway_id");
    ("vpcPeeringConnectionId", "vpc_peering_connection_id");
    ("gatewayId", "gateway_id") ].

Definition overrideNullValuesForRouteTable (routeTable : Resource)
    : M Resource :=
  overrideNullValuesIn routeTable "route" routeTablePropertiesToOverride ;;;
  ret routeTable.

End Utils.

(** ** JavaScript objects used as maps *)

Module JS.

(** A plain object whose values are strings: its own properties, in
    insertion order. *)
Definition Object := list (string * string).

(** What a plain object inherits from [Object.prototype]: the name of each
    member, with the text a template literal prints for it.  The members
    are built-in functions, printed by Node as below, but for [__proto__],
    which reads the prototype itself. *)
Definition Object_prototype : list (string * string) :=
  [ ("constructor", "function Object() { [native code] }");
    ("__defineGetter__", "function __defineGetter__() { [native code] }");
    ("__defineSetter__", "function __defineSetter__() { [native code] }");
    ("hasOwnProperty", "function hasOwnProperty() { [native code] }");
    ("__lookupGetter__", "function __lookupGetter__() { [native code] }");
    ("__lookupSetter__", "function __lookupSetter__() { [native code] }");
    ("isPrototypeOf", "function isPrototypeOf() { [native code] }");
    ("propertyIsEnumerable",
      "function propertyIsEnumerable() { [native code] }");
    ("toString", "function toString() { [native code] }");
    ("valueOf", "function valueOf() { [native code] }");
    ("__proto__", "[object Object]");
    ("toLocaleString", "function toLocaleString() { [native code] }") ].

(** What a read finds: the string of an own property, a member inherited
    from [Object.prototype] (kept as the text it prints as), or nothing. *)
Inductive Read : Type :=
| Own (v : string)
| Inherited (printed : string)
| Undefined.

(** [o[k]] *)
Definition get (k : string) (o : Object) : Read :=
  match lookup k o with
  | Some v => Own v
  | None =>
      match lookup k Object_prototype with
      | Some printed => Inherited printed
      | None => Undefined
      end
  end.

(** The string a read stands for, in a template literal or where the
    property is an own one. *)
Definition print (r : Read) : string :=
  match r with
  | Own v => v
  | Inherited printed => printed
  | Undefined => "undefined"
  end.

Definition hasOwn (k : string) (o : Object) : bool :=
  match lookup k o with
  | Some _ => true
  | None => false
  end.

(** An own property is given the value [v]: an existing one keeps its
    place, a new one comes last. *)
Fixpoint setOwn (k v : string) (o : Object) : Object :=
  match o with
  | [] => [(k, v)]
  | (k', v') :: o' =>
      if String.eqb k' k then (k', v) :: o' else (k', v') :: setOwn k v o'
  end.

(** [o[k] = v] for a string [v].  Every member of [Object.prototype] is a
    writable data property, which the assignment shadows by an own one,
    but [__proto__]: its setter ignores a value that is not an object and
    leaves [o] as it is. *)
Definition set (k v : string) (o : Object) : Object :=
  if (String.eqb k "__proto__" && negb (hasOwn k o))%bool then o
  else setOwn k v o.

Fixpoint insertIndex (e : N * string) (l : list (N * string))
    : list (N * string) :=
  match l with
  | [] => [e]
  | e' :: l' => if (fst e <=? fst e')%N then e :: l else e' :: insertIndex e l'
  end.

Definition sortIndices (l : list (N * string)) : list (N * string) :=
  fold_right insertIndex [] l.

Fixpoint indexKeys (ks : list string) : list (N * string) :=
  match ks with
  | [] => []
  | k :: ks' =>
      match Str.arrayIndex k with
      | Some n => (n, k) :: indexKeys ks'
      | None => indexKeys ks'
      end
  end.

Definition nameKeys (ks : list string) : list string :=
  filter (fun k => match Str.arrayIndex k with
                   | Some _ => false
                   | None => true
                   end) ks.

(** [Object.keys(o)]: integer-like names in ascending order, then the
    other names in insertion order. *)
Definition keys (o : Object) : list string :=
  (List.map snd (sortIndices (indexKeys (List.map fst o)))
   ++ nameKeys (List.map fst o))%list.

End JS.

(** The environment variables of the application or of the builds. *)
Definition EnvironmentVariables := JS.Object.

(** ** The network unit *)

Module Network.

(** *** [VpcConstruct] *)

Record IVpcConstructProps := {
  vpc_resourceNamesPrefix : string;
}.

Definition VpcConstruct (scope : list string) (id : string) (props : IVpcConstructProps)
    : M Resource :=
  let this := (scope ++ [id])%list in
  new Vpc this "vpc"
    [ ("cidrBlock", VStr "10.0.0.0/16");
      ("enableDnsSupport", VBool true);
      ("enableDnsHostnames", VBool true);
      ("tags", VObj [("Name", VStr (vpc_resourceNamesPrefix props ++ "_vpc"))]) ].

(** *** [InternetGatewayConstruct] *)

Record IInternetGatewayConstructProps := {
  igw_resourceNamesPrefix : string;
  igw_vpc : Resource;
}.

Definition InternetGatewayConstruct (scope : list string) (id : string)
    (props : IInternetGatewayConstructProps) : M Resource :=
  let this := (scope ++ [id])%list in
  new InternetGateway this "internet_gateway"
    [ ("vpcId", VStr (getId (igw_vpc props)));
      ("tags", VObj [("Name",
          VStr (igw_resourceNamesPrefix props ++ "_internet_gateway"))]) ].

(** *** [SubnetsConstruct] *)

Record ISubnetsConstructProps := {
  sn_numberOfAvailabilityZonesUsed : Z;
  sn_resourceNamesPrefix : string;
  sn_vpc : Resource;
}.

Record Subnets := {
  privateSubnets : list Resource;
  publicSubnets : list Resource;
}.

Definition privateSubnet (this : list string) (props : ISubnetsConstructProps)
    (availabilityZones : Resource) (i : nat) : M Resource :=
  new Subnet this ("private_subnet_" ++ Str.of_nat (i + 1))
    [ ("availabilityZone",
        VStr ("${" ++ fqn availabilityZones ++ ".names[" ++ Str.of_nat i ++ "]}"));
      ("cidrBlock",
        VStr ("${cidrsubnet(" ++ Str.quote
              ++ inputString (sn_vpc props) "cidrBlock" ++ Str.quote
              ++ ", 8, " ++ Str.of_nat i ++ ")}"));
      ("vpcId", VStr (getId (sn_vpc props)));
      ("tags", VObj [("Name",
          VStr (sn_resourceNamesPrefix props ++ "_private_subnet_"
                ++ Str.of_nat (i + 1)))]);
      ("lifecycle", VObj [("createBeforeDestroy", VBool true)]) ].

Definition publicSubnet (this : list string) (props : ISubnetsConstructProps)
    (availabilityZones : Resource) (i : nat) : M Resource :=
  new Subnet this ("public_subnet_" ++ Str.of_nat (i + 1))
    [ ("availabilityZone",
        VStr ("${" ++ fqn availabilityZones ++ ".names[" ++ Str.of_nat i ++ "]}"));
      ("cidrBlock",
        VStr ("${cidrsubnet(" ++ Str.quote
              ++ inputString (sn_vpc props) "cidrBlock" ++ Str.quote
              ++ ", 8, " ++ Str.of_nat (i + 128) ++ ")}"));
      ("vpcId", VStr (getId (sn_vpc props)));
      ("tags", VObj [("Name",
          VStr (sn_resourceNamesPrefix props ++ "_public_subnet_"
                ++ Str.of_nat (i + 1)))]);
      ("mapPublicIpOnLaunch", VBool true);
      ("lifecycle", VObj [("createBeforeDestroy", VBool true)]) ].

Definition SubnetsConstruct (scope : list string) (id : string)
    (props : ISubnetsConstructProps) : M Subnets :=
  let this := (scope ++ [id])%list in
  availabilityZones <- new DataAwsAvailabilityZones this "availability_zone" [] ;;
  privates <- collect (privateSubnet this props availabilityZones)
                (upto (sn_numberOfAvailabilityZonesUsed props)) ;;
  (* An application load balancer requires at least two public subnets *)
  publics <- collect (publicSubnet this props availabilityZones)
               (upto (Z.max (sn_numberOfAvailabilityZonesUsed props) 2)) ;;
  ret {| privateSubnets := privates; publicSubnets := publics |}.

(** *** [ElasticIpsConstruct] *)

Record IElasticIpsConstructProps := {
  eip_internetGateway : Resource;
  eip_numberOfAvailabilityZonesUsed : Z;
  eip_resourceNamesPrefix : string;
}.

Definition elasticIp (this : list string) (props : IElasticIpsConstructProps)
    (i : nat) : M Resource :=
  new Eip this ("elastic_ip_" ++ Str.of_nat (i + 1))
    [ ("tags", VObj [("Name",
          VStr (eip_resourceNamesPrefix props ++ "_elastic_ip_for_nat_gateway_"
                ++ Str.of_nat (i + 1)))]);
      ("vpc", VBool true);
      ("dependsOn", VList [VStr (fqn (eip_internetGateway props))]) ].

Definition ElasticIpsConstruct (scope : list string) (id : string)
    (props : IElasticIpsConstructProps) : M (list Resource) :=
  let this := (scope ++ [id])%list in
  collect (elasticIp this props)
    (upto (eip_numberOfAvailabilityZonesUsed props)).

(** *** [NatGatewaysConstruct] *)

Record INatGatewaysConstructProps := {
  nat_elasticIps : list Resource;
  nat_internetGateway : Resource;
  nat_numberOfAvailabilityZonesUsed : Z;
  nat_publicSubnets : list Resource;
  nat_resourceNamesPrefix : string;
}.

(** [xs[i].id]; reading past the end of an array is a [TypeError]. *)
Definition idAt (xs : list Resource) (i : nat) : M string :=
  match nth_error xs i with
  | Some r => ret (getId r)
  | None => throw "TypeError: Cannot read property 'id' of undefined"
  end.

Definition natGateway (this : list string) (props : INatGatewaysConstructProps)
    (i : nat) : M Resource :=
  allocationId <- idAt (nat_elasticIps props) i ;;
  subnetId <- idAt (nat_publicSubnets props) i ;;
  new NatGateway this ("nat_gateway_" ++ Str.of_nat (i + 1))
    [ ("allocationId", VStr allocationId);
      ("subnetId", VStr subnetId);
      ("tags", VObj [("Name",
          VStr (nat_resourceNamesPrefix props ++ "_nat_gateway_"
                ++ Str.of_nat (i + 1)))]);
      ("dependsOn", VList [VStr (fqn (nat_internetGateway props))]) ].

Definition NatGatewaysConstruct (scope : list string) (id : string)
    (props : INatGatewaysConstructProps) : M (list Resource) :=
  let this := (scope ++ [id])%list in
  if Z.of_nat (List.length (nat_elasticIps props))
       <? nat_numberOfAvailabilityZonesUsed props
  then throw "The number of availability zones used must match the number of elastic IPs"
  else
  if Z.of_nat (List.length (nat_publicSubnets props))
       <? nat_numberOfAvailabilityZonesUsed props
  then throw "The number of availability zones used must match the number of public subnets"
  else
  collect (natGateway this props)
    (upto (nat_numberOfAvailabilityZonesUsed props)).

(** *** [RouteTablesConstruct] *)

Record IRouteTablesConstructProps := {
  rt_internetGateway : Resource;
  rt_natGateways : list Resource;
  rt_privateSubnets : list Resource;
  rt_publicSubnets : list Resource;
  rt_resourceNamesPrefix : string;
  rt_vpc : Resource;
}.

Record RouteTables := {
  privateSubnetsRouteTables : list Resource;
  publicSubnetsRouteTable : Resource;
}.

Definition privateSubnetsRouteTable (this : list string)
    (props : IRouteTablesConstructProps) (entry : Resource * nat)
    : M Resource :=
  let index := snd entry in
  natGatewayId <- idAt (rt_natGateways props) index ;;
  routeTable <- new RouteTable this
    ("private_subnets_route_table_" ++ Str.of_nat (index + 1))
    [ ("route", VList [VObj [ ("cidrBlock", VStr "0.0.0.0/0");
                              ("natGatewayId", VStr natGatewayId) ]]);
      ("tags", VObj [("Name",
          VStr (rt_resourceNamesPrefix props
                ++ "_route_table_for_private_subnet_"
                ++ Str.of_nat (index + 1)))]);
      ("vpcId", VStr (getId (rt_vpc props))) ] ;;
  Utils.overrideNullValuesForRouteTable routeTable.

Definition RouteTablesConstruct (scope : list string) (id : string)
    (props : IRouteTablesConstructProps) : M RouteTables :=
  let this := (scope ++ [id])%list in
  if negb (Nat.eqb (List.length (rt_natGateways props))
                   (List.length (rt_privateSubnets props)))
  then throw "The number of NAT gateways must match the number of private subnets"
  else
  created <- new RouteTable this "public_subnets_route_table"
    [ ("route", VList [VObj [ ("cidrBlock", VStr "0.0.0.0/0");
                              ("gatewayId",
                                VStr (getId (rt_internetGateway props))) ]]);
      ("tags", VObj [("Name",
          VStr (rt_resourceNamesPrefix props
                ++ "_route_table_for_public_subnets"))]);
      ("vpcId", VStr (getId (rt_vpc props))) ] ;;
  publicTable <- Utils.overrideNullValuesForRouteTable created ;;
  forEach (fun entry : Resource * nat =>
      new RouteTableAssociation this
        ("public_subnets_route_table_association_"
         ++ Str.of_nat (snd entry + 1))
        [ ("routeTableId", VStr (getId publicTable));
          ("subnetId", VStr (getId (fst entry))) ] ;;;
      ret tt)
    (indexed (rt_publicSubnets props)) ;;;
  privateTables <- collect (privateSubnetsRouteTable this props)
                     (indexed (rt_privateSubnets props)) ;;
  forEach (fun entry : Resource * nat =>
      routeTableId <- idAt privateTables (snd entry) ;;
      new RouteTableAssociation this
        ("private_subnets_route_table_association_"
         ++ Str.of_nat (snd entry + 1))
        [ ("routeTableId", VStr routeTableId);
          ("subnetId", VStr (getId (fst entry))) ] ;;;
      ret tt)
    (indexed (rt_privateSubnets props)) ;;;
  ret {| privateSubnetsRouteTables := privateTables;
         publicSubnetsRouteTable := publicTable |}.

(** *** [SslConstruct] *)

Record ISslConstructProps := {
  ssl_domainNames : list string;
  ssl_resourceNamesPrefix : string;
}.

Record IDnsRecord := {
  dns_name : string;
  dns_type : string;
  dns_value : string;
}.

Record Ssl := {
  acmCertificate : Resource;
  validationDns : list IDnsRecord;
}.

Definition validationOption (certificate : Resource) (index : nat)
    (what : string) : string :=
  "${tolist(" ++ fqn certificate ++ ".domain_validation_options)["
  ++ Str.quote ++ Str.of_nat index ++ Str.quote ++ "]." ++ what ++ "}".

Definition SslConstruct (scope : list string) (id : string) (props : ISslConstructProps)
    : M Ssl :=
  let this := (scope ++ [id])%list in
  match ssl_domainNames props with
  | [] => throw "You must specify at least one domain name"
  | first :: others =>
      certificate <- new AcmCertificate this "acm_certificate"
        [ ("domainName", VStr first);
          ("subjectAlternativeNames", VList (List.map VStr others));
          ("validationMethod", VStr "DNS");
          ("tags", VObj [("Name",
              VStr (ssl_resourceNamesPrefix props ++ "_acm_certificate"))]);
          ("lifecycle", VObj [("createBeforeDestroy", VBool true)]) ] ;;
      ret {| acmCertificate := certificate;
             validationDns :=
               List.map (fun entry : string * nat =>
                   {| dns_name := validationOption certificate (snd entry)
                                    "resource_record_name";
                      dns_type := validationOption certificate (snd entry)
                                    "resource_record_type";
                      dns_value := validationOption certificate (snd entry)
                                     "resource_record_value" |})
                 (indexed (ssl_domainNames props)) |}
  end.

(** *** [ApplicationLoadBalancerConstruct] *)

(** The AWS account ids that store the load balancer logs, by region. *)
Definition lbLogsBucketPolicyAccountIdDependingOnRegion : JS.Object :=
  [ ("us-east-1", "127311923021");
    ("us-east-2", "033677994240");
    ("us-west-1", "027434742980");
    ("us-west-2", "797873946194");
    ("af-south-1", "098369216593");
    ("ca-central-1", "985666609251");
    ("eu-central-1", "054676820928");
    ("eu-west-1", "156460612806");
    ("eu-west-2", "652711504416");
    ("eu-south-1", "635631232127");
    ("eu-west-3", "009996457667");
    ("eu-north-1", "897822967062");
    ("ap-east-1", "754344448648");
    ("ap-northeast-1", "582318560864");
    ("ap-northeast-2", "600734575887");
    ("ap-northeast-3", "383597477331");
    ("ap-southeast-1", "114774131450");
    ("ap-southeast-2", "783225319266");
    ("ap-south-1", "718504428378");
    ("me-south-1", "076674570225");
    ("sa-east-1", "507241528517");
    ("us-gov-west-1", "048591011584");
    ("us-gov-east-1", "190560391635");
    ("cn-north-1", "638102146993");
    ("cn-northwest-1", "037604701340") ].

Record IApplicationLoadBalancerConstructProps := {
  alb_acmCertificate : Resource;
  alb_currentAccount : Resource;
  alb_currentRegionAsString : string;
  alb_enableHttps : bool;
  alb_publicSubnets : list Resource;
  alb_resourceNamesPrefix : string;
  alb_vpc : Resource;
}.

Record ApplicationLoadBalancer := {
  alb_securityGroup : Resource;
  alb_securityGroupEgressRule : Resource;
  alb_self : Resource;
  alb_targetGroup : Resource;
}.

(** The principal allowed to write the access logs of the region: the
    template literal around
    [lbLogsBucketPolicyAccountIdDependingOnRegion[region]]. *)
Definition lbLogsPrincipal (region : string) : string :=
  "arn:aws:iam::"
  ++ JS.print (JS.get region lbLogsBucketPolicyAccountIdDependingOnRegion)
  ++ ":root".

Definition lbLogsBucketPolicyStatements (props : IApplicationLoadBalancerConstructProps)
    (bucket : Resource) : list value :=
  let objects :=
    "arn:aws:s3:::" ++ inputString bucket "bucket" ++ "/AWSLogs/"
    ++ attr (alb_currentAccount props) "account_id" ++ "/*" in
  [ VObj [ ("effect", VStr "Allow");
           ("principals", VList [VObj [
              ("type", VStr "AWS");
              ("identifiers", VList [
                 VStr (lbLogsPrincipal (alb_currentRegionAsString props))]) ]]);
           ("actions", VList [VStr "s3:PutObject"]);
           ("resources", VList [VStr objects]) ];
    VObj [ ("effect", VStr "Allow");
           ("principals", VList [VObj [
              ("type", VStr "Service");
              ("identifiers", VList [VStr "delivery.logs.amazonaws.com"]) ]]);
           ("actions", VList [VStr "s3:PutObject"]);
           ("resources", VList [VStr objects]);
           ("condition", VList [VObj [
              ("test", VStr "StringEquals");
              ("variable", VStr "s3:x-amz-acl");
              ("values", VList [VStr "bucket-owner-full-control"]) ]]) ];
    VObj [ ("effect", VStr "Allow");
           ("principals", VList [VObj [
              ("type", VStr "Service");
              ("identifiers", VList [VStr "delivery.logs.amazonaws.com"]) ]]);
           ("actions", VList [VStr "s3:GetBucketAcl"]);
           ("resources", VList [
              VStr ("arn:aws:s3:::" ++ inputString bucket "bucket")]) ] ].

(** The default action of the listener on port 80. *)
Definition httpDefaultAction (enableHttps : bool) (targetGroup : Resource)
    : value :=
  if enableHttps
  then VObj [ ("type", VStr "redirect");
              ("redirect", VList [VObj [ ("port", VStr "443");
                                         ("protocol", VStr "HTTPS");
                                         ("statusCode", VStr "HTTP_301") ]]) ]
  else VObj [ ("targetGroupArn", VStr (getArn targetGroup));
              ("type", VStr "forward") ].

Definition ApplicationLoadBalancerConstruct (scope : list string) (id : string)
    (props : IApplicationLoadBalancerConstructProps)
    : M ApplicationLoadBalancer :=
  let this := (scope ++ [id])%list in
  let prefix := alb_resourceNamesPrefix props in
  securityGroup <- new SecurityGroup this
    "application_load_balancer_security_group"
    [ ("description",
        VStr "Allow inbound HTTP/HTTPS traffic to application load balancer");
      ("name", VStr (prefix ++ "_lb_security_group"));
      ("tags", VObj [("Name", VStr (prefix ++ "_lb_security_group"))]);
      ("vpcId", VStr (getId (alb_vpc props))) ] ;;
  (* Security group rules avoid a cycle with the ECS task security group *)
  httpIngress <- new SecurityGroupRule this
    "application_load_balancer_security_group_http_ingress_rule"
    [ ("type", VStr "ingress");
      ("fromPort", VNum 80);
      ("toPort", VNum 80);
      ("protocol", VStr "tcp");
      ("cidrBlocks", VList [VStr "0.0.0.0/0"]);
      ("securityGroupId", VStr (getId securityGroup)) ] ;;
  Utils.overrideNullValuesForSecurityGroupRule httpIngress ;;;
  httpsIngress <- new SecurityGroupRule this
    "application_load_balancer_security_group_https_ingress_rule"
    [ ("type", VStr "ingress");
      ("fromPort", VNum 443);
      ("toPort", VNum 443);
      ("protocol", VStr "tcp");
      ("cidrBlocks", VList [VStr "0.0.0.0/0"]);
      ("securityGroupId", VStr (getId securityGroup)) ] ;;
  Utils.overrideNullValuesForSecurityGroupRule httpsIngress ;;;
  egress <- new SecurityGroupRule this
    "application_load_balancer_security_group_egress_rule"
    [ ("type", VStr "egress");
      ("fromPort", VNum 0);
      ("toPort", VNum 0);
      ("protocol", VStr "-1");
      ("securityGroupId", VStr (getId securityGroup));
      (* set to the ECS task security group by the root unit *)
      ("sourceSecurityGroupId", VStr EmptyString) ] ;;
  securityGroupEgressRule <- Utils.overrideNullValuesForSecurityGroupRule egress ;;
  logsBucket <- new S3Bucket this "application_load_balancer_logs_bucket"
    [ ("acl", VStr "private");
      ("bucket", VStr (Str.underscoresToDashes prefix ++ "-alb-logs-bucket"));
      ("forceDestroy", VBool true) ] ;;
  policyDocument <- new DataAwsIamPolicyDocument this
    "application_load_balancer_logs_bucket_policy_document"
    [ ("version", VStr "2012-10-17");
      ("statement", VList (lbLogsBucketPolicyStatements props logsBucket)) ] ;;
  new S3BucketPolicy this "application_load_balancer_logs_bucket_policy"
    [ ("bucket", VStr (inputString logsBucket "bucket"));
      ("policy", VStr (attr policyDocument "json"));
      ("dependsOn", VList [VStr (fqn logsBucket)]) ] ;;;
  self <- new Lb this "application_load_balancer"
    [ ("internal", VBool false);
      ("loadBalancerType", VStr "application");
      (* "name" cannot be longer than 32 characters *)
      ("name", VStr (Str.take 32 (Str.underscoresToDashes prefix)));
      ("securityGroups", VList [VStr (getId securityGroup)]);
      ("subnets", VList (List.map (fun publicSubnet => VStr (getId publicSubnet))
                           (alb_publicSubnets props)));
      ("accessLogs", VList [VObj [
          ("enabled", VBool true);
          ("bucket", VStr (inputString logsBucket "bucket")) ]]);
      ("dependsOn", VList [VStr (fqn logsBucket)]) ] ;;
  targetGroup <- new LbTargetGroup this
    "application_load_balancer_target_group"
    [ ("name", VStr (Str.take 32 (Str.underscoresToDashes prefix)));
      ("port", VNum 80);
      ("protocol", VStr "HTTP");
      ("targetType", VStr "ip");
      ("vpcId", VStr (getId (alb_vpc props)));
      ("healthCheck", VList [VObj [
          ("enabled", VBool true);
          ("healthyThreshold", VNum 5);
          ("interval", VNum 5);
          ("path", VStr "/");
          ("protocol", VStr "HTTP");
          ("timeout", VNum 4);
          ("unhealthyThreshold", VNum 2) ]]);
      ("dependsOn", VList [VStr (fqn self)]) ] ;;
  httpsListener <- new LbListener this
    "application_load_balancer_https_listener"
    [ ("certificateArn", VStr (getArn (alb_acmCertificate props)));
      ("defaultAction", VList [VObj [
          ("targetGroupArn", VStr (getArn targetGroup));
          ("type", VStr "forward") ]]);
      ("loadBalancerArn", VStr (getArn self));
      ("port", VNum 443);
      ("protocol", VStr "HTTPS");
      ("dependsOn", VList [ VStr (fqn targetGroup);
                            VStr (fqn (alb_acmCertificate props)) ]) ] ;;
  new LbListener this "application_load_balancer_http_listener"
    [ ("defaultAction",
        VList [httpDefaultAction (alb_enableHttps props) targetGroup]);
      ("loadBalancerArn", VStr (getArn self));
      ("port", VNum 80);
      ("protocol", VStr "HTTP");
      ("dependsOn",
        VList (if alb_enableHttps props
               then [VStr (fqn targetGroup); VStr (fqn httpsListener)]
               else [VStr (fqn targetGroup)])) ] ;;;
  ret {| alb_securityGroup := securityGroup;
         alb_securityGroupEgressRule := securityGroupEgressRule;
         alb_self := self;
         alb_targetGroup := targetGroup |}.

(** *** [NetworkConstruct] *)

Record INetworkProps := {
  net_currentAccount : Resource;
  net_currentRegionAsString : string;
  net_domainNames : list string;
  net_enableHttps : bool;
  net_numberOfAvailabilityZonesUsed : Z;
  net_resourceNamesPrefix : string;
}.

Record Network := {
  applicationLoadBalancer : Resource;
  applicationLoadBalancerSecurityGroup : Resource;
  applicationLoadBalancerSecurityGroupEgressRule : Resource;
  applicationLoadBalancerTargetGroup : Resource;
  net_privateSubnets : list Resource;
  sslValidationDnsRecords : list IDnsRecord;
  net_vpc : Resource;
}.

Definition NetworkConstruct (scope : list string) (id : string) (props : INetworkProps)
    : M Network :=
  let this := (scope ++ [id])%list in
  let prefix := net_resourceNamesPrefix props in
  let zones := net_numberOfAvailabilityZonesUsed props in
  vpc <- VpcConstruct this "vpc"
    {| vpc_resourceNamesPrefix := prefix |} ;;
  internetGateway <- InternetGatewayConstruct this "internet_gateway"
    {| igw_resourceNamesPrefix := prefix; igw_vpc := vpc |} ;;
  subnets <- SubnetsConstruct this "subnets"
    {| sn_resourceNamesPrefix := prefix;
       sn_vpc := vpc;
       sn_numberOfAvailabilityZonesUsed := zones |} ;;
  elasticIps <- ElasticIpsConstruct this "elastic_ips"
    {| eip_resourceNamesPrefix := prefix;
       eip_internetGateway := internetGateway;
       eip_numberOfAvailabilityZonesUsed := zones |} ;;
  natGateways <- NatGatewaysConstruct this "nat_gateways"
    {| nat_resourceNamesPrefix := prefix;
       nat_publicSubnets := publicSubnets subnets;
       nat_internetGateway := internetGateway;
       nat_elasticIps := elasticIps;
       nat_numberOfAvailabilityZonesUsed := zones |} ;;
  RouteTablesConstruct this "route_tables"
    {| rt_resourceNamesPrefix := prefix;
       rt_vpc := vpc;
       rt_internetGateway := internetGateway;
       rt_publicSubnets := publicSubnets subnets;
       rt_privateSubnets := privateSubnets subnets;
       rt_natGateways := natGateways |} ;;;
  ssl <- SslConstruct this "ssl"
    {| ssl_resourceNamesPrefix := prefix;
       ssl_domainNames := net_domainNames props |} ;;
  loadBalancer <- ApplicationLoadBalancerConstruct this "application_load_balancer"
    {| alb_resourceNamesPrefix := prefix;
       alb_publicSubnets := publicSubnets subnets;
       alb_vpc := vpc;
       alb_currentAccount := net_currentAccount props;
       alb_acmCertificate := acmCertificate ssl;
       alb_enableHttps := net_enableHttps props;
       alb_currentRegionAsString := net_currentRegionAsString props |} ;;
  ret {| applicationLoadBalancer := alb_self loadBalancer;
         applicationLoadBalancerSecurityGroup := alb_securityGroup loadBalancer;
         applicationLoadBalancerSecurityGroupEgressRule :=
           alb_securityGroupEgressRule loadBalancer;
         applicationLoadBalancerTargetGroup := alb_targetGroup loadBalancer;
         net_privateSubnets := privateSubnets subnets;
         sslValidationDnsRecords := validationDns ssl;
         net_vpc := vpc |}.

End Network.

(** ** What the embedding takes from outside the sources *)

Class Externals := {
  (** [utils/escapeTemplateForTerraform], not among the sources *)
  escapeTemplateForTerraform : string -> string;
  (** [JSON.stringify] *)
  JSON_stringify : value -> string;
  (** [Number(s)]; [NaN] is read as 0: every use is followed by a check
      that rejects both *)
  Number : string -> Z;
}.

(** ** The computing unit *)

Module Computing.

Section Constructs.

Context `{Externals}.

(** *** [EnvironmentVariablesConstruct] *)

Record IEnvironmentVariablesProps := {
  ev_buildsEnvironmentVariables : EnvironmentVariables;
  ev_environmentVariables : EnvironmentVariables;
  ev_resourceNamesPrefix : string;
}.

Record EnvironmentVariablesResources := {
  applicationEnvironmentVariables : list Resource;
  ev_builds : list Resource;
}.

(** One secret parameter; [purpose] is [application] or [builds] and
    [folder] the matching segment of the parameter name.  The name is one
    of [Object.keys(variables)], so that the read finds an own property,
    a string. *)
Definition ssmParameter (this : list string) (prefix purpose folder : string)
    (variables : EnvironmentVariables) (environmentVariableName : string)
    : M Resource :=
  new SsmParameter this
    ("ssm_parameter_" ++ purpose ++ "_"
     ++ Str.toLowerCase environmentVariableName)
    [ ("name", VStr ("/" ++ prefix ++ "/" ++ folder ++ "/"
                     ++ environmentVariableName));
      ("type", VStr "SecureString");
      ("value", VStr (escapeTemplateForTerraform
                        (JS.print (JS.get environmentVariableName variables))));
      ("tags", VObj [("name", VStr environmentVariableName)]) ].

Definition EnvironmentVariablesConstruct (scope : list string) (id : string)
    (props : IEnvironmentVariablesProps) : M EnvironmentVariablesResources :=
  let this := (scope ++ [id])%list in
  application <- collect
    (ssmParameter this (ev_resourceNamesPrefix props) "application"
       "fargate-tasks-env" (ev_environmentVariables props))
    (JS.keys (ev_environmentVariables props)) ;;
  builds <- collect
    (ssmParameter this (ev_resourceNamesPrefix props) "builds"
       "builds-env" (ev_buildsEnvironmentVariables props))
    (JS.keys (ev_buildsEnvironmentVariables props)) ;;
  ret {| applicationEnvironmentVariables := application;
         ev_builds := builds |}.

(** *** [ClusterConstruct] *)

Record IClusterProps := {
  cl_resourceNamesPrefix : string;
}.

Definition ClusterConstruct (scope : list string) (id : string)
    (props : IClusterProps) : M Resource :=
  let this := (scope ++ [id])%list in
  new EcsCluster this "fargate_cluster"
    [ ("name", VStr (cl_resourceNamesPrefix props ++ "_fargate_cluster")) ].

(** *** [RepositoryConstruct] *)

Record IRepositoryProps := {
  repo_dockerImageName : string;
  repo_resourceNamesPrefix : string;
}.

Definition RepositoryConstruct (scope : list string) (id : string)
    (props : IRepositoryProps) : M Resource :=
  let this := (scope ++ [id])%list in
  new EcrRepository this "ecr_repository"
    [ ("name", VStr (repo_resourceNamesPrefix props ++ "_ecr_repository/"
                     ++ repo_dockerImageName props)) ].

(** *** [ServiceConstruct] *)

Record IServiceConstructProps := {
  svc_applicationLoadBalancerTargetGroup : Resource;
  svc_cluster : Resource;
  svc_containerListenPort : Z;
  svc_containerName : string;
  svc_currentTaskDefinition : Resource;
  svc_mainTaskDefinition : Resource;
  svc_minimumNumberOfRunningTasks : Z;
  svc_privateSubnets : list Resource;
  svc_resourceNamesPrefix : string;
  svc_tasksSecurityGroup : Resource;
}.

(** The task definition of the service: the family and the greater of
    two revisions, as a formula for the provisioning tool. *)
Definition serviceTaskDefinition (mainTaskDefinition currentTaskDefinition
    : Resource) : string :=
  inputString mainTaskDefinition "family" ++ ":${max("
  ++ fqn mainTaskDefinition ++ ".revision, "
  ++ fqn currentTaskDefinition ++ ".revision)}".

Definition ServiceConstruct (scope : list string) (id : string)
    (props : IServiceConstructProps) : M Resource :=
  let this := (scope ++ [id])%list in
  if svc_minimumNumberOfRunningTasks props <? 1
  then throw "Your Fargate cluster must run at least one task"
  else
  new EcsService this "fargate_service"
    [ ("cluster", VStr (getId (svc_cluster props)));
      ("name", VStr (svc_resourceNamesPrefix props ++ "_fargate_service"));
      ("desiredCount", VNum (svc_minimumNumberOfRunningTasks props));
      ("healthCheckGracePeriodSeconds", VNum 240);
      ("deploymentMaximumPercent", VNum 200);
      ("deploymentMinimumHealthyPercent", VNum 100);
      ("launchType", VStr "FARGATE");
      ("platformVersion", VStr "1.4.0");
      ("loadBalancer", VList [VObj [
          ("containerName", VStr (svc_containerName props));
          ("containerPort", VNum (svc_containerListenPort props));
          ("targetGroupArn",
            VStr (getArn (svc_applicationLoadBalancerTargetGroup props))) ]]);
      ("networkConfiguration", VList [VObj [
          ("assignPublicIp", VBool false);
          ("securityGroups",
            VList [VStr (getId (svc_tasksSecurityGroup props))]);
          ("subnets",
            VList (List.map (fun privateSubnet => VStr (getId privateSubnet))
                     (svc_privateSubnets props))) ]]);
      ("taskDefinition",
        VStr (serviceTaskDefinition (svc_mainTaskDefinition props)
                (svc_currentTaskDefinition props)));
      (* Make sure to not overwrite auto-scaling *)
      ("lifecycle", VObj [("ignoreChanges", VList [VStr "desired_count"])]);
      ("dependsOn",
        VList [ VStr (fqn (svc_applicationLoadBalancerTargetGroup props));
                VStr (fqn (svc_mainTaskDefinition props)) ]) ].

(** *** [AutoScalingConstruct] *)

Record IAutoScalingProps := {
  as_cluster : Resource;
  as_cpuLimitPercent : Z;
  as_maximumNumberOfRunningTasks : Z;
  as_memoryLimitPercent : Z;
  as_minimumNumberOfRunningTasks : Z;
  as_resourceNamesPrefix : string;
  as_service : Resource;
}.

Definition autoScalingPolicy (this : list string) (id name metric : string)
    (target : Resource) (targetValue : Z) : M Resource :=
  new AppautoscalingPolicy this id
    [ ("name", VStr name);
      ("policyType", VStr "TargetTrackingScaling");
      ("resourceId", VStr (inputString target "resourceId"));
      ("scalableDimension", VStr (inputString target "scalableDimension"));
      ("serviceNamespace", VStr (inputString target "serviceNamespace"));
      ("targetTrackingScalingPolicyConfiguration", VList [VObj [
          ("predefinedMetricSpecification", VList [VObj [
              ("predefinedMetricType", VStr metric) ]]);
          ("scaleInCooldown", VNum 300);
          ("scaleOutCooldown", VNum 300);
          ("targetValue", VNum targetValue) ]]);
      ("dependsOn", VList [VStr (fqn target)]) ].

Definition AutoScalingConstruct (scope : list string) (id : string)
    (props : IAutoScalingProps) : M unit :=
  let this := (scope ++ [id])%list in
  if (as_memoryLimitPercent props <? 1) || (as_memoryLimitPercent props >? 100)
  then throw "Memory limit must be comprised between 1 and 100"
  else
  if (as_cpuLimitPercent props <? 1) || (as_cpuLimitPercent props >? 100)
  then throw "CPU limit must be comprised between 1 and 100"
  else
  if (as_minimumNumberOfRunningTasks props <? 1)
     || (as_maximumNumberOfRunningTasks props <? 1)
  then throw "Your Fargate cluster must run at least one task"
  else
  fargateAutoScalingTarget <- new AppautoscalingTarget this
    "fargate_auto_scaling_target"
    [ ("maxCapacity", VNum (as_maximumNumberOfRunningTasks props));
      ("minCapacity", VNum (as_minimumNumberOfRunningTasks props));
      ("resourceId",
        VStr ("service/" ++ inputString (as_cluster props) "name" ++ "/"
              ++ inputString (as_service props) "name"));
      ("scalableDimension", VStr "ecs:service:DesiredCount");
      ("serviceNamespace", VStr "ecs");
      ("dependsOn", VList [ VStr (fqn (as_cluster props));
                            VStr (fqn (as_service props)) ]) ] ;;
  autoScalingPolicy this "fargate_auto_scaling_cpu_policy"
    (as_resourceNamesPrefix props ++ "_fargate_auto_scaling_cpu_policy")
    "ECSServiceAverageCPUUtilization"
    fargateAutoScalingTarget (as_cpuLimitPercent props) ;;;
  autoScalingPolicy this "fargate_auto_scaling_memory_policy"
    (as_resourceNamesPrefix props ++ "_fargate_auto_scaling_memory_policy")
    "ECSServiceAverageMemoryUtilization"
    fargateAutoScalingTarget (as_memoryLimitPercent props) ;;;
  ret tt.

(** *** [TasksConstruct] *)

Record ITasksConstructProps := {
  tk_applicationLoadBalancerSecurityGroup : Resource;
  tk_containerListenPort : Z;
  tk_containerName : string;
  tk_containersLogsGroup : Resource;
  tk_currentAccount : Resource;
  tk_currentRegion : Resource;
  tk_ecrRepository : Resource;
  tk_environmentVariables : list Resource;
  tk_preDeployCommand : string;
  tk_resourceNamesPrefix : string;
  tk_tasksCpu : string;
  tk_tasksMemory : string;
  tk_vpc : Resource;
}.

Record Tasks := {
  currentDefinition : Resource;
  mainDefinition : Resource;
  preDeployDefinition : Resource;
  tk_securityGroup : Resource;
}.

(** [environmentVariable.tags!.name] *)
Definition tagName (r : Resource) : value :=
  match input r "tags" with
  | Some tags => match Utils.field "name" tags with
                 | Some v => v
                 | None => VNull
                 end
  | None => VNull
  end.

Definition logConfiguration (props : ITasksConstructProps) : value :=
  VObj [ ("logDriver", VStr "awslogs");
         ("options", VObj [
            ("awslogs-group",
              VStr (inputString (tk_containersLogsGroup props) "name"));
            ("awslogs-region", VStr (attr (tk_currentRegion props) "name"));
            ("awslogs-stream-prefix", VStr (tk_resourceNamesPrefix props)) ]) ].

Definition TasksConstruct (scope : list string) (id : string)
    (props : ITasksConstructProps) : M Tasks :=
  let this := (scope ++ [id])%list in
  let prefix := tk_resourceNamesPrefix props in
  fargateTasksAssumeRolePolicyDocument <- new DataAwsIamPolicyDocument this
    "fargate_tasks_assume_role_policy"
    [ ("version", VStr "2012-10-17");
      ("statement", VList [VObj [
          ("effect", VStr "Allow");
          ("principals", VList [VObj [
              ("type", VStr "Service");
              ("identifiers", VList [VStr "ecs-tasks.amazonaws.com"]) ]]);
          ("actions", VList [VStr "sts:AssumeRole"]) ]]) ] ;;
  fargateTasksExecutionRole <- new IamRole this "fargate_tasks_execution_role"
    [ ("assumeRolePolicy",
        VStr (attr fargateTasksAssumeRolePolicyDocument "json"));
      ("name", VStr (prefix ++ "_fargate_tasks_execution_role"));
      ("forceDetachPolicies", VBool true) ] ;;
  fargateTasksExecutionRolePolicyDocument <- new DataAwsIamPolicyDocument this
    "fargate_tasks_execution_role_policy_document"
    [ ("version", VStr "2012-10-17");
      ("statement", VList [
          VObj [ ("effect", VStr "Allow");
                 ("actions", VList [VStr "ecr:GetAuthorizationToken"]);
                 ("resources", VList [VStr "*"]) ];
          VObj [ ("effect", VStr "Allow");
                 ("actions", VList [ VStr "ecr:BatchCheckLayerAvailability";
                                     VStr "ecr:GetDownloadUrlForLayer";
                                     VStr "ecr:BatchGetImage" ]);
                 ("resources",
                   VList [VStr (getArn (tk_ecrRepository props))]) ];
          VObj [ ("effect", VStr "Allow");
                 ("actions", VList [ VStr "logs:CreateLogStream";
                                     VStr "logs:PutLogEvents" ]);
                 ("resources", VList [
                    VStr (getArn (tk_containersLogsGroup props));
                    VStr (getArn (tk_containersLogsGroup props) ++ ":*") ]) ];
          VObj [ ("effect", VStr "Allow");
                 ("actions", VList [VStr "ssm:GetParameters"]);
                 ("resources", VList [
                    VStr ("arn:aws:ssm:" ++ attr (tk_currentRegion props) "name"
                          ++ ":" ++ attr (tk_currentAccount props) "account_id"
                          ++ ":parameter/" ++ prefix
                          ++ "/fargate-tasks-env/*") ]) ] ]) ] ;;
  new IamRolePolicy this "fargate_tasks_execution_role_policy"
    [ ("name", VStr (prefix ++ "_fargate_tasks_execution_role_policy"));
      ("policy", VStr (attr fargateTasksExecutionRolePolicyDocument "json"));
      ("role", VStr (getId fargateTasksExecutionRole)) ] ;;;
  created <- new SecurityGroup this "fargate_tasks_security_group"
    [ ("description",
        VStr "Allow inbound access from the application load balancer only");
      ("egress", VList [VObj [
          ("fromPort", VNum 0);
          ("toPort", VNum 0);
          ("protocol", VStr "-1");
          ("cidrBlocks", VList [VStr "0.0.0.0/0"]) ]]);
      ("ingress", VList [VObj [
          ("fromPort", VNum 0);
          ("toPort", VNum 0);
          ("protocol", VStr "-1");
          ("securityGroups", VList [
              VStr (getId (tk_applicationLoadBalancerSecurityGroup props)) ]) ]]);
      ("name", VStr (prefix ++ "_fargate_tasks_security_group"));
      ("tags", VObj [("Name", VStr (prefix ++ "_fargate_tasks_security_group"))]);
      ("vpcId", VStr (getId (tk_vpc props))) ] ;;
  securityGroup <- Utils.overrideNullValuesForSecurityGroup created ;;
  let environmentVariablesAsTaskSecrets :=
    VList (List.map (fun environmentVariable =>
               VObj [ ("name", tagName environmentVariable);
                      ("valueFrom", VStr (getArn environmentVariable)) ])
             (tk_environmentVariables props)) in
  main <- new EcsTaskDefinition this "main_fargate_tasks_definition"
    [ ("containerDefinitions", VStr (JSON_stringify (VList [VObj [
          ("name", VStr (tk_containerName props));
          ("image", VStr (attr (tk_ecrRepository props) "repository_url"));
          ("portMappings", VList [VObj [
              ("protocol", VStr "tcp");
              ("containerPort", VNum (tk_containerListenPort props));
              ("hostPort", VNum (tk_containerListenPort props)) ]]);
          ("logConfiguration", logConfiguration props);
          ("secrets", environmentVariablesAsTaskSecrets);
          ("essential", VBool true) ]])));
      ("cpu", VStr (tk_tasksCpu props));
      ("executionRoleArn", VStr (getArn fargateTasksExecutionRole));
      ("family", VStr (prefix ++ "_fargate_tasks"));
      ("memory", VStr (tk_tasksMemory props));
      ("networkMode", VStr "awsvpc");
      ("requiresCompatibilities", VList [VStr "FARGATE"]);
      ("dependsOn", VList [ VStr (fqn fargateTasksExecutionRole);
                            VStr (fqn (tk_ecrRepository props)) ]) ] ;;
  preDeploy <- new EcsTaskDefinition this "pre_deploy_fargate_tasks_definition"
    [ ("containerDefinitions", VStr (JSON_stringify (VList [VObj [
          ("name", VStr (tk_containerName props));
          ("image",
            VStr (attr (tk_ecrRepository props) "repository_url" ++ ":latest"));
          ("logConfiguration", logConfiguration props);
          ("entryPoint", VList [VStr "sh"; VStr "-c"]);
          ("command", VList [
              VStr (escapeTemplateForTerraform (tk_preDeployCommand props)) ]);
          ("secrets", environmentVariablesAsTaskSecrets);
          ("essential", VBool true) ]])));
      ("cpu", VStr (tk_tasksCpu props));
      ("executionRoleArn", VStr (getArn fargateTasksExecutionRole));
      ("family", VStr (prefix ++ "_fargate_pre_deploy_task"));
      ("memory", VStr (tk_tasksMemory props));
      ("networkMode", VStr "awsvpc");
      ("requiresCompatibilities", VList [VStr "FARGATE"]);
      ("dependsOn", VList [ VStr (fqn fargateTasksExecutionRole);
                            VStr (fqn (tk_ecrRepository props)) ]) ] ;;
  current <- new DataAwsEcsTaskDefinition this
    "current_main_fargate_tasks_definition"
    [ ("taskDefinition", VStr (inputString main "family"));
      ("dependsOn", VList [VStr (fqn main)]) ] ;;
  ret {| currentDefinition := current;
         mainDefinition := main;
         preDeployDefinition := preDeploy;
         tk_securityGroup := securityGroup |}.

(** *** [ComputingConstruct] *)

Record IComputingConstructProps := {
  applicationLoadBalancerSecurityGroup : Resource;
  applicationLoadBalancerTargetGroup : Resource;
  autoScalingCpuLimitPercent : Z;
  autoScalingMemoryLimitPercent : Z;
  buildsEnvironmentVariables : EnvironmentVariables;
  containerListenPort : Z;
  containerName : string;
  currentAccount : Resource;
  currentRegion : Resource;
  dockerImageName : string;
  enableAutoScaling : bool;
  environmentVariables : EnvironmentVariables;
  fargateTasksCpu : string;
  fargateTasksMemory : string;
  maximumNumberOfRunningFargateTasks : Z;
  minimumNumberOfRunningFargateTasks : Z;
  preDeployCommand : string;
  privateSubnets : list Resource;
  resourceNamesPrefix : string;
  vpc : Resource;
}.

Record Computing := {
  cp_buildsEnvironmentVariables : list Resource;
  containersLogsGroup : Resource;
  ecrRepository : Resource;
  fargateCluster : Resource;
  fargateService : Resource;
  fargateTasksSecurityGroup : Resource;
  predeployFargateTaskDefinition : Resource;
}.

Definition ComputingConstruct (scope : list string) (id : string)
    (props : IComputingConstructProps) : M Computing :=
  let this := (scope ++ [id])%list in
  logsGroup <- new CloudwatchLogGroup this "containers_logs_group"
    [ ("name", VStr (resourceNamesPrefix props ++ "_fargate_containers")) ] ;;
  variables <- EnvironmentVariablesConstruct this "environment_variables"
    {| ev_buildsEnvironmentVariables := buildsEnvironmentVariables props;
       ev_environmentVariables := environmentVariables props;
       ev_resourceNamesPrefix := resourceNamesPrefix props |} ;;
  cluster <- ClusterConstruct this "cluster"
    {| cl_resourceNamesPrefix := resourceNamesPrefix props |} ;;
  repository <- RepositoryConstruct this "repository"
    {| repo_resourceNamesPrefix := resourceNamesPrefix props;
       repo_dockerImageName := dockerImageName props |} ;;
  tasks <- TasksConstruct this "task"
    {| tk_resourceNamesPrefix := resourceNamesPrefix props;
       tk_tasksCpu := fargateTasksCpu props;
       tk_tasksMemory := fargateTasksMemory props;
       tk_vpc := vpc props;
       tk_currentAccount := currentAccount props;
       tk_currentRegion := currentRegion props;
       tk_containersLogsGroup := logsGroup;
       tk_containerListenPort := containerListenPort props;
       tk_containerName := containerName props;
       tk_applicationLoadBalancerSecurityGroup :=
         applicationLoadBalancerSecurityGroup props;
       tk_ecrRepository := repository;
       tk_environmentVariables := applicationEnvironmentVariables variables;
       tk_preDeployCommand := preDeployCommand props |} ;;
  service <- ServiceConstruct this "service"
    {| svc_resourceNamesPrefix := resourceNamesPrefix props;
       svc_containerListenPort := containerListenPort props;
       svc_containerName := containerName props;
       svc_applicationLoadBalancerTargetGroup :=
         applicationLoadBalancerTargetGroup props;
       svc_privateSubnets := privateSubnets props;
       svc_tasksSecurityGroup := tk_securityGroup tasks;
       svc_mainTaskDefinition := mainDefinition tasks;
       svc_minimumNumberOfRunningTasks :=
         minimumNumberOfRunningFargateTasks props;
       svc_currentTaskDefinition := currentDefinition tasks;
       svc_cluster := cluster |} ;;
  (if enableAutoScaling props
   then AutoScalingConstruct this "auto_scaling"
     {| as_resourceNamesPrefix := resourceNamesPrefix props;
        as_cluster := cluster;
        as_cpuLimitPercent := autoScalingCpuLimitPercent props;
        as_memoryLimitPercent := autoScalingMemoryLimitPercent props;
        as_maximumNumberOfRunningTasks :=
          maximumNumberOfRunningFargateTasks props;
        as_minimumNumberOfRunningTasks :=
          minimumNumberOfRunningFargateTasks props;
        as_service := service |}
   else ret tt) ;;;
  ret {| cp_buildsEnvironmentVariables := ev_builds variables;
         containersLogsGroup := logsGroup;
         ecrRepository := repository;
         fargateCluster := cluster;
         fargateService := service;
         fargateTasksSecurityGroup := tk_securityGroup tasks;
         predeployFargateTaskDefinition := preDeployDefinition tasks |}.

End Constructs.

End Computing.

(** ** The continuous-deployment unit: its security group *)

Module ContinuousDeployment.

(** The security group of [BuildsConstruct], the only security group,
    rule or route table of the continuous-deployment and dashboard
    units. *)
Definition codebuildSecurityGroup (this : list string)
    (resourceNamesPrefix : string) (vpc : Resource) : M Resource :=
  created <- new SecurityGroup this "codebuild_security_group"
    [ ("description",
        VStr "Allow outbound access to CodeBuild from our vpc");
      ("egress", VList [VObj [
          ("cidrBlocks", VList [VStr "0.0.0.0/0"]);
          ("fromPort", VNum 0);
          ("protocol", VStr "-1");
          ("toPort", VNum 0) ]]);
      ("name", VStr (resourceNamesPrefix ++ "_codebuild_security_group"));
      ("tags", VObj [("Name",
          VStr (resourceNamesPrefix ++ "_codebuild_security_group"))]);
      ("vpcId", VStr (getId vpc)) ] ;;
  Utils.overrideNullValuesForSecurityGroup created.

End ContinuousDeployment.

(** ** The root unit *)

Module Root.

(** [process.env], as its interface is declared: the named variables and
    an index signature for all others. *)
Record ProcessEnv := {
  CONTAINER_LISTEN_PORT : string;
  DOMAIN_NAMES : string;
  ENABLE_AUTO_SCALING : string;
  ENABLE_HTTPS : string;
  FARGATE_TASKS_CPU : string;
  FARGATE_TASKS_MEMORY : string;
  GITHUB_BRANCH : string;
  GITHUB_OAUTH_TOKEN : string;
  GITHUB_REPO : string;
  GITHUB_REPO_OWNER : string;
  GITHUB_WEBHOOK_TOKEN : string;
  NODE_ENV : string;
  NUMBER_OF_AVAILABILITY_ZONES_USED : string;
  PRE_DEPLOY_COMMAND : string;
  SCAFFOLD_AWS_PROFILE : string;
  SCAFFOLD_AWS_REGION : string;
  SCAFFOLD_AWS_S3_BACKEND_BUCKET : string;
  SCAFFOLD_AWS_S3_BACKEND_DYNAMODB_TABLE : string;
  SCAFFOLD_AWS_S3_BACKEND_KEY : string;
  SCAFFOLD_RESOURCE_NAMES_PREFIX : string;
  others : list (string * string);
}.

Definition entries (env : ProcessEnv) : list (string * string) :=
  ([ ("CONTAINER_LISTEN_PORT", CONTAINER_LISTEN_PORT env);
     ("DOMAIN_NAMES", DOMAIN_NAMES env);
     ("ENABLE_AUTO_SCALING", ENABLE_AUTO_SCALING env);
     ("ENABLE_HTTPS", ENABLE_HTTPS env);
     ("FARGATE_TASKS_CPU", FARGATE_TASKS_CPU env);
     ("FARGATE_TASKS_MEMORY", FARGATE_TASKS_MEMORY env);
     ("GITHUB_BRANCH", GITHUB_BRANCH env);
     ("GITHUB_OAUTH_TOKEN", GITHUB_OAUTH_TOKEN env);
     ("GITHUB_REPO", GITHUB_REPO env);
     ("GITHUB_REPO_OWNER", GITHUB_REPO_OWNER env);
     ("GITHUB_WEBHOOK_TOKEN", GITHUB_WEBHOOK_TOKEN env);
     ("NODE_ENV", NODE_ENV env);
     ("NUMBER_OF_AVAILABILITY_ZONES_USED",
       NUMBER_OF_AVAILABILITY_ZONES_USED env);
     ("PRE_DEPLOY_COMMAND", PRE_DEPLOY_COMMAND env);
     ("SCAFFOLD_AWS_PROFILE", SCAFFOLD_AWS_PROFILE env);
     ("SCAFFOLD_AWS_REGION", SCAFFOLD_AWS_REGION env);
     ("SCAFFOLD_AWS_S3_BACKEND_BUCKET", SCAFFOLD_AWS_S3_BACKEND_BUCKET env);
     ("SCAFFOLD_AWS_S3_BACKEND_DYNAMODB_TABLE",
       SCAFFOLD_AWS_S3_BACKEND_DYNAMODB_TABLE env);
     ("SCAFFOLD_AWS_S3_BACKEND_KEY", SCAFFOLD_AWS_S3_BACKEND_KEY env);
     ("SCAFFOLD_RESOURCE_NAMES_PREFIX", SCAFFOLD_RESOURCE_NAMES_PREFIX env) ]
   ++ others env)%list.

(** [Object.keys(process.env)] *)
Definition Object_keys (env : ProcessEnv) : list string :=
  List.map fst (entries env).

(** [process.env[key]] for a key of [Object.keys(process.env)] *)
Definition valueOf (env : ProcessEnv) (key : string) : string :=
  template (lookup key (entries env)).

(** The variables whose name starts with [prefix], under the name without
    it: the [filter] and [reduce] of the root unit. *)
Definition variablesPrefixed (prefix : string) (env : ProcessEnv)
    : EnvironmentVariables :=
  fold_left
    (fun acc environmentVariableKey =>
       JS.set (Str.stripPrefix prefix environmentVariableKey)
         (valueOf env environmentVariableKey) acc)
    (filter (Str.startsWith prefix) (Object_keys env))
    [].

Record Stack := {
  network : Network.Network;
  computing : Computing.Computing;
}.

Section Constructs.

Context `{Externals}.

(** The constructor of the stack up to the patch of the load balancer's
    egress rule.  The continuous-deployment unit, the dashboard unit and
    the outputs follow it in the source. *)
Definition ScaffoldAWSServerlessDocker (scope : list string) (id : string)
    (env : ProcessEnv) : M Stack :=
  let this := (scope ++ [id])%list in
  forEach (fun environmentVariableName =>
      if negb (Str.matchesName environmentVariableName)
      then throw "Environment variable names must match /^[a-z0-9_-]+$/i format"
      else ret tt)
    (Object_keys env) ;;;
  let resourceNamesPrefix := SCAFFOLD_RESOURCE_NAMES_PREFIX env in
  let numberOfAvailabilityZonesUsed :=
    Number (NUMBER_OF_AVAILABILITY_ZONES_USED env) in
  if numberOfAvailabilityZonesUsed =? 0
  then throw "Invalid number of availability zones used"
  else
  let enableAutoScaling := String.eqb (ENABLE_AUTO_SCALING env) "true" in
  let autoScalingMemoryLimitPercent := 75 in
  let autoScalingCpuLimitPercent := 75 in
  let minimumNumberOfRunningFargateTasks := numberOfAvailabilityZonesUsed in
  (* Math.ceil(minimum * 1.5) *)
  let maximumNumberOfRunningFargateTasks :=
    (3 * minimumNumberOfRunningFargateTasks + 1) / 2 in
  let dockerImageName := "main" in
  let containerName := "main" in
  let containerListenPort := Number (CONTAINER_LISTEN_PORT env) in
  if containerListenPort =? 0
  then throw "Invalid container listen port"
  else
  let domainNames := Str.split "," (DOMAIN_NAMES env) in
  let enableHttps := String.eqb (ENABLE_HTTPS env) "true" in
  let preDeployCommand :=
    if String.eqb (PRE_DEPLOY_COMMAND env) EmptyString
    then "echo No pre-deploy command"
    else PRE_DEPLOY_COMMAND env in
  let environmentVariables := variablesPrefixed "APPLICATION_" env in
  let buildsEnvironmentVariables := variablesPrefixed "BUILD_" env in
  let awsRegion := SCAFFOLD_AWS_REGION env in
  let awsProfile := SCAFFOLD_AWS_PROFILE env in
  new TerraformBackendS3 this "backend"
    [ ("key", VStr (SCAFFOLD_AWS_S3_BACKEND_KEY env));
      ("bucket", VStr (SCAFFOLD_AWS_S3_BACKEND_BUCKET env));
      ("dynamodbTable", VStr (SCAFFOLD_AWS_S3_BACKEND_DYNAMODB_TABLE env));
      ("encrypt", VBool true);
      ("region", VStr awsRegion);
      ("profile", VStr awsProfile) ] ;;;
  new AwsProvider this "aws"
    [ ("region", VStr awsRegion); ("profile", VStr awsProfile) ] ;;;
  currentRegion <- new DataAwsRegion this "current_region" [] ;;
  currentAccount <- new DataAwsCallerIdentity this "current_account" [] ;;
  network <- Network.NetworkConstruct this "network"
    {| Network.net_resourceNamesPrefix := resourceNamesPrefix;
       Network.net_currentAccount := currentAccount;
       Network.net_domainNames := domainNames;
       Network.net_enableHttps := enableHttps;
       Network.net_currentRegionAsString := awsRegion;
       Network.net_numberOfAvailabilityZonesUsed :=
         numberOfAvailabilityZonesUsed |} ;;
  computing <- Computing.ComputingConstruct this "computing"
    {| Computing.autoScalingCpuLimitPercent := autoScalingCpuLimitPercent;
       Computing.autoScalingMemoryLimitPercent := autoScalingMemoryLimitPercent;
       Computing.buildsEnvironmentVariables := buildsEnvironmentVariables;
       Computing.resourceNamesPrefix := resourceNamesPrefix;
       Computing.dockerImageName := dockerImageName;
       Computing.containerName := containerName;
       Computing.containerListenPort := containerListenPort;
       Computing.enableAutoScaling := enableAutoScaling;
       Computing.fargateTasksCpu := FARGATE_TASKS_CPU env;
       Computing.fargateTasksMemory := FARGATE_TASKS_MEMORY env;
       Computing.privateSubnets := Network.net_privateSubnets network;
       Computing.currentAccount := currentAccount;
       Computing.currentRegion := currentRegion;
       Computing.vpc := Network.net_vpc network;
       Computing.applicationLoadBalancerSecurityGroup :=
         Network.applicationLoadBalancerSecurityGroup network;
       Computing.applicationLoadBalancerTargetGroup :=
         Network.applicationLoadBalancerTargetGroup network;
       Computing.environmentVariables := environmentVariables;
       Computing.preDeployCommand := preDeployCommand;
       Computing.minimumNumberOfRunningFargateTasks :=
         minimumNumberOfRunningFargateTasks;
       Computing.maximumNumberOfRunningFargateTasks :=
         maximumNumberOfRunningFargateTasks |} ;;
  (* Prevent a cycle with the ECS task security group:
     only allow outbound traffic to the Fargate tasks. *)
  addOverride (Network.applicationLoadBalancerSecurityGroupEgressRule network)
    "source_security_group_id"
    (VStr (getId (Computing.fargateTasksSecurityGroup computing))) ;;;
  ret {| network := network; computing := computing |}.

End Constructs.

End Root.

(** ** The continuous-deployment unit up to the role of the builds *)

Module Builds.


(** What the constructor holds when it reaches its CodeBuild projects. *)
Record BuildsRole := {
  securityGroup : Resource;
  buildsRole : Resource;
  buildsRolePolicyDocument : Resource;
}.



End Builds.

Module Deployment.




Record ContinuousDeployment := {
  pipelineS3Bucket : Resource;
  builds : Builds.BuildsRole;
}.


End Deployment.

(** ** Measuring the output *)

(** The resources a log registers, in order. *)
Fixpoint emitted (l : list Event) : list Resource :=
  match l with
  | [] => []
  | Emit r :: l' => r :: emitted l'
  | Override _ _ _ :: l' => emitted l'
  end.

(** How many descriptors of the output satisfy [p]. *)
Definition countDescriptors (p : Resource -> bool) (ds : list Descriptor) : nat :=
  List.length (filter (fun d => p (d_resource d)) ds).

Definition isKind (k : Kind) (r : Resource) : bool :=
  match r_kind r, k with
  | Subnet, Subnet | Eip, Eip | NatGateway, NatGateway
  | LbListener, LbListener | AcmCertificate, AcmCertificate
  | AppautoscalingTarget, AppautoscalingTarget
  | AppautoscalingPolicy, AppautoscalingPolicy
  | SecurityGroup, SecurityGroup | SecurityGroupRule, SecurityGroupRule
  | RouteTable, RouteTable | EcsService, EcsService => true
  | _, _ => false
  end.

(** A public subnet maps a public address on launch. *)
Definition isPublicSubnet (r : Resource) : bool :=
  isKind Subnet r && truthy (input r "mapPublicIpOnLaunch").

Definition isPrivateSubnet (r : Resource) : bool :=
  isKind Subnet r && negb (truthy (input r "mapPublicIpOnLaunch")).

(** A step into a configuration value: a property or a list index. *)
Inductive Step :=
| Key (k : string)
| Index (n : nat).

Fixpoint valueAt (path : list Step) (v : value) : option value :=
  match path with
  | [] => Some v
  | Key k :: rest =>
      match v with
      | VObj fields =>
          match lookup k fields with
          | Some v' => valueAt rest v'
          | None => None
          end
      | _ => None
      end
  | Index n :: rest =>
      match v with
      | VList l =>
          match nth_error l n with
          | Some v' => valueAt rest v'
          | None => None
          end
      | _ => None
      end
  end.

(** The value at a path of a resource's configuration. *)
Definition configAt (r : Resource) (path : list Step) : option value :=
  valueAt path (VObj (r_config r)).

Definition isAutoScaling (r : Resource) : bool :=
  isKind AppautoscalingTarget r || isKind AppautoscalingPolicy r.

(** A target-tracking policy on [metric] with target value [limit] and
    cooldowns of 300 seconds. *)
Definition trackingPolicy (metric : string) (limit : Z) (r : Resource) : Prop :=
  let configuration :=
    [Key "targetTrackingScalingPolicyConfiguration"; Index 0] in
  r_kind r = AppautoscalingPolicy
  /\ input r "policyType" = Some (VStr "TargetTrackingScaling")
  /\ configAt r (configuration ++ [Key "predefinedMetricSpecification";
                                   Index 0; Key "predefinedMetricType"])
     = Some (VStr metric)
  /\ configAt r (configuration ++ [Key "scaleInCooldown"]) = Some (VNum 300)
  /\ configAt r (configuration ++ [Key "scaleOutCooldown"]) = Some (VNum 300)
  /\ configAt r (configuration ++ [Key "targetValue"]) = Some (VNum limit).

(** The log registers no resource satisfying [p]. *)
Definition without (p : Resource -> bool) (l : list Event) : Prop :=
  Forall (fun r => p r = false) (emitted l).

(** The computation returns. *)
Definition succeeds {A} (m : M A) : Prop := exists a, outcome m = Ok a.

Definition outsidePercent (limit : Z) : Prop := limit < 1 \/ 100 < limit.

(** [props] with the auto-scaling flag set to [flag]. *)
Definition withAutoScaling (flag : bool)
    (props : Computing.IComputingConstructProps)
    : Computing.IComputingConstructProps :=
  {| Computing.applicationLoadBalancerSecurityGroup :=
       Computing.applicationLoadBalancerSecurityGroup props;
     Computing.applicationLoadBalancerTargetGroup :=
       Computing.applicationLoadBalancerTargetGroup props;
     Computing.autoScalingCpuLimitPercent :=
       Computing.autoScalingCpuLimitPercent props;
     Computing.autoScalingMemoryLimitPercent :=
       Computing.autoScalingMemoryLimitPercent props;
     Computing.buildsEnvironmentVariables :=
       Computing.buildsEnvironmentVariables props;
     Computing.containerListenPort := Computing.containerListenPort props;
     Computing.containerName := Computing.containerName props;
     Computing.currentAccount := Computing.currentAccount props;
     Computing.currentRegion := Computing.currentRegion props;
     Computing.dockerImageName := Computing.dockerImageName props;
     Computing.enableAutoScaling := flag;
     Computing.environmentVariables := Computing.environmentVariables props;
     Computing.fargateTasksCpu := Computing.fargateTasksCpu props;
     Computing.fargateTasksMemory := Computing.fargateTasksMemory props;
     Computing.maximumNumberOfRunningFargateTasks :=
       Computing.maximumNumberOfRunningFargateTasks props;
     Computing.minimumNumberOfRunningFargateTasks :=
       Computing.minimumNumberOfRunningFargateTasks props;
     Computing.preDeployCommand := Computing.preDeployCommand props;
     Computing.privateSubnets := Computing.privateSubnets props;
     Computing.resourceNamesPrefix := Computing.resourceNamesPrefix props;
     Computing.vpc := Computing.vpc props |}.

(** A name under which the reduce of the root unit keeps a variable: any
    name but [__proto__], which an assignment to a plain object drops. *)
Definition kept (name : string) : bool :=
  negb (String.eqb name "__proto__").

(** The variable a secret parameter stands for: its [name] tag. *)
Definition secretSuffix (r : Resource) : string :=
  match configAt r [Key "tags"; Key "name"] with
  | Some (VStr s) => s
  | _ => EmptyString
  end.


(** The optional fields of the elements of the list [block] of [r]: the
    value the element gives to each, and the key of its override. *)
Definition elementFields (block : string)
    (properties : list (string * string)) (r : Resource)
    : list (option value * string) :=
  flat_map (fun element : value * nat =>
      List.map (fun property : string * string =>
          (Utils.field (fst property) (fst element),
           block ++ "." ++ Str.of_nat (snd element) ++ "." ++ snd property))
        properties)
    (indexed (inputList r block)).

(** The known optional fields of a security group rule, of the rules of
    a security group and of the routes of a route table. *)
Definition optionalFields (r : Resource) : list (option value * string) :=
  match r_kind r with
  | SecurityGroupRule =>
      List.map (fun property : string * string =>
          (input r (fst property), snd property))
        Utils.securityGroupRulePropertiesToOverride
  | SecurityGroup =>
      (elementFields "ingress" Utils.securityGroupPropertiesToOverride r
       ++ elementFields "egress" Utils.securityGroupPropertiesToOverride r)%list
  | RouteTable =>
      elementFields "route" Utils.routeTablePropertiesToOverride r
  | _ => []
  end.

(** The keys of the fields that are not set to a truthy value. *)
Definition nullKeys (fields : list (option value * string)) : list string :=
  List.map snd (filter (fun f => negb (truthy (fst f))) fields).

(** The value of a field in a synthesized descriptor: an override wins
    over the configuration. *)
Definition fieldValue (d : Descriptor) (f : option value * string)
    : option value :=
  match lookup (snd f) (d_overrides d) with
  | Some v => Some v
  | None => fst f
  end.

(** Every known optional field that the configuration of the descriptor
    does not set to a truthy value has an explicit null override. *)
Definition nulled (d : Descriptor) : Prop :=
  forall f, In f (optionalFields (d_resource d)) ->
    truthy (fst f) = false -> lookup (snd f) (d_overrides d) = Some VNull.

(** Every known optional field of the descriptor that is not set to a
    truthy value, by the configuration or by an override, has an explicit
    null override. *)
Definition normalised (d : Descriptor) : Prop :=
  forall f, In f (optionalFields (d_resource d)) ->
    truthy (fieldValue d f) = true
    \/ lookup (snd f) (d_overrides d) = Some VNull.

(** The invariant behind both: an override of a known optional field is
    null or [allowed], and a field without override is set to a truthy
    value by the configuration. *)
Definition settled (allowed : value -> Prop) (d : Descriptor) : Prop :=
  forall f, In f (optionalFields (d_resource d)) ->
    match lookup (snd f) (d_overrides d) with
    | Some v => v = VNull \/ allowed v
    | None => truthy (fst f) = true
    end.

Definition onlyNull (v : value) : Prop := False.

Definition truthyValue (v : value) : Prop := truthy (Some v) = true.

(** Replaying the log keeps every descriptor settled. *)
Definition normalising (allowed : value -> Prop) (l : list Event) : Prop :=
  forall ds, Forall (settled allowed) ds ->
             Forall (settled allowed) (replay l ds).

(** The overrides a log puts on the object at [path]. *)
Definition overridesOn (path : list string) (l : list Event)
    (o : list (string * value)) : list (string * value) :=
  fold_left (fun o e =>
      match e with
      | Override target k v =>
          if pathEqb path target then setOverride k v o else o
      | Emit _ => o
      end) l o.

(** The names of the list are pairwise different. *)
Fixpoint distinct (l : list string) : bool :=
  match l with
  | [] => true
  | k :: l' => negb (existsb (String.eqb k) l') && distinct l'
  end.

(** The log of the computation satisfies [R]. *)
Definition respects (R : list Event -> Prop) {A} (m : M A) : Prop :=
  R (events m).

(** The log of [m] is a log satisfying [R] followed by a log [l]; either
    [m] threw while [l] was still empty, or [Q] holds of its outcome and
    of [l]. *)
Definition after (R : list Event -> Prop) {B}
    (Q : result B -> list Event -> Prop) (m : M B) : Prop :=
  exists before l,
    R before /\ events m = (before ++ l)%list
    /\ ((exists msg, outcome m = Throw msg /\ l = []) \/ Q (outcome m) l).

(** Whether a resource is a private subnet, a public subnet, an elastic
    IP, a NAT gateway. *)
Definition census (r : Resource) : bool * bool * bool * bool :=
  (isPrivateSubnet r, isPublicSubnet r, isKind Eip r, isKind NatGateway r).

Definition uncounted (l : list Event) : Prop :=
  Forall (fun r => census r = (false, false, false, false)) (emitted l).

Definition forwardTo (targetGroup : Resource) : value :=
  VObj [ ("targetGroupArn", VStr (getArn targetGroup));
         ("type", VStr "forward") ].

Definition redirectToHttps : value :=
  VObj [ ("type", VStr "redirect");
         ("redirect", VList [VObj [ ("port", VStr "443");
                                    ("protocol", VStr "HTTPS");
                                    ("statusCode", VStr "HTTP_301") ]]) ].

(** What the auto-scaling unit registers once its checks have passed. *)
Definition scalingResources (props : Computing.IAutoScalingProps)
    (l : list Event) : Prop :=
  exists target cpu memory,
    l = [Emit target; Emit cpu; Emit memory]
    /\ r_kind target = AppautoscalingTarget
    /\ input target "minCapacity"
       = Some (VNum (Computing.as_minimumNumberOfRunningTasks props))
    /\ input target "maxCapacity"
       = Some (VNum (Computing.as_maximumNumberOfRunningTasks props))
    /\ trackingPolicy "ECSServiceAverageCPUUtilization"
         (Computing.as_cpuLimitPercent props) cpu
    /\ trackingPolicy "ECSServiceAverageMemoryUtilization"
         (Computing.as_memoryLimitPercent props) memory.

(** The steps of the computing unit before the auto-scaling unit register
    no auto-scaling resource; what follows depends on the flag. *)
Definition scalingStep (props : Computing.IComputingConstructProps)
    (o : result Computing.Computing) (l : list Event) : Prop :=
  if Computing.enableAutoScaling props
  then (exists msg, o = Throw msg /\ l = []
          /\ (Computing.autoScalingMemoryLimitPercent props < 1
              \/ 100 < Computing.autoScalingMemoryLimitPercent props
              \/ Computing.autoScalingCpuLimitPercent props < 1
              \/ 100 < Computing.autoScalingCpuLimitPercent props
              \/ Computing.minimumNumberOfRunningFargateTasks props < 1
              \/ Computing.maximumNumberOfRunningFargateTasks props < 1))
       \/ (exists result target cpu memory,
             o = Ok result
             /\ l = [Emit target; Emit cpu; Emit memory]
             /\ r_kind target = AppautoscalingTarget
             /\ trackingPolicy "ECSServiceAverageCPUUtilization"
                  (Computing.autoScalingCpuLimitPercent props) cpu
             /\ trackingPolicy "ECSServiceAverageMemoryUtilization"
                  (Computing.autoScalingMemoryLimitPercent props) memory
             /\ 1 <= Computing.autoScalingMemoryLimitPercent props <= 100
             /\ 1 <= Computing.autoScalingCpuLimitPercent props <= 100)
  else (exists result, o = Ok result) /\ l = [].

(** [table] is a route table whose only route sends all traffic through
    [gateway], named under the property [key]. *)
Definition routesThrough (key : string) (gateway table : Resource) : Prop :=
  r_kind table = RouteTable
  /\ input table "route"
     = Some (VList [VObj [ ("cidrBlock", VStr "0.0.0.0/0");
                           (key, VStr (getId gateway)) ]]).

(** [association] ties [subnet] to [table]. *)
Definition associates (table subnet association : Resource) : Prop :=
  r_kind association = RouteTableAssociation
  /\ input association "routeTableId" = Some (VStr (getId table))
  /\ input association "subnetId" = Some (VStr (getId subnet)).

(** [gateway] is a NAT gateway with the address [ip], placed in [subnet]. *)
Definition natGatewayIn (ip subnet gateway : Resource) : Prop :=
  r_kind gateway = NatGateway
  /\ input gateway "allocationId" = Some (VStr (getId ip))
  /\ input gateway "subnetId" = Some (VStr (getId subnet)).



(** The policy [policy] scales the resource of the target [target]. *)
Definition scales (target policy : Resource) : Prop :=
  input policy "resourceId" = input target "resourceId"
  /\ input policy "scalableDimension" = input target "scalableDimension"
  /\ input policy "serviceNamespace" = input target "serviceNamespace"
  /\ input policy "dependsOn" = Some (VList [VStr (fqn target)]).

(** ** Sample inputs *)

Module Sample.

(** Stand-ins for what lies outside the sources: the identity for
    [escapeTemplateForTerraform], a constant for [JSON.stringify] and the
    reading of unsigned decimal numerals for [Number]. *)
Definition externals : Externals :=
  {| escapeTemplateForTerraform := fun s => s;
     JSON_stringify := fun _ => "[]";
     Number := fun s =>
       if Str.forallb Str.isDigit s then Z.of_N (Str.digitsValue 0%N s)
       else 0 |}.

Definition currentAccount : Resource :=
  mkResource DataAwsCallerIdentity ["stack"; "current_account"] [].

Definition currentRegion : Resource :=
  mkResource DataAwsRegion ["stack"; "current_region"] [].

Definition networkProps (zones : Z) (domainNames : list string)
    (region : string) (enableHttps : bool) : Network.INetworkProps :=
  {| Network.net_currentAccount := currentAccount;
     Network.net_currentRegionAsString := region;
     Network.net_domainNames := domainNames;
     Network.net_enableHttps := enableHttps;
     Network.net_numberOfAvailabilityZonesUsed := zones;
     Network.net_resourceNamesPrefix := "demo" |}.

Definition vpc : Resource :=
  mkResource Vpc ["stack"; "network"; "vpc"; "vpc"]
    [("cidrBlock", VStr "10.0.0.0/16")].

Definition certificate : Resource :=
  mkResource AcmCertificate ["stack"; "network"; "ssl"; "acm_certificate"]
    [("domainName", VStr "example.com")].

Definition loadBalancerProps (region : string) (enableHttps : bool)
    : Network.IApplicationLoadBalancerConstructProps :=
  {| Network.alb_acmCertificate := certificate;
     Network.alb_currentAccount := currentAccount;
     Network.alb_currentRegionAsString := region;
     Network.alb_enableHttps := enableHttps;
     Network.alb_publicSubnets := [];
     Network.alb_resourceNamesPrefix := "demo";
     Network.alb_vpc := vpc |}.

Definition securityGroup : Resource :=
  mkResource SecurityGroup
    ["stack"; "network"; "application_load_balancer";
     "application_load_balancer_security_group"] [].

Definition targetGroup : Resource :=
  mkResource LbTargetGroup
    ["stack"; "network"; "application_load_balancer";
     "application_load_balancer_target_group"] [].

Definition computingProps (enableAutoScaling : bool) (cpu memory : Z)
    (minimum maximum : Z) : Computing.IComputingConstructProps :=
  {| Computing.applicationLoadBalancerSecurityGroup := securityGroup;
     Computing.applicationLoadBalancerTargetGroup := targetGroup;
     Computing.autoScalingCpuLimitPercent := cpu;
     Computing.autoScalingMemoryLimitPercent := memory;
     Computing.buildsEnvironmentVariables := [("TOKEN", "t")];
     Computing.containerListenPort := 8080;
     Computing.containerName := "main";
     Computing.currentAccount := currentAccount;
     Computing.currentRegion := currentRegion;
     Computing.dockerImageName := "main";
     Computing.enableAutoScaling := enableAutoScaling;
     Computing.environmentVariables := [("GREETING", "hello")];
     Computing.fargateTasksCpu := "256";
     Computing.fargateTasksMemory := "512";
     Computing.maximumNumberOfRunningFargateTasks := maximum;
     Computing.minimumNumberOfRunningFargateTasks := minimum;
     Computing.preDeployCommand := "echo";
     Computing.privateSubnets := [];
     Computing.resourceNamesPrefix := "demo";
     Computing.vpc := vpc |}.

Definition cluster : Resource :=
  mkResource EcsCluster ["stack"; "computing"; "cluster"; "fargate_cluster"]
    [("name", VStr "demo_fargate_cluster")].

Definition mainTaskDefinition : Resource :=
  mkResource EcsTaskDefinition
    ["stack"; "computing"; "task"; "main_fargate_tasks_definition"]
    [("family", VStr "demo_fargate_tasks")].

Definition currentTaskDefinition : Resource :=
  mkResource DataAwsEcsTaskDefinition
    ["stack"; "computing"; "task"; "current_main_fargate_tasks_definition"]
    [("taskDefinition", VStr "demo_fargate_tasks")].

Definition serviceProps (minimum : Z) : Computing.IServiceConstructProps :=
  {| Computing.svc_applicationLoadBalancerTargetGroup := targetGroup;
     Computing.svc_cluster := cluster;
     Computing.svc_containerListenPort := 8080;
     Computing.svc_containerName := "main";
     Computing.svc_currentTaskDefinition := currentTaskDefinition;
     Computing.svc_mainTaskDefinition := mainTaskDefinition;
     Computing.svc_minimumNumberOfRunningTasks := minimum;
     Computing.svc_privateSubnets := [];
     Computing.svc_resourceNamesPrefix := "demo";
     Computing.svc_tasksSecurityGroup := securityGroup |}.

Definition service : Resource :=
  mkResource EcsService ["stack"; "computing"; "service"; "fargate_service"]
    [("name", VStr "demo_fargate_service")].

Definition autoScalingProps (cpu memory minimum maximum : Z)
    : Computing.IAutoScalingProps :=
  {| Computing.as_cluster := cluster;
     Computing.as_cpuLimitPercent := cpu;
     Computing.as_maximumNumberOfRunningTasks := maximum;
     Computing.as_memoryLimitPercent := memory;
     Computing.as_minimumNumberOfRunningTasks := minimum;
     Computing.as_resourceNamesPrefix := "demo";
     Computing.as_service := service |}.

Definition env : Root.ProcessEnv :=
  {| Root.CONTAINER_LISTEN_PORT := "8080";
     Root.DOMAIN_NAMES := "example.com,www.example.com";
     Root.ENABLE_AUTO_SCALING := "true";
     Root.ENABLE_HTTPS := "true";
     Root.FARGATE_TASKS_CPU := "256";
     Root.FARGATE_TASKS_MEMORY := "512";
     Root.GITHUB_BRANCH := "main";
     Root.GITHUB_OAUTH_TOKEN := "token";
     Root.GITHUB_REPO := "repo";
     Root.GITHUB_REPO_OWNER := "owner";
     Root.GITHUB_WEBHOOK_TOKEN := "webhook";
     Root.NODE_ENV := "production";
     Root.NUMBER_OF_AVAILABILITY_ZONES_USED := "2";
     Root.PRE_DEPLOY_COMMAND := EmptyString;
     Root.SCAFFOLD_AWS_PROFILE := "default";
     Root.SCAFFOLD_AWS_REGION := "eu-west-1";
     Root.SCAFFOLD_AWS_S3_BACKEND_BUCKET := "state";
     Root.SCAFFOLD_AWS_S3_BACKEND_DYNAMODB_TABLE := "locks";
     Root.SCAFFOLD_AWS_S3_BACKEND_KEY := "demo.tfstate";
     Root.SCAFFOLD_RESOURCE_NAMES_PREFIX := "demo";
     Root.others := [ ("APPLICATION_GREETING", "hello");
                      ("APPLICATION_7", "seven");
                      ("BUILD_TOKEN", "t");
                      ("HOME", "/root") ] |}.

(** The stack of the sample environment. *)
Definition stack : M Root.Stack :=
  @Root.ScaffoldAWSServerlessDocker externals [] "stack" env.

(** The computing unit with out-of-range limits, auto-scaling unset. *)
Definition computingUnchecked : M Computing.Computing :=
  @Computing.ComputingConstruct externals ["stack"] "computing"
    (computingProps false 0 0 1 2).

(** The computing unit with out-of-range limits, auto-scaling set. *)
Definition computingRejected : M Computing.Computing :=
  @Computing.ComputingConstruct externals ["stack"] "computing"
    (computingProps true 0 0 1 2).

(** The computing unit with auto-scaling at 75 percent. *)
Definition computingScaled : M Computing.Computing :=
  @Computing.ComputingConstruct externals ["stack"] "computing"
    (computingProps true 75 75 1 2).

Definition network3 : M Network.Network :=
  Network.NetworkConstruct ["stack"] "network"
    (networkProps 3 ["example.com"] "eu-west-1" true).

Definition loadBalancerElsewhere : M Network.ApplicationLoadBalancer :=
  Network.ApplicationLoadBalancerConstruct ["stack"; "network"]
    "application_load_balancer" (loadBalancerProps "mars-north-1" true).

End Sample.

(** ** Further sample inputs *)

Module Inputs.

(** What a computation returns, or [default] when it throws. *)
Definition returned {A} (m : M A) (default : A) : A :=
  match outcome m with
  | Ok a => a
  | Throw _ => default
  end.

Definition nothing : Resource := mkResource Vpc [] [].

Definition internetGateway : Resource :=
  mkResource InternetGateway
    ["stack"; "network"; "internet_gateway"; "internet_gateway"] [].

Definition elasticIp : Resource :=
  mkResource Eip ["stack"; "network"; "elastic_ips"; "elastic_ip_1"]
    [("vpc", VBool true)].

Definition publicSubnet (n : string) : Resource :=
  mkResource Subnet ["stack"; "network"; "subnets"; "public_subnet_" ++ n]
    [("mapPublicIpOnLaunch", VBool true)].

Definition privateSubnet : Resource :=
  mkResource Subnet ["stack"; "network"; "subnets"; "private_subnet_1"] [].

Definition natGatewaysProps (zones : Z) (elasticIps : list Resource)
    : Network.INatGatewaysConstructProps :=
  {| Network.nat_elasticIps := elasticIps;
     Network.nat_internetGateway := internetGateway;
     Network.nat_numberOfAvailabilityZonesUsed := zones;
     Network.nat_publicSubnets := [publicSubnet "1"; publicSubnet "2"];
     Network.nat_resourceNamesPrefix := "demo" |}.

Definition natGateway : Resource :=
  mkResource NatGateway ["stack"; "network"; "nat_gateways"; "nat_gateway_1"]
    [].

Definition routeTablesProps (natGateways : list Resource)
    : Network.IRouteTablesConstructProps :=
  {| Network.rt_internetGateway := internetGateway;
     Network.rt_natGateways := natGateways;
     Network.rt_privateSubnets := [privateSubnet];
     Network.rt_publicSubnets := [publicSubnet "1"; publicSubnet "2"];
     Network.rt_resourceNamesPrefix := "demo";
     Network.rt_vpc := Sample.vpc |}.

Definition subnetsProps (zones : Z) : Network.ISubnetsConstructProps :=
  {| Network.sn_numberOfAvailabilityZonesUsed := zones;
     Network.sn_resourceNamesPrefix := "demo";
     Network.sn_vpc := Sample.vpc |}.

Definition sslProps : Network.ISslConstructProps :=
  {| Network.ssl_domainNames := ["example.com"; "www.example.com"];
     Network.ssl_resourceNamesPrefix := "demo" |}.

(** The first private subnet of [Sample.network3]. *)
Definition firstPrivateSubnet : Resource :=
  hd nothing (filter isPrivateSubnet (emitted (events Sample.network3))).

(** A rule that allows outbound traffic to every address. *)
Definition openEgressRule : Resource :=
  mkResource SecurityGroupRule ["stack"; "rule"]
    [ ("type", VStr "egress");
      ("cidrBlocks", VList [VStr "0.0.0.0/0"]) ].

(** [Number] on decimal numerals with an optional minus sign. *)
Definition signedExternals : Externals :=
  {| escapeTemplateForTerraform := fun s => s;
     JSON_stringify := fun _ => "[]";
     Number := fun s =>
       match s with
       | String "-" digits =>
           if Str.forallb Str.isDigit digits
           then - Z.of_N (Str.digitsValue 0%N digits)
           else 0
       | _ =>
           if Str.forallb Str.isDigit s then Z.of_N (Str.digitsValue 0%N s)
           else 0
       end |}.

(** The sample environment with another number of zones, another listen
    port and other additional variables. *)
Definition envWith (zones port : string) (others : list (string * string))
    : Root.ProcessEnv :=
  {| Root.CONTAINER_LISTEN_PORT := port;
     Root.DOMAIN_NAMES := "example.com,www.example.com";
     Root.ENABLE_AUTO_SCALING := "true";
     Root.ENABLE_HTTPS := "true";
     Root.FARGATE_TASKS_CPU := "256";
     Root.FARGATE_TASKS_MEMORY := "512";
     Root.GITHUB_BRANCH := "main";
     Root.GITHUB_OAUTH_TOKEN := "token";
     Root.GITHUB_REPO := "repo";
     Root.GITHUB_REPO_OWNER := "owner";
     Root.GITHUB_WEBHOOK_TOKEN := "webhook";
     Root.NODE_ENV := "production";
     Root.NUMBER_OF_AVAILABILITY_ZONES_USED := zones;
     Root.PRE_DEPLOY_COMMAND := EmptyString;
     Root.SCAFFOLD_AWS_PROFILE := "default";
     Root.SCAFFOLD_AWS_REGION := "eu-west-1";
     Root.SCAFFOLD_AWS_S3_BACKEND_BUCKET := "state";
     Root.SCAFFOLD_AWS_S3_BACKEND_DYNAMODB_TABLE := "locks";
     Root.SCAFFOLD_AWS_S3_BACKEND_KEY := "demo.tfstate";
     Root.SCAFFOLD_RESOURCE_NAMES_PREFIX := "demo";
     Root.others := others |}.

Definition emptyStack : Root.Stack :=
  {| Root.network :=
       {| Network.applicationLoadBalancer := nothing;
          Network.applicationLoadBalancerSecurityGroup := nothing;
          Network.applicationLoadBalancerSecurityGroupEgressRule := nothing;
          Network.applicationLoadBalancerTargetGroup := nothing;
          Network.net_privateSubnets := [];
          Network.sslValidationDnsRecords := [];
          Network.net_vpc := nothing |};
     Root.computing :=
       {| Computing.cp_buildsEnvironmentVariables := [];
          Computing.containersLogsGroup := nothing;
          Computing.ecrRepository := nothing;
          Computing.fargateCluster := nothing;
          Computing.fargateService := nothing;
          Computing.fargateTasksSecurityGroup := nothing;
          Computing.predeployFargateTaskDefinition := nothing |} |}.

End Inputs.

(** * Properties *)

(** ** The monad *)

Lemma bind_Ok {A B} (m : M A) (f : A -> M B) a l :
  m = (Ok a, l) ->
  bind m f = (outcome (f a), (l ++ events (f a))%list).
Proof.
  intros ->. unfold bind, outcome, events. destruct (f a); reflexivity.
Qed.

Lemma events_bind_Ok {A B} (m : M A) (f : A -> M B) a l :
  m = (Ok a, l) -> events (bind m f) = (l ++ events (f a))%list.
Proof. intros E. now rewrite (bind_Ok _ _ _ _ E). Qed.

Lemma outcome_bind_Ok {A B} (m : M A) (f : A -> M B) a l :
  m = (Ok a, l) -> outcome (bind m f) = outcome (f a).
Proof. intros E. now rewrite (bind_Ok _ _ _ _ E). Qed.

Lemma bind_Throw {A B} (m : M A) (f : A -> M B) msg l :
  m = (Throw msg, l) -> bind m f = (Throw msg, l).
Proof. intros ->. reflexivity. Qed.

Lemma events_bind {A B} (m : M A) (f : A -> M B) :
  events (bind m f)
  = (events m ++ match outcome m with
                 | Ok a => events (f a)
                 | Throw _ => []
                 end)%list.
Proof.
  destruct m as [[a | msg] l]; unfold bind, events, outcome; simpl.
  - destruct (f a); reflexivity.
  - now rewrite app_nil_r.
Qed.

Lemma outcome_bind {A B} (m : M A) (f : A -> M B) :
  outcome (bind m f)
  = match outcome m with
    | Ok a => outcome (f a)
    | Throw msg => Throw msg
    end.
Proof.
  destruct m as [[a | msg] l]; unfold bind, outcome; simpl.
  - destruct (f a); reflexivity.
  - reflexivity.
Qed.

(** A loop whose body registers exactly one object per element. *)
Lemma collect_emits {A} (P : Resource -> Prop) (f : A -> M Resource) xs :
  (forall x, In x xs -> exists r, f x = (Ok r, [Emit r]) /\ P r) ->
  exists rs, collect f xs = (Ok rs, List.map Emit rs)
             /\ List.length rs = List.length xs /\ Forall P rs.
Proof.
  induction xs as [| x xs IH]; intros Hf.
  - exists []. repeat split. constructor.
  - destruct (Hf x (or_introl eq_refl)) as (r & Hr & HP).
    destruct IH as (rs & Hrs & Hlen & Hall).
    { intros y Hy. apply Hf. now right. }
    exists (r :: rs). simpl collect.
    rewrite (bind_Ok _ _ _ _ Hr), (bind_Ok _ _ _ _ Hrs).
    simpl. rewrite app_nil_r. repeat split; auto.
Qed.

(** ** Properties of logs closed under concatenation *)

Section Closed.

Variable R : list Event -> Prop.
Hypothesis R_nil : R [].
Hypothesis R_app : forall l l', R l -> R l' -> R (l ++ l')%list.

Lemma respects_ret {A} (a : A) : respects R (ret a).
Proof. exact R_nil. Qed.

Lemma respects_throw {A} msg : respects R (@throw A msg).
Proof. exact R_nil. Qed.

Lemma respects_bind {A B} (m : M A) (f : A -> M B) :
  respects R m -> (forall a, respects R (f a)) -> respects R (bind m f).
Proof.
  unfold respects. intros Hm Hf. rewrite events_bind.
  apply R_app; [exact Hm |]. destruct (outcome m); auto.
Qed.

Lemma respects_forEach {A} (f : A -> M unit) xs :
  (forall x, respects R (f x)) -> respects R (forEach f xs).
Proof.
  intros Hf. induction xs; simpl.
  - apply respects_ret.
  - apply respects_bind; auto.
Qed.

Lemma respects_collect {A B} (f : A -> M B) xs :
  (forall x, respects R (f x)) -> respects R (collect f xs).
Proof.
  intros Hf. induction xs; simpl.
  - apply respects_ret.
  - apply respects_bind; [apply Hf |]. intros y.
    apply respects_bind; [exact IHxs |]. intros ys. apply respects_ret.
Qed.

End Closed.

(** ** What synthesis keeps *)

Lemma replay_app l l' ds :
  replay (l ++ l') ds = replay l' (replay l ds).
Proof. apply fold_left_app. Qed.

Lemma resources_applyEvent ds e :
  List.map d_resource (applyEvent ds e)
  = (List.map d_resource ds ++ emitted [e])%list.
Proof.
  destruct e as [r | target k v]; simpl.
  - now rewrite map_app.
  - rewrite app_nil_r, map_map. apply map_ext. intros d.
    now destruct (pathEqb _ _).
Qed.

Lemma emitted_app l l' : emitted (l ++ l') = (emitted l ++ emitted l')%list.
Proof.
  induction l as [| [r | t k v] l IH]; simpl; auto. now rewrite IH.
Qed.

Lemma resources_replay l ds :
  List.map d_resource (replay l ds)
  = (List.map d_resource ds ++ emitted l)%list.
Proof.
  revert ds. induction l as [| e l IH]; intros ds; simpl.
  - now rewrite app_nil_r.
  - unfold replay in IH. rewrite IH, resources_applyEvent.
    rewrite <- app_assoc. f_equal. destruct e; reflexivity.
Qed.

(** Overrides neither add nor remove descriptors. *)
Lemma resources_synth l : List.map d_resource (synth l) = emitted l.
Proof. unfold synth. now rewrite resources_replay. Qed.

Lemma countDescriptors_synth p l :
  countDescriptors p (synth l) = List.length (filter p (emitted l)).
Proof.
  unfold countDescriptors. rewrite <- resources_synth.
  generalize (synth l). intros ds. induction ds as [| d ds IH]; simpl; auto.
  destruct (p (d_resource d)); simpl; now rewrite IH.
Qed.

(** ** Walking through a constructor *)

Create HintDb constructs.

Create HintDb helpers.

#[export] Hint Unfold
  Utils.overrideNullValuesForSecurityGroupRule Utils.overrideNullValuesIn
  Utils.overrideNullValuesForSecurityGroup Utils.overrideNullValuesForRouteTable
  : helpers.

#[export] Hint Unfold
  Network.VpcConstruct Network.InternetGatewayConstruct
  Network.SubnetsConstruct Network.privateSubnet Network.publicSubnet
  Network.ElasticIpsConstruct Network.elasticIp
  Network.NatGatewaysConstruct Network.natGateway Network.idAt
  Network.RouteTablesConstruct Network.privateSubnetsRouteTable
  Network.SslConstruct Network.ApplicationLoadBalancerConstruct
  Network.NetworkConstruct
  Computing.EnvironmentVariablesConstruct Computing.ssmParameter
  Computing.ClusterConstruct Computing.RepositoryConstruct
  Computing.ServiceConstruct Computing.AutoScalingConstruct
  Computing.autoScalingPolicy Computing.TasksConstruct
  Computing.ComputingConstruct
  ContinuousDeployment.codebuildSecurityGroup
  Root.ScaffoldAWSServerlessDocker : constructs.

(** Reduces a property of a constructor, closed under concatenation by
    [Hnil] and [Happ], to the same property of its primitive steps, which
    [prim] discharges. *)
Ltac walk Hnil Happ prim :=
  repeat first
    [ prim
    | lazymatch goal with
      | |- respects _ (ret _) => apply respects_ret; exact Hnil
      | |- respects _ (throw _) => apply respects_throw; exact Hnil
      | |- respects _ (bind _ _) =>
          apply respects_bind; [exact Hnil | exact Happ | | intros ?]
      | |- respects _ (forEach _ _) =>
          apply respects_forEach; [exact Hnil | exact Happ | intros ?]
      | |- respects _ (collect _ _) =>
          apply respects_collect; [exact Hnil | exact Happ | intros ?]
      | |- respects _ (if ?b then _ else _) => destruct b
      | |- respects _ (match ?x with _ => _ end) => destruct x
      | |- respects _ _ =>
          first [ progress cbv zeta | progress autounfold with constructs ]
      end ].

(** ** C1: subnets, elastic IPs and NAT gateways per availability zone *)

Lemma uncounted_nil : uncounted [].
Proof. constructor. Qed.

Lemma uncounted_app l l' : uncounted l -> uncounted l' -> uncounted (l ++ l').
Proof.
  unfold uncounted. intros Hl Hl'. rewrite emitted_app.
  apply Forall_app. now split.
Qed.

Lemma uncounted_new k this id config :
  census (mkResource k (this ++ [id]) config) = (false, false, false, false) ->
  respects uncounted (new k this id config).
Proof. intros E. repeat constructor. exact E. Qed.

Lemma uncounted_addOverride r key v :
  respects uncounted (addOverride r key v).
Proof. constructor. Qed.

Ltac uncounted_walk :=
  walk uncounted_nil uncounted_app
    ltac:(idtac; lazymatch goal with
          | |- respects _ (addOverride _ _ _) => apply uncounted_addOverride
          | |- respects _ (new _ _ _ _) => apply uncounted_new; reflexivity
          | |- respects _ _ => progress autounfold with helpers
          end).

Lemma filter_all {A} (p : A -> bool) xs :
  Forall (fun x => p x = true) xs -> filter p xs = xs.
Proof.
  induction 1 as [| x xs Hx _ IH]; simpl; auto. now rewrite Hx, IH.
Qed.

Lemma filter_none {A} (p : A -> bool) xs :
  Forall (fun x => p x = false) xs -> filter p xs = [].
Proof.
  induction 1 as [| x xs Hx _ IH]; simpl; auto. now rewrite Hx.
Qed.

Lemma emitted_Emit rs : emitted (List.map Emit rs) = rs.
Proof. induction rs; simpl; congruence. Qed.

Lemma RouteTablesConstruct_uncounted scope id props :
  respects uncounted (Network.RouteTablesConstruct scope id props).
Proof. uncounted_walk. Qed.

Lemma SslConstruct_uncounted scope id props :
  respects uncounted (Network.SslConstruct scope id props).
Proof. uncounted_walk. Qed.

Lemma ApplicationLoadBalancerConstruct_uncounted scope id props :
  respects uncounted (Network.ApplicationLoadBalancerConstruct scope id props).
Proof. uncounted_walk. Qed.

Lemma length_upto n : List.length (upto n) = Z.to_nat n.
Proof. unfold upto. apply length_seq. Qed.

Lemma SubnetsConstruct_spec scope id props :
  let zones := Network.sn_numberOfAvailabilityZonesUsed props in
  exists zonesData privates publics,
    Network.SubnetsConstruct scope id props
    = (Ok {| Network.privateSubnets := privates;
             Network.publicSubnets := publics |},
       Emit zonesData :: List.map Emit privates ++ List.map Emit publics)%list
    /\ census zonesData = (false, false, false, false)
    /\ List.length privates = Z.to_nat zones
    /\ List.length publics = Z.to_nat (Z.max zones 2)
    /\ Forall (fun r => census r = (true, false, false, false)) privates
    /\ Forall (fun r => census r = (false, true, false, false)) publics.
Proof.
  intros zones. unfold Network.SubnetsConstruct. cbv zeta.
  set (this := (scope ++ [id])%list).
  set (zonesData := mkResource DataAwsAvailabilityZones
                      (this ++ ["availability_zone"]) []).
  destruct (collect_emits
              (fun r => census r = (true, false, false, false))
              (Network.privateSubnet this props zonesData) (upto zones))
    as (privates & Hprivates & Hlen & Hall).
  { intros i _. eexists. split; reflexivity. }
  destruct (collect_emits
              (fun r => census r = (false, true, false, false))
              (Network.publicSubnet this props zonesData)
              (upto (Z.max zones 2)))
    as (publics & Hpublics & Hlen' & Hall').
  { intros i _. eexists. split; reflexivity. }
  exists zonesData, privates, publics.
  rewrite length_upto in Hlen, Hlen'.
  repeat split; auto.
  rewrite (bind_Ok _ _ zonesData [Emit zonesData] eq_refl).
  fold zones. rewrite (bind_Ok _ _ _ _ Hprivates), (bind_Ok _ _ _ _ Hpublics).
  simpl. now rewrite app_nil_r.
Qed.

Lemma ElasticIpsConstruct_spec scope id props :
  exists ips,
    Network.ElasticIpsConstruct scope id props = (Ok ips, List.map Emit ips)
    /\ List.length ips
       = Z.to_nat (Network.eip_numberOfAvailabilityZonesUsed props)
    /\ Forall (fun r => census r = (false, false, true, false)) ips.
Proof.
  unfold Network.ElasticIpsConstruct. cbv zeta.
  destruct (collect_emits
              (fun r => census r = (false, false, true, false))
              (Network.elasticIp (scope ++ [id]) props)
              (upto (Network.eip_numberOfAvailabilityZonesUsed props)))
    as (ips & Hips & Hlen & Hall).
  { intros i _. eexists. split; reflexivity. }
  exists ips. rewrite length_upto in Hlen. auto.
Qed.

Lemma idAt_in_range xs i :
  (i < List.length xs)%nat -> exists r, Network.idAt xs i = ret (getId r).
Proof.
  intros Hi. unfold Network.idAt.
  destruct (nth_error xs i) as [r |] eqn:E.
  - now exists r.
  - apply nth_error_None in E. lia.
Qed.

(** With an elastic IP and a public subnet per zone, one NAT gateway is
    registered per zone. *)
Lemma NatGatewaysConstruct_spec scope id props :
  let zones := Network.nat_numberOfAvailabilityZonesUsed props in
  (Z.to_nat zones <= List.length (Network.nat_elasticIps props))%nat ->
  (Z.to_nat zones <= List.length (Network.nat_publicSubnets props))%nat ->
  exists gateways,
    Network.NatGatewaysConstruct scope id props
    = (Ok gateways, List.map Emit gateways)
    /\ List.length gateways = Z.to_nat zones
    /\ Forall (fun r => census r = (false, false, false, true)) gateways.
Proof.
  intros zones Hips Hsubnets. unfold Network.NatGatewaysConstruct.
  cbv zeta. fold zones.
  replace (Z.of_nat (List.length (Network.nat_elasticIps props)) <? zones)
    with false by (symmetry; apply Z.ltb_ge; lia).
  replace (Z.of_nat (List.length (Network.nat_publicSubnets props)) <? zones)
    with false by (symmetry; apply Z.ltb_ge; lia).
  destruct (collect_emits
              (fun r => census r = (false, false, false, true))
              (Network.natGateway (scope ++ [id]) props) (upto zones))
    as (gateways & Hgateways & Hlen & Hall).
  { intros i Hi. unfold upto in Hi. apply in_seq in Hi.
    unfold Network.natGateway.
    destruct (idAt_in_range (Network.nat_elasticIps props) i) as (ip & ->);
      [lia |].
    destruct (idAt_in_range (Network.nat_publicSubnets props) i) as (sn & ->);
      [lia |].
    eexists. split; reflexivity. }
  exists gateways. rewrite length_upto in Hlen. auto.
Qed.

(** What the network unit registers: the VPC, the internet gateway and the
    availability-zone data, then the private subnets, the public subnets,
    the elastic IPs and the NAT gateways, then resources of other kinds. *)
Lemma NetworkConstruct_emitted scope id props :
  let zones := Network.net_numberOfAvailabilityZonesUsed props in
  exists first privates publics ips gateways rest,
    emitted (events (Network.NetworkConstruct scope id props))
    = (first ++ privates ++ publics ++ ips ++ gateways ++ rest)%list
    /\ Forall (fun r => census r = (false, false, false, false)) first
    /\ Forall (fun r => census r = (true, false, false, false)) privates
    /\ Forall (fun r => census r = (false, true, false, false)) publics
    /\ Forall (fun r => census r = (false, false, true, false)) ips
    /\ Forall (fun r => census r = (false, false, false, true)) gateways
    /\ Forall (fun r => census r = (false, false, false, false)) rest
    /\ List.length privates = Z.to_nat zones
    /\ List.length publics = Z.to_nat (Z.max zones 2)
    /\ List.length ips = Z.to_nat zones
    /\ List.length gateways = Z.to_nat zones.
Proof.
  intros zones. unfold Network.NetworkConstruct. cbv zeta. fold zones.
  set (this := (scope ++ [id])%list).
  set (prefix := Network.net_resourceNamesPrefix props).
  unfold Network.VpcConstruct at 1. cbv zeta.
  match goal with
  | |- context [bind (new Vpc ?t ?i ?c)] =>
      set (vpc := mkResource Vpc (t ++ [i]) c);
      rewrite (events_bind_Ok (new Vpc t i c) _ vpc [Emit vpc] eq_refl)
  end.
  unfold Network.InternetGatewayConstruct at 1. cbv zeta.
  match goal with
  | |- context [bind (new InternetGateway ?t ?i ?c)] =>
      set (gateway := mkResource InternetGateway (t ++ [i]) c);
      rewrite (events_bind_Ok (new InternetGateway t i c) _ gateway
                 [Emit gateway] eq_refl)
  end.
  match goal with
  | |- context [bind (Network.SubnetsConstruct ?s ?i ?p)] =>
      destruct (SubnetsConstruct_spec s i p)
        as (zonesData & privates & publics & Hsubnets & Hzd & Hlen1 & Hlen2
            & Hall1 & Hall2);
      rewrite (events_bind_Ok _ _ _ _ Hsubnets)
  end.
  match goal with
  | |- context [bind (Network.ElasticIpsConstruct ?s ?i ?p)] =>
      destruct (ElasticIpsConstruct_spec s i p) as (ips & Hips & Hlen3 & Hall3);
      rewrite (events_bind_Ok _ _ _ _ Hips)
  end.
  cbn [Network.sn_numberOfAvailabilityZonesUsed
       Network.eip_numberOfAvailabilityZonesUsed] in *.
  match goal with
  | |- context [bind (Network.NatGatewaysConstruct ?s ?i ?p)] =>
      destruct (NatGatewaysConstruct_spec s i p)
        as (gateways & Hgateways & Hlen4 & Hall4);
      [ cbn; lia | cbn; lia | rewrite (events_bind_Ok _ _ _ _ Hgateways) ]
  end.
  cbn [Network.nat_numberOfAvailabilityZonesUsed] in *.
  match goal with
  | |- context [bind (Network.RouteTablesConstruct ?s ?i ?p) ?f] =>
      assert (Hrest : respects uncounted
                        (bind (Network.RouteTablesConstruct s i p) f))
  end.
  { apply respects_bind;
      [exact uncounted_nil | exact uncounted_app
      | apply RouteTablesConstruct_uncounted | intros _].
    apply respects_bind;
      [exact uncounted_nil | exact uncounted_app
      | apply SslConstruct_uncounted | intros ssl].
    apply respects_bind;
      [exact uncounted_nil | exact uncounted_app
      | apply ApplicationLoadBalancerConstruct_uncounted | intros lb].
    apply respects_ret. exact uncounted_nil. }
  match goal with
  | H : respects uncounted ?m |- _ => set (rest := m) in *
  end.
  exists [vpc; gateway; zonesData], privates, publics, ips, gateways,
    (emitted (events rest)).
  split.
  { repeat rewrite emitted_app. cbn [emitted List.map app].
    repeat rewrite emitted_app. repeat rewrite emitted_Emit.
    repeat rewrite <- app_assoc. reflexivity. }
  repeat split; auto.
Qed.

Lemma count_uniform (p : Resource -> bool) (b : bool) rs :
  Forall (fun r => p r = b) rs ->
  List.length (filter p rs) = if b then List.length rs else 0%nat.
Proof.
  intros Hall. destruct b.
  - now rewrite filter_all.
  - now rewrite filter_none.
Qed.

Lemma count_census rs a b c d :
  Forall (fun r => census r = (a, b, c, d)) rs ->
  List.length (filter isPrivateSubnet rs)
    = (if a then List.length rs else 0%nat)
  /\ List.length (filter isPublicSubnet rs)
     = (if b then List.length rs else 0%nat)
  /\ List.length (filter (isKind Eip) rs)
     = (if c then List.length rs else 0%nat)
  /\ List.length (filter (isKind NatGateway) rs)
     = (if d then List.length rs else 0%nat).
Proof.
  intros Hall. repeat split; apply count_uniform;
    (eapply Forall_impl; [| exact Hall]); unfold census; intros r E;
    congruence.
Qed.

(** C1. For every configured availability-zone count N >= 1, the network
    unit produces exactly N private subnet descriptors, exactly max(N, 2)
    public subnet descriptors, exactly N elastic-IP descriptors and exactly
    N NAT-gateway descriptors. *)
Theorem network_descriptors_per_zone scope id props :
  let zones := Network.net_numberOfAvailabilityZonesUsed props in
  let output := synth (events (Network.NetworkConstruct scope id props)) in
  1 <= zones ->
  Z.of_nat (countDescriptors isPrivateSubnet output) = zones
  /\ Z.of_nat (countDescriptors isPublicSubnet output) = Z.max zones 2
  /\ Z.of_nat (countDescriptors (isKind Eip) output) = zones
  /\ Z.of_nat (countDescriptors (isKind NatGateway) output) = zones.
Proof.
  intros zones output Hzones. unfold output.
  destruct (NetworkConstruct_emitted scope id props)
    as (first & privates & publics & ips & gateways & rest & E
        & H0 & H1 & H2 & H3 & H4 & H5 & L1 & L2 & L3 & L4).
  fold zones in L1, L2, L3, L4.
  rewrite !countDescriptors_synth, E. rewrite !filter_app, !length_app.
  destruct (count_census _ _ _ _ _ H0) as (-> & -> & -> & ->).
  destruct (count_census _ _ _ _ _ H1) as (-> & -> & -> & ->).
  destruct (count_census _ _ _ _ _ H2) as (-> & -> & -> & ->).
  destruct (count_census _ _ _ _ _ H3) as (-> & -> & -> & ->).
  destruct (count_census _ _ _ _ _ H4) as (-> & -> & -> & ->).
  destruct (count_census _ _ _ _ _ H5) as (-> & -> & -> & ->).
  lia.
Qed.

Lemma network_descriptors_per_zone_witness :
  Z.of_nat (countDescriptors isPrivateSubnet (synth (events Sample.network3)))
    = 3
  /\ Z.of_nat (countDescriptors isPublicSubnet (synth (events Sample.network3)))
     = Z.max 3 2
  /\ Z.of_nat (countDescriptors (isKind Eip) (synth (events Sample.network3)))
     = 3
  /\ Z.of_nat (countDescriptors (isKind NatGateway)
                 (synth (events Sample.network3)))
     = 3.
Proof.
  apply (network_descriptors_per_zone ["stack"] "network"
           (Sample.networkProps 3 ["example.com"] "eu-west-1" true)).
  simpl. lia.
Defined.

(** With a single zone there are still two public subnets. *)
Example one_zone_two_public_subnets :
  let output :=
    synth (events (Network.NetworkConstruct ["stack"] "network"
                     (Sample.networkProps 1 ["example.com"] "eu-west-1" false)))
  in
  countDescriptors isPrivateSubnet output = 1%nat
  /\ countDescriptors isPublicSubnet output = 2%nat
  /\ countDescriptors (isKind NatGateway) output = 1%nat.
Proof. vm_compute. auto. Qed.

(** ** C8: the certificate unit needs a domain name *)

(** C8. For an empty list of domain names, composition of the certificate
    unit throws, and nothing has been registered by then: no certificate
    descriptor is produced. *)
Theorem ssl_rejects_empty_domain_names scope id prefix :
  let unit := Network.SslConstruct scope id
                {| Network.ssl_domainNames := [];
                   Network.ssl_resourceNamesPrefix := prefix |} in
  outcome unit = Throw "You must specify at least one domain name"
  /\ events unit = []
  /\ countDescriptors (isKind AcmCertificate) (synth (events unit)) = 0%nat.
Proof. repeat split. Qed.

(** With a domain name the same unit registers the certificate. *)
Lemma ssl_accepts_domain_names scope id prefix first others :
  exists certificate validation,
    Network.SslConstruct scope id
      {| Network.ssl_domainNames := first :: others;
         Network.ssl_resourceNamesPrefix := prefix |}
    = (Ok {| Network.acmCertificate := certificate;
             Network.validationDns := validation |},
       [Emit certificate])
    /\ r_kind certificate = AcmCertificate
    /\ input certificate "domainName" = Some (VStr first).
Proof. do 2 eexists. repeat split. Qed.

(** ** C9: the two listeners of the load balancer *)

(** C9. The load balancer unit always succeeds and registers exactly two
    listeners, on ports 443 and 80, both attached to the load balancer.
    The listener on 443 forwards to the target group.  The listener on 80
    redirects to port 443 with HTTP 301 when the HTTPS flag is set and
    forwards to the target group otherwise. *)
Theorem load_balancer_listeners scope id props :
  let unit := Network.ApplicationLoadBalancerConstruct scope id props in
  exists result https http,
    outcome unit = Ok result
    /\ filter (isKind LbListener) (List.map d_resource (synth (events unit)))
       = [https; http]
    /\ input https "port" = Some (VNum 443)
    /\ input http "port" = Some (VNum 80)
    /\ input https "loadBalancerArn"
       = Some (VStr (getArn (Network.alb_self result)))
    /\ input http "loadBalancerArn"
       = Some (VStr (getArn (Network.alb_self result)))
    /\ input https "defaultAction"
       = Some (VList [forwardTo (Network.alb_targetGroup result)])
    /\ input http "defaultAction"
       = Some (VList [if Network.alb_enableHttps props
                      then redirectToHttps
                      else forwardTo (Network.alb_targetGroup result)]).
Proof.
  intros unit. unfold unit. rewrite resources_synth.
  destruct (Network.alb_enableHttps props) eqn:E;
    do 3 eexists; unfold Network.ApplicationLoadBalancerConstruct;
    rewrite E; repeat split.
Qed.

(** ** C10: a region outside the table of log-delivery accounts *)

(** C10, as amended.  For every region the load balancer unit succeeds,
    the policy document of the access-log bucket names the principal
    made of what the table reads at the region, and the bucket policy is
    that document.  For a region that is neither a key of the table nor
    the name of a member of [Object.prototype] the read finds nothing and
    the principal is [arn:aws:iam::undefined:root]; for a key of the table
    it is the account of the region; for the name of an inherited member
    it is the text of that member, never [undefined]. *)
Theorem unknown_region_principal scope id props :
  let unit := Network.ApplicationLoadBalancerConstruct scope id props in
  let output := List.map d_resource (synth (events unit)) in
  let region := Network.alb_currentRegionAsString props in
  let table := Network.lbLogsBucketPolicyAccountIdDependingOnRegion in
  exists result document policy,
    outcome unit = Ok result
    /\ nth_error output 5 = Some document
    /\ r_kind document = DataAwsIamPolicyDocument
    /\ configAt document
         [Key "statement"; Index 0; Key "principals"; Index 0;
          Key "identifiers"]
       = Some (VList [VStr (Network.lbLogsPrincipal region)])
    /\ nth_error output 6 = Some policy
    /\ r_kind policy = S3BucketPolicy
    /\ input policy "policy" = Some (VStr (attr document "json"))
    /\ (lookup region table = None ->
        lookup region JS.Object_prototype = None ->
        Network.lbLogsPrincipal region = "arn:aws:iam::undefined:root")
    /\ (forall account, lookup region table = Some account ->
        Network.lbLogsPrincipal region = "arn:aws:iam::" ++ account ++ ":root")
    /\ (forall printed,
          lookup region table = None ->
          lookup region JS.Object_prototype = Some printed ->
          Network.lbLogsPrincipal region = "arn:aws:iam::" ++ printed ++ ":root"
          /\ Network.lbLogsPrincipal region <> "arn:aws:iam::undefined:root").
Proof.
  intros unit output region table. unfold output, unit.
  rewrite resources_synth.
  unfold Network.ApplicationLoadBalancerConstruct,
    Network.lbLogsBucketPolicyStatements.
  fold region.
  do 3 eexists.
  do 7 (split; [reflexivity |]).
  unfold Network.lbLogsPrincipal, JS.get. fold table.
  split; [| split].
  - intros -> ->. reflexivity.
  - intros account ->. reflexivity.
  - intros printed -> Hinherited. rewrite Hinherited.
    split; [reflexivity |].
    cbn [JS.print]. revert Hinherited.
    unfold JS.Object_prototype. cbn [lookup].
    repeat (destruct (String.eqb _ region);
            [intros [= <-] E; cbn in E; discriminate E |]).
    discriminate.
Qed.

Lemma unknown_region_principal_witness :
  lookup "mars-north-1" Network.lbLogsBucketPolicyAccountIdDependingOnRegion
  = None
  /\ lookup "mars-north-1" JS.Object_prototype = None
  /\ exists result document,
       outcome Sample.loadBalancerElsewhere = Ok result
       /\ nth_error
            (List.map d_resource
               (synth (events Sample.loadBalancerElsewhere))) 5
          = Some document
       /\ configAt document
            [Key "statement"; Index 0; Key "principals"; Index 0;
             Key "identifiers"]
          = Some (VList [VStr "arn:aws:iam::undefined:root"]).
Proof.
  split; [reflexivity |]. split; [reflexivity |].
  pose proof (unknown_region_principal ["stack"; "network"]
                "application_load_balancer"
                (Sample.loadBalancerProps "mars-north-1" true))
    as (result & document & policy & Hok & Hdocument & _ & Hprincipal & _
        & _ & _ & Hundefined & _).
  exists result, document.
  split; [exact Hok |]. split; [exact Hdocument |].
  rewrite Hprincipal. rewrite (Hundefined eq_refl eq_refl). reflexivity.
Defined.

(** C10 as stated fails.  The region [constructor] is absent from the
    table, yet the read finds the constructor that every plain object
    inherits: the unit returns and the principal holds the text of that
    function where the claim has [undefined]. *)
Lemma inherited_region_principal :
  let props := Sample.loadBalancerProps "constructor" true in
  let unit :=
    Network.ApplicationLoadBalancerConstruct ["stack"; "network"]
      "application_load_balancer" props in
  lookup "constructor" Network.lbLogsBucketPolicyAccountIdDependingOnRegion
  = None
  /\ exists result document,
       outcome unit = Ok result
       /\ nth_error (List.map d_resource (synth (events unit))) 5
          = Some document
       /\ r_kind document = DataAwsIamPolicyDocument
       /\ configAt document
            [Key "statement"; Index 0; Key "principals"; Index 0;
             Key "identifiers"]
          = Some (VList [VStr
              "arn:aws:iam::function Object() { [native code] }:root"])
       /\ configAt document
            [Key "statement"; Index 0; Key "principals"; Index 0;
             Key "identifiers"]
          <> Some (VList [VStr "arn:aws:iam::undefined:root"]).
Proof.
  split; [reflexivity |].
  do 2 eexists. split; [reflexivity |]. split; [reflexivity |].
  split; [reflexivity |]. split; [reflexivity | discriminate].
Qed.

(** In a region of the table the principal is the account of the region. *)
Example known_region_principal :
  Network.lbLogsPrincipal "eu-west-1" = "arn:aws:iam::156460612806:root".
Proof. reflexivity. Qed.

(** ** Logs without resources of some kind *)

Lemma without_nil p : without p [].
Proof. constructor. Qed.

Lemma without_app p l l' : without p l -> without p l' -> without p (l ++ l').
Proof.
  unfold without. intros Hl Hl'. rewrite emitted_app.
  apply Forall_app. now split.
Qed.

Lemma without_new p k this id config :
  p (mkResource k (this ++ [id]) config) = false ->
  respects (without p) (new k this id config).
Proof. intros E. repeat constructor. exact E. Qed.

Lemma without_addOverride p r key v :
  respects (without p) (addOverride r key v).
Proof. constructor. Qed.

Lemma without_filter p l : without p l -> filter p (emitted l) = [].
Proof. apply filter_none. Qed.

Ltac without_walk p :=
  walk (without_nil p) (without_app p)
    ltac:(idtac; lazymatch goal with
          | |- respects _ (addOverride _ _ _) => apply without_addOverride
          | |- respects _ (new _ _ _ _) => apply without_new; reflexivity
          | |- respects _ _ => progress autounfold with helpers
          end).

(** ** A computation that ends in a step of interest *)

Section After.

Variable R : list Event -> Prop.
Hypothesis R_nil : R [].
Hypothesis R_app : forall l l', R l -> R l' -> R (l ++ l')%list.

Lemma after_here {B} (Q : result B -> list Event -> Prop) (m : M B) :
  Q (outcome m) (events m) -> after R Q m.
Proof. intros HQ. exists [], (events m). auto. Qed.

Lemma after_throw {B} (Q : result B -> list Event -> Prop) msg :
  after R Q (@throw B msg).
Proof.
  exists [], []. split; [exact R_nil |]. split; [reflexivity |].
  left. now exists msg.
Qed.

Lemma after_bind {A B} (Q : result B -> list Event -> Prop)
    (m : M A) (f : A -> M B) :
  respects R m -> (forall a, after R Q (f a)) -> after R Q (bind m f).
Proof.
  unfold respects, after. intros Hm Hf. rewrite events_bind, outcome_bind.
  destruct (outcome m) as [a | msg].
  - destruct (Hf a) as (before & l & Hbefore & E & HQ).
    exists (events m ++ before)%list, l. rewrite E, app_assoc.
    repeat split; auto.
  - exists (events m), []. split; [exact Hm |].
    split; [now rewrite app_nil_r |]. left. now exists msg.
Qed.

End After.

(** ** The computing unit *)

Section ComputingProperties.

Context `{Externals}.

Lemma AutoScalingConstruct_cases scope id props :
  let unit := Computing.AutoScalingConstruct scope id props in
  (exists msg, unit = (Throw msg, [])
     /\ (Computing.as_memoryLimitPercent props < 1
         \/ 100 < Computing.as_memoryLimitPercent props
         \/ Computing.as_cpuLimitPercent props < 1
         \/ 100 < Computing.as_cpuLimitPercent props
         \/ Computing.as_minimumNumberOfRunningTasks props < 1
         \/ Computing.as_maximumNumberOfRunningTasks props < 1))
  \/ (outcome unit = Ok tt /\ scalingResources props (events unit)
      /\ 1 <= Computing.as_memoryLimitPercent props <= 100
      /\ 1 <= Computing.as_cpuLimitPercent props <= 100
      /\ 1 <= Computing.as_minimumNumberOfRunningTasks props
      /\ 1 <= Computing.as_maximumNumberOfRunningTasks props).
Proof.
  intros unit. unfold unit, Computing.AutoScalingConstruct. cbv zeta.
  destruct (Z.ltb_spec (Computing.as_memoryLimitPercent props) 1);
    [left; eexists; split; [reflexivity | lia] |].
  destruct (Z.gtb_spec (Computing.as_memoryLimitPercent props) 100);
    [left; eexists; split; [reflexivity | lia] |].
  destruct (Z.ltb_spec (Computing.as_cpuLimitPercent props) 1);
    [left; eexists; split; [reflexivity | lia] |].
  destruct (Z.gtb_spec (Computing.as_cpuLimitPercent props) 100);
    [left; eexists; split; [reflexivity | lia] |].
  destruct (Z.ltb_spec (Computing.as_minimumNumberOfRunningTasks props) 1);
    [left; eexists; split; [reflexivity | lia] |].
  destruct (Z.ltb_spec (Computing.as_maximumNumberOfRunningTasks props) 1);
    [left; eexists; split; [reflexivity | lia] |].
  right. split; [reflexivity |]. split; [| lia].
  do 3 eexists. repeat split.
Qed.

Lemma ComputingConstruct_scaling scope id props :
  after (without isAutoScaling) (scalingStep props)
    (Computing.ComputingConstruct scope id props).
Proof.
  unfold Computing.ComputingConstruct. cbv zeta.
  do 6 (apply (after_bind _ (without_app _));
        [ without_walk isAutoScaling | intros ? ]).
  apply (after_here _ (without_nil _)). unfold scalingStep.
  destruct (Computing.enableAutoScaling props).
  - match goal with
    | |- context [Computing.AutoScalingConstruct ?s ?i ?p] =>
        destruct (AutoScalingConstruct_cases s i p)
          as [(msg & E & Hwhy) | (Hok & (t & c & m & El & Hrest) & Hin)]
    end.
    + left. rewrite E. exists msg. cbn in Hwhy. repeat split; auto.
    + right. rewrite events_bind, outcome_bind, Hok, El.
      destruct Hrest as (Ht & _ & _ & Hc & Hm).
      eexists _, t, c, m.
      split; [reflexivity |]. split; [reflexivity |].
      split; [exact Ht |]. split; [exact Hc |]. split; [exact Hm |].
      cbn in Hin. lia.
  - split; [eexists |]; reflexivity.
Qed.

(** *** Steps that cannot throw *)

Lemma succeeds_ret {A} (a : A) : succeeds (ret a).
Proof. now exists a. Qed.

Lemma succeeds_new k this id config : succeeds (new k this id config).
Proof. eexists. reflexivity. Qed.

Lemma succeeds_addOverride r key v : succeeds (addOverride r key v).
Proof. now exists tt. Qed.

Lemma succeeds_bind {A B} (m : M A) (f : A -> M B) :
  succeeds m -> (forall a, succeeds (f a)) -> succeeds (bind m f).
Proof.
  intros (a & Ha) Hf. destruct (Hf a) as (b & Hb). exists b.
  now rewrite outcome_bind, Ha.
Qed.

Lemma succeeds_forEach {A} (f : A -> M unit) xs :
  (forall x, succeeds (f x)) -> succeeds (forEach f xs).
Proof.
  intros Hf. induction xs; simpl.
  - apply succeeds_ret.
  - apply succeeds_bind; auto.
Qed.

Lemma succeeds_collect {A B} (f : A -> M B) xs :
  (forall x, succeeds (f x)) -> succeeds (collect f xs).
Proof.
  intros Hf. induction xs; simpl.
  - apply succeeds_ret.
  - apply succeeds_bind; [apply Hf |]. intros y.
    apply succeeds_bind; [exact IHxs |]. intros ys. apply succeeds_ret.
Qed.

Ltac succeeds_walk :=
  repeat first
    [ apply succeeds_ret
    | apply succeeds_new
    | apply succeeds_addOverride
    | apply succeeds_bind; [| intros ?]
    | apply succeeds_forEach; intros ?
    | apply succeeds_collect; intros ?
    | match goal with
      | |- succeeds (if ?b then _ else _) => destruct b
      end
    | progress cbv zeta
    | progress autounfold with constructs helpers ].

Lemma EnvironmentVariablesConstruct_succeeds scope id props :
  succeeds (Computing.EnvironmentVariablesConstruct scope id props).
Proof. succeeds_walk. Qed.

Lemma TasksConstruct_succeeds scope id props :
  succeeds (Computing.TasksConstruct scope id props).
Proof. succeeds_walk. Qed.

Lemma ServiceConstruct_spec scope id props :
  1 <= Computing.svc_minimumNumberOfRunningTasks props ->
  exists service,
    Computing.ServiceConstruct scope id props = (Ok service, [Emit service])
    /\ r_kind service = EcsService
    /\ input service "desiredCount"
       = Some (VNum (Computing.svc_minimumNumberOfRunningTasks props))
    /\ input service "taskDefinition"
       = Some (VStr (Computing.serviceTaskDefinition
                       (Computing.svc_mainTaskDefinition props)
                       (Computing.svc_currentTaskDefinition props))).
Proof.
  intros Hminimum. unfold Computing.ServiceConstruct. cbv zeta.
  replace (Computing.svc_minimumNumberOfRunningTasks props <? 1) with false
    by (symmetry; apply Z.ltb_ge; lia).
  eexists. repeat split.
Qed.

Lemma ServiceConstruct_throws scope id props :
  Computing.svc_minimumNumberOfRunningTasks props < 1 ->
  Computing.ServiceConstruct scope id props
  = (Throw "Your Fargate cluster must run at least one task", []).
Proof.
  intros Hminimum. unfold Computing.ServiceConstruct. cbv zeta.
  now replace (Computing.svc_minimumNumberOfRunningTasks props <? 1) with true
    by (symmetry; apply Z.ltb_lt; lia).
Qed.

(** The computing unit returns when at least one task is asked for and,
    with auto-scaling enabled, the auto-scaling unit accepts its limits
    and bounds. *)
Lemma ComputingConstruct_succeeds scope id props :
  1 <= Computing.minimumNumberOfRunningFargateTasks props ->
  (Computing.enableAutoScaling props = true ->
     1 <= Computing.autoScalingMemoryLimitPercent props <= 100
     /\ 1 <= Computing.autoScalingCpuLimitPercent props <= 100
     /\ 1 <= Computing.maximumNumberOfRunningFargateTasks props) ->
  succeeds (Computing.ComputingConstruct scope id props).
Proof.
  intros Hminimum Hscaling. unfold Computing.ComputingConstruct. cbv zeta.
  apply succeeds_bind; [apply succeeds_new | intros logsGroup].
  apply succeeds_bind;
    [apply EnvironmentVariablesConstruct_succeeds | intros variables].
  apply succeeds_bind; [apply succeeds_new | intros cluster].
  apply succeeds_bind; [apply succeeds_new | intros repository].
  apply succeeds_bind; [apply TasksConstruct_succeeds | intros tasks].
  apply succeeds_bind.
  { match goal with
    | |- succeeds (Computing.ServiceConstruct ?s ?i ?p) =>
        destruct (ServiceConstruct_spec s i p) as (service & E & _);
        [exact Hminimum | rewrite E; now exists service]
    end. }
  intros service. apply succeeds_bind; [| intros; apply succeeds_ret].
  destruct (Computing.enableAutoScaling props); [| apply succeeds_ret].
  match goal with
  | |- succeeds (Computing.AutoScalingConstruct ?s ?i ?p) =>
      destruct (AutoScalingConstruct_cases s i p)
        as [(msg & _ & Hwhy) | (Hok & _)]
  end.
  - cbn in Hwhy. specialize (Hscaling eq_refl). lia.
  - now exists tt.
Qed.

(** The auto-scaling descriptors of the output are those of the last
    step. *)
Lemma scaling_of_output scope id props :
  let unit := Computing.ComputingConstruct scope id props in
  let scaling :=
    filter isAutoScaling (List.map d_resource (synth (events unit))) in
  ((exists msg, outcome unit = Throw msg) /\ scaling = [])
  \/ (exists l, scalingStep props (outcome unit) l
                /\ scaling = filter isAutoScaling (emitted l)).
Proof.
  intros unit scaling. unfold scaling, unit.
  destruct (ComputingConstruct_scaling scope id props)
    as (before & l & Hbefore & E & [(msg & Hthrow & ->) | HQ]);
    rewrite resources_synth, E, emitted_app, filter_app,
      (without_filter _ _ Hbefore).
  - left. split; [now exists msg | reflexivity].
  - right. exists l. split; [exact HQ | reflexivity].
Qed.

(** ** C5: auto-scaling is gated by its flag *)

(** C5. With the flag unset the computing unit registers no auto-scaling
    descriptor.  When the unit returns, the auto-scaling descriptors of its
    output are, with the flag set, exactly one scaling target followed by
    the CPU and the memory target-tracking policies, whose cooldowns are
    300 seconds and whose target values are the configured limits, and,
    with the flag unset, none: they are present if and only if the flag is
    set. *)
Theorem auto_scaling_gated_by_flag scope id props :
  let unit := Computing.ComputingConstruct scope id props in
  let scaling :=
    filter isAutoScaling (List.map d_resource (synth (events unit))) in
  (Computing.enableAutoScaling props = false -> scaling = [])
  /\ (forall result, outcome unit = Ok result ->
        (scaling <> [] <-> Computing.enableAutoScaling props = true)
        /\ (Computing.enableAutoScaling props = true ->
            exists target cpu memory,
              scaling = [target; cpu; memory]
              /\ r_kind target = AppautoscalingTarget
              /\ trackingPolicy "ECSServiceAverageCPUUtilization"
                   (Computing.autoScalingCpuLimitPercent props) cpu
              /\ trackingPolicy "ECSServiceAverageMemoryUtilization"
                   (Computing.autoScalingMemoryLimitPercent props) memory)).
Proof.
  intros unit scaling. unfold scaling, unit.
  destruct (scaling_of_output scope id props)
    as [((msg & Hthrow) & ->) | (l & Hstep & ->)].
  - split; [reflexivity |]. intros result Hok. congruence.
  - unfold scalingStep in Hstep.
    destruct (Computing.enableAutoScaling props).
    + split; [discriminate |]. intros result Hok.
      destruct Hstep
        as [(msg & Hthrow & _)
           | (r & t & c & m & _ & -> & Ht & Hc & Hm & _)];
        [congruence |].
      assert (Hkinds : filter isAutoScaling [t; c; m] = [t; c; m]).
      { destruct Hc as (Kc & _), Hm as (Km & _).
        unfold filter, isAutoScaling, isKind. now rewrite Ht, Kc, Km. }
      cbn [emitted]. rewrite Hkinds. split.
      * split; [reflexivity | discriminate].
      * intros _. now exists t, c, m.
    + destruct Hstep as (_ & ->). split; [reflexivity |].
      intros result _. split; [| discriminate].
      split; [intros Hne; now elim Hne | discriminate].
Qed.

(** ** C2: the auto-scaling limits are checked by the auto-scaling unit *)

(** Two compositions that differ only in what follows a first step
    register the same when what follows registers the same. *)
Lemma events_bind_ext {A B C} (m : M A) (f : A -> M B) (g : A -> M C) :
  (forall a, events (f a) = events (g a)) ->
  events (bind m f) = events (bind m g).
Proof.
  intros Hfg. rewrite !events_bind. destruct (outcome m); [| reflexivity].
  now rewrite Hfg.
Qed.

(** After a step that returns, the outcome is the one of what follows. *)
Lemma outcome_bind_succeeds {A B} (m : M A) (f : A -> M B) o :
  succeeds m -> (forall a, outcome (f a) = o) -> outcome (bind m f) = o.
Proof.
  intros (a & Ha) Hf. rewrite outcome_bind, Ha. apply Hf.
Qed.

(** C2, as amended.  For a CPU or memory limit outside [1, 100]: the
    auto-scaling unit throws before it registers anything.  With the flag
    set the computing unit throws, with no auto-scaling descriptor in its
    output, and the auto-scaling unit is composed last: what the computing
    unit has registered when it throws, the log group first, is all that
    it registers with the flag unset, that is, the descriptors of every
    other unit; when at least one running task is asked for, that
    composition without auto-scaling returns and the message thrown is
    the one of the memory limit or, the memory limit being in range, of
    the CPU limit.  With the flag unset the limits are not looked at and
    the computing unit returns as soon as one running task is asked
    for. *)
Theorem auto_scaling_limits_checked_when_enabled scope id props :
  let unit := Computing.ComputingConstruct scope id props in
  let earlier :=
    Computing.ComputingConstruct scope id (withAutoScaling false props) in
  outsidePercent (Computing.autoScalingCpuLimitPercent props)
  \/ outsidePercent (Computing.autoScalingMemoryLimitPercent props) ->
  (forall scope' id' scalingProps,
     Computing.as_cpuLimitPercent scalingProps
       = Computing.autoScalingCpuLimitPercent props ->
     Computing.as_memoryLimitPercent scalingProps
       = Computing.autoScalingMemoryLimitPercent props ->
     exists msg,
       Computing.AutoScalingConstruct scope' id' scalingProps = (Throw msg, []))
  /\ (Computing.enableAutoScaling props = true ->
      (exists msg, outcome unit = Throw msg)
      /\ (exists logsGroup others,
            List.map d_resource (synth (events unit)) = logsGroup :: others
            /\ r_kind logsGroup = CloudwatchLogGroup)
      /\ filter isAutoScaling (List.map d_resource (synth (events unit))) = []
      /\ events unit = events earlier
      /\ (1 <= Computing.minimumNumberOfRunningFargateTasks props ->
          succeeds earlier
          /\ (outsidePercent (Computing.autoScalingMemoryLimitPercent props) ->
              outcome unit
              = Throw "Memory limit must be comprised between 1 and 100")
          /\ (~ outsidePercent (Computing.autoScalingMemoryLimitPercent props) ->
              outcome unit
              = Throw "CPU limit must be comprised between 1 and 100")))
  /\ (Computing.enableAutoScaling props = false ->
      1 <= Computing.minimumNumberOfRunningFargateTasks props ->
      succeeds unit).
Proof.
  intros unit earlier Houtside. unfold outsidePercent in Houtside.
  split; [| split].
  - intros scope' id' scalingProps Ecpu Ememory.
    destruct (AutoScalingConstruct_cases scope' id' scalingProps)
      as [(msg & E & _) | (_ & _ & Hin)].
    + now exists msg.
    + lia.
  - intros Hflag.
    assert (Hfirst : exists logsGroup others,
              List.map d_resource (synth (events unit)) = logsGroup :: others
              /\ r_kind logsGroup = CloudwatchLogGroup).
    { unfold unit, Computing.ComputingConstruct. cbv zeta.
      rewrite resources_synth.
      match goal with
      | |- context [bind (new CloudwatchLogGroup ?t ?i ?c) ?f] =>
          rewrite (events_bind_Ok (new CloudwatchLogGroup t i c) f
                     (mkResource CloudwatchLogGroup (t ++ [i]) c)
                     [Emit (mkResource CloudwatchLogGroup (t ++ [i]) c)]
                     eq_refl)
      end.
      cbn [app emitted]. do 2 eexists. split; reflexivity. }
    assert (Hscaling :
      forall scope' id' cluster service,
        exists msg,
          Computing.AutoScalingConstruct scope' id'
            {| Computing.as_resourceNamesPrefix :=
                 Computing.resourceNamesPrefix props;
               Computing.as_cluster := cluster;
               Computing.as_cpuLimitPercent :=
                 Computing.autoScalingCpuLimitPercent props;
               Computing.as_memoryLimitPercent :=
                 Computing.autoScalingMemoryLimitPercent props;
               Computing.as_maximumNumberOfRunningTasks :=
                 Computing.maximumNumberOfRunningFargateTasks props;
               Computing.as_minimumNumberOfRunningTasks :=
                 Computing.minimumNumberOfRunningFargateTasks props;
               Computing.as_service := service |}
          = (Throw msg, [])
          /\ (outsidePercent (Computing.autoScalingMemoryLimitPercent props) ->
              msg = "Memory limit must be comprised between 1 and 100")
          /\ (~ outsidePercent (Computing.autoScalingMemoryLimitPercent props) ->
              msg = "CPU limit must be comprised between 1 and 100")).
    { intros scope' id' cluster service.
      unfold Computing.AutoScalingConstruct, outsidePercent. cbv zeta.
      cbn [Computing.as_memoryLimitPercent Computing.as_cpuLimitPercent].
      destruct (Z.ltb_spec (Computing.autoScalingMemoryLimitPercent props) 1);
        [eexists; split; [reflexivity | split; [reflexivity | lia]] |].
      destruct (Z.gtb_spec (Computing.autoScalingMemoryLimitPercent props) 100);
        [eexists; split; [reflexivity | split; [reflexivity | lia]] |].
      destruct (Z.ltb_spec (Computing.autoScalingCpuLimitPercent props) 1);
        [eexists; split; [reflexivity | split; [lia | reflexivity]] |].
      destruct (Z.gtb_spec (Computing.autoScalingCpuLimitPercent props) 100);
        [eexists; split; [reflexivity | split; [lia | reflexivity]] |].
      lia. }
    assert (Hlog : events unit = events earlier).
    { unfold unit, earlier, Computing.ComputingConstruct, withAutoScaling.
      cbv zeta.
      cbn [Computing.applicationLoadBalancerSecurityGroup
           Computing.applicationLoadBalancerTargetGroup
           Computing.autoScalingCpuLimitPercent
           Computing.autoScalingMemoryLimitPercent
           Computing.buildsEnvironmentVariables Computing.containerListenPort
           Computing.containerName Computing.currentAccount
           Computing.currentRegion Computing.dockerImageName
           Computing.enableAutoScaling Computing.environmentVariables
           Computing.fargateTasksCpu Computing.fargateTasksMemory
           Computing.maximumNumberOfRunningFargateTasks
           Computing.minimumNumberOfRunningFargateTasks
           Computing.preDeployCommand Computing.privateSubnets
           Computing.resourceNamesPrefix Computing.vpc].
      rewrite Hflag.
      do 6 (apply events_bind_ext; intros ?).
      match goal with
      | |- context [Computing.AutoScalingConstruct ?s ?i
                      {| Computing.as_cluster := ?c;
                         Computing.as_service := ?v |}] =>
          destruct (Hscaling s i c v) as (msg & -> & _)
      end.
      reflexivity. }
    assert (Hmessage :
      1 <= Computing.minimumNumberOfRunningFargateTasks props ->
      exists msg,
        outcome unit = Throw msg
        /\ (outsidePercent (Computing.autoScalingMemoryLimitPercent props) ->
            msg = "Memory limit must be comprised between 1 and 100")
        /\ (~ outsidePercent (Computing.autoScalingMemoryLimitPercent props) ->
            msg = "CPU limit must be comprised between 1 and 100")).
    { intros Hminimum.
      destruct (Hscaling [] EmptyString
                  (mkResource EcsCluster [] []) (mkResource EcsCluster [] []))
        as (msg & _ & Hmemory & Hcpu).
      exists msg. split; [| split; assumption].
      unfold unit, Computing.ComputingConstruct. cbv zeta. rewrite Hflag.
      apply outcome_bind_succeeds; [apply succeeds_new | intros logsGroup].
      apply outcome_bind_succeeds;
        [apply EnvironmentVariablesConstruct_succeeds | intros variables].
      apply outcome_bind_succeeds; [apply succeeds_new | intros cluster].
      apply outcome_bind_succeeds; [apply succeeds_new | intros repository].
      apply outcome_bind_succeeds;
        [apply TasksConstruct_succeeds | intros tasks].
      apply outcome_bind_succeeds.
      { match goal with
        | |- succeeds (Computing.ServiceConstruct ?s ?i ?q) =>
            destruct (ServiceConstruct_spec s i q Hminimum)
              as (service & -> & _)
        end.
        now exists service. }
      intros service.
      match goal with
      | |- context [Computing.AutoScalingConstruct ?s ?i
                      {| Computing.as_cluster := ?c;
                         Computing.as_service := ?v |}] =>
          destruct (Hscaling s i c v) as (msg' & -> & Hmemory' & Hcpu')
      end.
      cbn [bind outcome fst].
      f_equal.
      destruct (Z.ltb_spec (Computing.autoScalingMemoryLimitPercent props) 1);
        [rewrite Hmemory, Hmemory' by (unfold outsidePercent; lia);
         reflexivity |].
      destruct (Z.ltb_spec 100 (Computing.autoScalingMemoryLimitPercent props));
        [rewrite Hmemory, Hmemory' by (unfold outsidePercent; lia);
         reflexivity |].
      rewrite Hcpu, Hcpu' by (unfold outsidePercent; lia). reflexivity. }
    assert (Hrest :
      events unit = events earlier
      /\ (1 <= Computing.minimumNumberOfRunningFargateTasks props ->
          succeeds earlier
          /\ (outsidePercent (Computing.autoScalingMemoryLimitPercent props) ->
              outcome unit
              = Throw "Memory limit must be comprised between 1 and 100")
          /\ (~ outsidePercent (Computing.autoScalingMemoryLimitPercent props) ->
              outcome unit
              = Throw "CPU limit must be comprised between 1 and 100"))).
    { split; [exact Hlog |]. intros Hminimum.
      destruct (Hmessage Hminimum) as (msg & Hthrow & Hmemory & Hcpu).
      split; [| split].
      - apply ComputingConstruct_succeeds; [exact Hminimum |].
        discriminate.
      - intros Hout. now rewrite Hthrow, (Hmemory Hout).
      - intros Hin. now rewrite Hthrow, (Hcpu Hin). }
    clearbody earlier. clear Hlog Hmessage.
    destruct Hrest as (Hlog & Hmessage).
    split; [| split; [exact Hfirst | split; [| split; assumption]]].
    + unfold unit.
      destruct (scaling_of_output scope id props)
        as [((msg & Hthrow) & _) | (l & Hstep & _)]; [now exists msg |].
      unfold scalingStep in Hstep. rewrite Hflag in Hstep.
      destruct Hstep as [(msg & Hthrow & _) | (r & t & c & m & Hin)];
        [now exists msg | lia].
    + unfold unit.
      destruct (scaling_of_output scope id props)
        as [(_ & Hnone) | (l & Hstep & Hnone)]; [exact Hnone |].
      unfold scalingStep in Hstep. rewrite Hflag in Hstep.
      destruct Hstep as [(msg & _ & -> & _) | (r & t & c & m & Hin)];
        [exact Hnone | lia].
  - intros Hflag Hminimum. apply ComputingConstruct_succeeds; auto.
    rewrite Hflag. discriminate.
Qed.

(** ** C6: the task definition of the service *)

(** C6. The service unit, when it returns, has registered the service
    with, as its task definition, the text made of the family of the main
    task definition, a colon and the formula [max(a.revision, b.revision)]
    over the addresses of the main and of the currently registered task
    definitions, left for the provisioning tool to evaluate. *)
Theorem service_task_definition_formula scope id props :
  let main := Computing.svc_mainTaskDefinition props in
  let current := Computing.svc_currentTaskDefinition props in
  1 <= Computing.svc_minimumNumberOfRunningTasks props ->
  exists service,
    Computing.ServiceConstruct scope id props = (Ok service, [Emit service])
    /\ r_kind service = EcsService
    /\ input service "taskDefinition"
       = Some (VStr (inputString main "family" ++ ":${max("
                     ++ fqn main ++ ".revision, "
                     ++ fqn current ++ ".revision)}")).
Proof.
  intros main current Hminimum.
  destruct (ServiceConstruct_spec scope id props Hminimum)
    as (service & E & Hkind & _ & Hdefinition).
  exists service. auto.
Qed.

(** ** C7: at least one running task *)

(** C7. For a minimum number of running tasks below 1 the service unit
    throws before registering the service; so does the auto-scaling unit,
    which is composed when auto-scaling is enabled, with the same message
    once its limits are in range; and the computing unit, which composes
    the service unit first, throws without a service descriptor. *)
Theorem minimum_running_tasks_enforced scope id :
  (forall props,
     Computing.svc_minimumNumberOfRunningTasks props < 1 ->
     Computing.ServiceConstruct scope id props
     = (Throw "Your Fargate cluster must run at least one task", []))
  /\ (forall props,
        Computing.as_minimumNumberOfRunningTasks props < 1 ->
        exists msg,
          Computing.AutoScalingConstruct scope id props = (Throw msg, [])
          /\ (1 <= Computing.as_memoryLimitPercent props <= 100 ->
              1 <= Computing.as_cpuLimitPercent props <= 100 ->
              msg = "Your Fargate cluster must run at least one task"))
  /\ (forall props,
        Computing.minimumNumberOfRunningFargateTasks props < 1 ->
        let unit := Computing.ComputingConstruct scope id props in
        (exists msg, outcome unit = Throw msg)
        /\ filter (fun r => isKind EcsService r || isAutoScaling r)
             (List.map d_resource (synth (events unit))) = []).
Proof.
  split; [| split].
  - intros props. apply ServiceConstruct_throws.
  - intros props Hminimum.
    unfold Computing.AutoScalingConstruct. cbv zeta.
    destruct (Z.ltb_spec (Computing.as_memoryLimitPercent props) 1);
      [eexists; split; [reflexivity | lia] |].
    destruct (Z.gtb_spec (Computing.as_memoryLimitPercent props) 100);
      [eexists; split; [reflexivity | lia] |].
    destruct (Z.ltb_spec (Computing.as_cpuLimitPercent props) 1);
      [eexists; split; [reflexivity | lia] |].
    destruct (Z.gtb_spec (Computing.as_cpuLimitPercent props) 100);
      [eexists; split; [reflexivity | lia] |].
    destruct (Z.ltb_spec (Computing.as_minimumNumberOfRunningTasks props) 1);
      [| lia].
    eexists. split; reflexivity.
  - intros props Hminimum unit.
    set (p := fun r => isKind EcsService r || isAutoScaling r).
    assert (Hafter : after (without p) (fun _ _ => False) unit).
    { unfold unit, Computing.ComputingConstruct. cbv zeta.
      do 5 (apply (after_bind _ (without_app _));
            [ without_walk p | intros ? ]).
      match goal with
      | |- context [Computing.ServiceConstruct ?s ?i ?q] =>
          rewrite (ServiceConstruct_throws s i q Hminimum)
      end.
      apply (after_throw _ (without_nil _)). }
    destruct Hafter as (before & l & Hbefore & E & [(msg & Hthrow & ->) | []]).
    split; [now exists msg |].
    rewrite resources_synth, E, app_nil_r. now apply without_filter.
Qed.

End ComputingProperties.

(** ** C3: the secret parameters of the application and of the builds *)

Lemma startsWith_split p s :
  Str.startsWith p s = true -> s = p ++ Str.drop (String.length p) s.
Proof.
  revert s. induction p as [| a p IH]; intros [| b s]; simpl; try discriminate;
    auto.
  intros E. apply andb_true_iff in E. destruct E as (Eab & E).
  apply Ascii.eqb_eq in Eab. subst b. f_equal. now apply IH.
Qed.

Lemma stripPrefix_prefixed p s :
  Str.startsWith p s = true -> p ++ Str.stripPrefix p s = s.
Proof.
  intros E. unfold Str.stripPrefix. rewrite E. symmetry.
  now apply startsWith_split.
Qed.

Lemma stripPrefix_injective p ks :
  NoDup ks ->
  NoDup (List.map (Str.stripPrefix p) (filter (Str.startsWith p) ks)).
Proof.
  induction 1 as [| k ks Hk Hks IH]; simpl; [constructor |].
  destruct (Str.startsWith p k) eqn:E; [| exact IH].
  simpl. constructor; [| exact IH].
  intros Hin. apply in_map_iff in Hin. destruct Hin as (k' & Ek & Hk').
  apply filter_In in Hk'. destruct Hk' as (Hk' & E').
  apply Hk. replace k with k'; [exact Hk' |].
  rewrite <- (stripPrefix_prefixed p k' E'), <- (stripPrefix_prefixed p k E).
  now rewrite Ek.
Qed.

Lemma lookup_absent {A} k (o : list (string * A)) :
  ~ In k (List.map fst o) -> lookup k o = None.
Proof.
  induction o as [| [k' v] o IH]; simpl; [reflexivity |].
  intros Hk. destruct (String.eqb_spec k' k); [tauto |]. apply IH. tauto.
Qed.

Lemma lookup_present {A} k (o : list (string * A)) :
  In k (List.map fst o) -> exists v, lookup k o = Some v.
Proof.
  induction o as [| [k' v] o IH]; simpl; [tauto |].
  intros Hk. destruct (String.eqb_spec k' k); [now exists v |].
  apply IH. destruct Hk; [contradiction | assumption].
Qed.

Lemma setOwn_fresh k v (o : JS.Object) :
  ~ In k (List.map fst o) -> JS.setOwn k v o = (o ++ [(k, v)])%list.
Proof.
  induction o as [| [k' v'] o IH]; simpl; intros Hk; [reflexivity |].
  destruct (String.eqb_spec k' k) as [-> | _]; [tauto |].
  rewrite IH; tauto.
Qed.

(** Assigning to a name the object does not have: the property is added
    last, but for [__proto__], where nothing changes. *)
Lemma set_fresh k v (o : JS.Object) :
  ~ In k (List.map fst o) ->
  JS.set k v o = if kept k then (o ++ [(k, v)])%list else o.
Proof.
  intros Hk. unfold JS.set, JS.hasOwn, kept.
  rewrite (lookup_absent _ _ Hk).
  destruct (String.eqb k "__proto__"); cbn [andb negb]; [reflexivity |].
  now apply setOwn_fresh.
Qed.

(** Setting distinct names one after the other appends, in order, those
    that are kept. *)
Lemma fold_set_distinct {A} (name value : A -> string) ks (o : JS.Object) :
  NoDup (List.map fst o ++ List.map name ks) ->
  fold_left (fun acc k => JS.set (name k) (value k) acc) ks o
  = (o ++ List.map (fun k => (name k, value k))
            (filter (fun k => kept (name k)) ks))%list.
Proof.
  revert o. induction ks as [| k ks IH]; intros o Hnodup; simpl.
  - now rewrite app_nil_r.
  - simpl in Hnodup. rewrite set_fresh.
    + destruct (kept (name k)).
      * rewrite IH.
        -- cbn [List.map]. now rewrite <- app_assoc.
        -- rewrite map_app. simpl. rewrite <- app_assoc. exact Hnodup.
      * apply IH. now apply NoDup_remove_1 in Hnodup.
    + apply NoDup_remove_2 in Hnodup. intros Hin. apply Hnodup.
      apply in_or_app. now left.
Qed.

(** The variables of a prefix that the reduce keeps. *)
Lemma kept_names_distinct p ks :
  NoDup ks ->
  NoDup (List.map (Str.stripPrefix p)
           (filter (fun k => kept (Str.stripPrefix p k))
              (filter (Str.startsWith p) ks))).
Proof.
  intros Hnodup. rewrite <- filter_map_swap. apply NoDup_filter.
  now apply stripPrefix_injective.
Qed.

Lemma variablesPrefixed_entries p env :
  NoDup (Root.Object_keys env) ->
  Root.variablesPrefixed p env
  = List.map (fun k => (Str.stripPrefix p k, Root.valueOf env k))
      (filter (fun k => kept (Str.stripPrefix p k))
         (filter (Str.startsWith p) (Root.Object_keys env))).
Proof.
  intros Hnodup. unfold Root.variablesPrefixed.
  rewrite fold_set_distinct; [reflexivity |].
  cbn [List.map app]. now apply stripPrefix_injective.
Qed.





Lemma collect_exact {A} (f : A -> M Resource) (g : A -> Resource) xs :
  (forall x, f x = (Ok (g x), [Emit (g x)])) ->
  collect f xs = (Ok (List.map g xs), List.map (fun x => Emit (g x)) xs).
Proof.
  intros Hf. induction xs as [| x xs IH]; simpl; [reflexivity |].
  rewrite (bind_Ok _ _ _ _ (Hf x)), (bind_Ok _ _ _ _ IH). simpl.
  now rewrite app_nil_r.
Qed.

Lemma lookup_map_distinct {A} (name value : A -> string) ks k :
  NoDup (List.map name ks) -> In k ks ->
  lookup (name k) (List.map (fun k' => (name k', value k')) ks)
  = Some (value k).
Proof.
  induction ks as [| k' ks IH]; simpl; [tauto |].
  intros Hnodup Hin. apply NoDup_cons_iff in Hnodup.
  destruct Hnodup as (Hk' & Hnodup).
  destruct (String.eqb_spec (name k') (name k)) as [E | Hne].
  - destruct Hin as [-> | Hin]; [reflexivity |].
    exfalso. apply Hk'. rewrite E. now apply in_map.
  - destruct Hin as [-> | Hin]; [congruence | auto].
Qed.

Section SecretParameters.

Context `{Externals}.



End SecretParameters.

(** ** C4: null overrides for the optional fields that are not set *)

Lemma pathEqb_eq p q : pathEqb p q = true <-> p = q.
Proof.
  revert q. induction p as [| a p IH]; intros [| b q]; simpl;
    try (split; [discriminate | congruence]); [tauto |].
  rewrite andb_true_iff, String.eqb_eq, IH.
  split; [intros (-> & ->); reflexivity | intros E; now inversion E].
Qed.

Lemma pathEqb_refl p : pathEqb p p = true.
Proof. now apply pathEqb_eq. Qed.

Lemma lookup_setOverride k v o k' :
  lookup k' (setOverride k v o)
  = if String.eqb k k' then Some v else lookup k' o.
Proof.
  induction o as [| [k0 v0] o IH]; simpl.
  - reflexivity.
  - destruct (String.eqb_spec k0 k) as [-> | Hne]; simpl.
    + now destruct (String.eqb k k').
    + destruct (String.eqb_spec k0 k') as [-> | Hne'].
      * destruct (String.eqb_spec k k'); [congruence | reflexivity].
      * exact IH.
Qed.

Lemma settled_onlyNull d : settled onlyNull d -> nulled d.
Proof.
  intros Hd f Hf Hunset. specialize (Hd f Hf).
  destruct (lookup (snd f) (d_overrides d)) as [v |].
  - destruct Hd as [-> | []]. reflexivity.
  - congruence.
Qed.

Lemma settled_truthyValue d : settled truthyValue d -> normalised d.
Proof.
  intros Hd f Hf. specialize (Hd f Hf). unfold fieldValue.
  destruct (lookup (snd f) (d_overrides d)) as [v |].
  - destruct Hd as [-> | Hv]; [now right | now left].
  - now left.
Qed.

Section Settled.

Variable allowed : value -> Prop.

(** An override that is null or allowed keeps a descriptor settled. *)
Lemma settled_setOverride d k v :
  v = VNull \/ allowed v ->
  settled allowed d ->
  settled allowed
    (mkDescriptor (d_resource d) (setOverride k v (d_overrides d))).
Proof.
  intros Hv Hd f Hf. cbn [d_resource d_overrides] in *.
  rewrite lookup_setOverride.
  destruct (String.eqb k (snd f)); [exact Hv | exact (Hd f Hf)].
Qed.

Lemma normalising_nil : normalising allowed [].
Proof. intros ds Hds. exact Hds. Qed.

Lemma normalising_app l l' :
  normalising allowed l -> normalising allowed l' ->
  normalising allowed (l ++ l').
Proof.
  intros Hl Hl' ds Hds. rewrite replay_app. apply Hl', Hl, Hds.
Qed.

Lemma normalising_Override target k v :
  v = VNull \/ allowed v ->
  normalising allowed [Override target k v].
Proof.
  intros Hv ds Hds. unfold replay. cbn [fold_left applyEvent].
  apply Forall_map. eapply Forall_impl; [| exact Hds].
  intros d Hd. destruct (pathEqb _ _); [| exact Hd].
  now apply settled_setOverride.
Qed.

Lemma normalising_addOverride r k v :
  v = VNull \/ allowed v ->
  respects (normalising allowed) (addOverride r k v).
Proof. apply normalising_Override. Qed.

Lemma normalising_new k this id config :
  optionalFields (mkResource k (this ++ [id]) config) = [] ->
  respects (normalising allowed) (new k this id config).
Proof.
  intros Hnone ds Hds. unfold replay. cbn [events new snd fold_left applyEvent].
  apply Forall_app. split; [exact Hds |].
  constructor; [| constructor]. intros f Hf. cbn [d_resource] in Hf.
  rewrite Hnone in Hf. destruct Hf.
Qed.

End Settled.

(** *** The object and its null overrides *)

Lemma overridesOn_nulls_in path ks o k :
  In k ks ->
  lookup k (overridesOn path
              (List.map (fun k => Override path k VNull) ks) o)
  = Some VNull.
Proof.
  revert o. induction ks as [| k0 ks IH]; intros o Hin; [destruct Hin |].
  unfold overridesOn. cbn [List.map fold_left]. rewrite pathEqb_refl.
  fold (overridesOn path (List.map (fun k => Override path k VNull) ks)
          (setOverride k0 VNull o)).
  destruct (in_dec string_dec k ks) as [Hk | Hk]; [now apply IH |].
  destruct Hin as [-> | Hin]; [| contradiction].
  clear IH. revert o. induction ks as [| k1 ks IH]; intros o.
  - unfold overridesOn. cbn [List.map fold_left].
    now rewrite lookup_setOverride, String.eqb_refl.
  - unfold overridesOn. cbn [List.map fold_left]. rewrite pathEqb_refl.
    fold (overridesOn path (List.map (fun k => Override path k VNull) ks)
            (setOverride k1 VNull (setOverride k VNull o))).
    assert (Hk1 : k1 <> k) by (intros ->; apply Hk; now left).
    assert (Hks : ~ In k ks) by (intros Hin; apply Hk; now right).
    specialize (IH Hks).
    assert (Hgen : forall o', lookup k o' = Some VNull ->
              lookup k (overridesOn path
                          (List.map (fun k => Override path k VNull) ks) o')
              = Some VNull).
    { clear - Hks. induction ks as [| k2 ks IH2]; intros o' Ho'; [exact Ho' |].
      unfold overridesOn. cbn [List.map fold_left]. rewrite pathEqb_refl.
      apply IH2.
      - intros Hin. apply Hks. now right.
      - rewrite lookup_setOverride.
        destruct (String.eqb k2 k); [reflexivity | exact Ho']. }
    apply Hgen. rewrite lookup_setOverride.
    destruct (String.eqb_spec k1 k); [congruence |].
    now rewrite lookup_setOverride, String.eqb_refl.
Qed.

Lemma overridesOn_nulls path ks o k :
  lookup k (overridesOn path
              (List.map (fun k => Override path k VNull) ks) o)
  = Some VNull
  \/ lookup k (overridesOn path
                 (List.map (fun k => Override path k VNull) ks) o)
     = lookup k o.
Proof.
  revert o. induction ks as [| k0 ks IH]; intros o; [now right |].
  unfold overridesOn. cbn [List.map fold_left]. rewrite pathEqb_refl.
  fold (overridesOn path (List.map (fun k => Override path k VNull) ks)
          (setOverride k0 VNull o)).
  destruct (IH (setOverride k0 VNull o)) as [E | E]; [now left |].
  rewrite E, lookup_setOverride.
  destruct (String.eqb k0 k); [now left | now right].
Qed.

Lemma replay_nulls path ks ds :
  replay (List.map (fun k => Override path k VNull) ks) ds
  = List.map (fun d =>
      if pathEqb (r_path (d_resource d)) path
      then mkDescriptor (d_resource d)
             (overridesOn path
                (List.map (fun k => Override path k VNull) ks)
                (d_overrides d))
      else d) ds.
Proof.
  revert ds. induction ks as [| k ks IH]; intros ds.
  - unfold replay, overridesOn. cbn [List.map fold_left].
    rewrite <- (map_id ds) at 1. apply map_ext. intros [r o].
    now destruct (pathEqb _ _).
  - unfold replay. cbn [List.map fold_left]. fold (replay
      (List.map (fun k => Override path k VNull) ks)
      (applyEvent ds (Override path k VNull))).
    rewrite IH. cbn [applyEvent]. rewrite map_map. apply map_ext.
    intros [r o]. cbn [d_resource d_overrides].
    destruct (pathEqb (r_path r) path) eqn:E; cbn [d_resource d_overrides];
      rewrite E; [| reflexivity].
    unfold overridesOn at 2. cbn [List.map fold_left].
    now rewrite pathEqb_refl.
Qed.

Lemma setOverride_same k v o :
  lookup k o = Some v -> setOverride k v o = o.
Proof.
  induction o as [| [k0 v0] o IH]; simpl; [discriminate |].
  destruct (String.eqb k0 k); [congruence |].
  intros E. now rewrite IH.
Qed.

Lemma overridesOn_nulls_fixed path ks o :
  (forall k, In k ks -> lookup k o = Some VNull) ->
  overridesOn path (List.map (fun k => Override path k VNull) ks) o = o.
Proof.
  induction ks as [| k ks IH]; intros Ho; [reflexivity |].
  unfold overridesOn. cbn [List.map fold_left]. rewrite pathEqb_refl.
  rewrite setOverride_same by (apply Ho; now left).
  apply IH. intros k' Hk'. apply Ho. now right.
Qed.

(** Replaying the null overrides of an object a second time changes
    nothing. *)
Lemma replay_nulls_twice path ks ds :
  let l := List.map (fun k => Override path k VNull) ks in
  replay l (replay l ds) = replay l ds.
Proof.
  intros l. unfold l. rewrite !replay_nulls, map_map. apply map_ext.
  intros [r o]. cbn [d_resource d_overrides].
  destruct (pathEqb (r_path r) path) eqn:E; cbn [d_resource d_overrides];
    rewrite E; [| reflexivity].
  f_equal. apply overridesOn_nulls_fixed. intros k Hk.
  now apply overridesOn_nulls_in.
Qed.

(** Registering an object and overriding with null each of its optional
    fields that is not set keeps the output settled. *)
Lemma normalising_block allowed r :
  normalising allowed
    (Emit r :: List.map (fun k => Override (r_path r) k VNull)
                 (nullKeys (optionalFields r))).
Proof.
  intros ds Hds. unfold replay. cbn [fold_left applyEvent].
  fold (replay (List.map (fun k => Override (r_path r) k VNull)
                  (nullKeys (optionalFields r)))
          (ds ++ [mkDescriptor r []])).
  rewrite replay_nulls. apply Forall_map. apply Forall_app. split.
  - eapply Forall_impl; [| exact Hds]. intros d Hd.
    destruct (pathEqb _ _); [| exact Hd].
    intros f Hf. cbn [d_resource d_overrides] in *.
    destruct (overridesOn_nulls (r_path r) (nullKeys (optionalFields r))
                (d_overrides d) (snd f)) as [E | E]; rewrite E.
    + now left.
    + exact (Hd f Hf).
  - constructor; [| constructor]. cbn [d_resource d_overrides].
    rewrite pathEqb_refl. intros f Hf. cbn [d_resource d_overrides] in *.
    destruct (truthy (fst f)) eqn:Hset.
    + destruct (overridesOn_nulls (r_path r) (nullKeys (optionalFields r))
                  [] (snd f)) as [E | E]; rewrite E; [now left | reflexivity].
    + rewrite overridesOn_nulls_in; [now left |]. unfold nullKeys.
      apply in_map. apply filter_In. split; [exact Hf |]. now rewrite Hset.
Qed.

(** *** What the helpers do *)

Lemma forEach_flat_map {A} (f : A -> M unit) (g : A -> list Event) xs :
  (forall x, f x = (Ok tt, g x)) -> forEach f xs = (Ok tt, flat_map g xs).
Proof.
  intros Hf. induction xs as [| x xs IH]; [reflexivity |].
  cbn [forEach flat_map]. now rewrite (bind_Ok _ _ _ _ (Hf x)), IH.
Qed.

Lemma forEach_nulls {A} r (unset : A -> bool) (key : A -> string) xs :
  forEach (fun x => if unset x then addOverride r (key x) VNull else ret tt) xs
  = (Ok tt, List.map (fun k => Override (r_path r) k VNull)
              (List.map key (filter unset xs))).
Proof.
  induction xs as [| x xs IH]; [reflexivity |].
  cbn [forEach filter]. destruct (unset x).
  - rewrite (bind_Ok _ _ tt [Override (r_path r) (key x) VNull] eq_refl), IH.
    reflexivity.
  - rewrite (bind_Ok _ _ tt [] eq_refl), IH. reflexivity.
Qed.

Lemma nullKeys_map {A} (valueOf : A -> option value) (key : A -> string) xs :
  nullKeys (List.map (fun x => (valueOf x, key x)) xs)
  = List.map key (filter (fun x => negb (truthy (valueOf x))) xs).
Proof.
  unfold nullKeys. induction xs as [| x xs IH]; [reflexivity |].
  cbn [List.map filter fst]. destruct (negb (truthy (valueOf x)));
    cbn [List.map snd]; now rewrite IH.
Qed.

Lemma nullKeys_app fs fs' : nullKeys (fs ++ fs') = (nullKeys fs ++ nullKeys fs')%list.
Proof. unfold nullKeys. now rewrite filter_app, map_app. Qed.

Lemma overrideNullValuesForSecurityGroupRule_nulls r :
  Utils.overrideNullValuesForSecurityGroupRule r
  = (Ok r, List.map (fun k => Override (r_path r) k VNull)
             (nullKeys (List.map (fun property : string * string =>
                                    (input r (fst property), snd property))
                          Utils.securityGroupRulePropertiesToOverride))).
Proof.
  unfold Utils.overrideNullValuesForSecurityGroupRule.
  rewrite (forEach_nulls r
             (fun p : string * string => negb (truthy (input r (fst p)))) snd).
  rewrite (nullKeys_map (fun p : string * string => input r (fst p)) snd).
  unfold bind, ret. now rewrite app_nil_r.
Qed.

Lemma overrideNullValuesForSecurityGroupRule_spec r :
  r_kind r = SecurityGroupRule ->
  Utils.overrideNullValuesForSecurityGroupRule r
  = (Ok r, List.map (fun k => Override (r_path r) k VNull)
             (nullKeys (optionalFields r))).
Proof.
  intros Hkind. rewrite overrideNullValuesForSecurityGroupRule_nulls.
  unfold optionalFields. now rewrite Hkind.
Qed.

Lemma overrideNullValuesIn_spec r block properties :
  Utils.overrideNullValuesIn r block properties
  = (Ok tt, List.map (fun k => Override (r_path r) k VNull)
              (nullKeys (elementFields block properties r))).
Proof.
  unfold Utils.overrideNullValuesIn, elementFields.
  assert (E : forall elements : list (value * nat),
    forEach (fun element : value * nat =>
      forEach (fun propertyToOverride : string * string =>
          if negb (truthy (Utils.field (fst propertyToOverride) (fst element)))
          then addOverride r
                 (block ++ "." ++ Str.of_nat (snd element) ++ "."
                  ++ snd propertyToOverride) VNull
          else ret tt)
        properties) elements
    = (Ok tt, List.map (fun k => Override (r_path r) k VNull)
                (nullKeys (flat_map (fun element : value * nat =>
                   List.map (fun property : string * string =>
                     (Utils.field (fst property) (fst element),
                      block ++ "." ++ Str.of_nat (snd element) ++ "."
                      ++ snd property)) properties) elements)))).
  { intros elements.
    rewrite (forEach_flat_map _ (fun element : value * nat =>
      List.map (fun k => Override (r_path r) k VNull)
        (nullKeys (List.map (fun property : string * string =>
           (Utils.field (fst property) (fst element),
            block ++ "." ++ Str.of_nat (snd element) ++ "." ++ snd property))
           properties)))).
    - f_equal. induction elements as [| e es IH]; [reflexivity |].
      cbn [flat_map]. now rewrite nullKeys_app, map_app, IH.
    - intros element.
      rewrite (forEach_nulls r
        (fun p : string * string =>
           negb (truthy (Utils.field (fst p) (fst element))))
        (fun p : string * string =>
           block ++ "." ++ Str.of_nat (snd element) ++ "." ++ snd p)).
      now rewrite (nullKeys_map
        (fun p : string * string => Utils.field (fst p) (fst element))
        (fun p : string * string =>
           block ++ "." ++ Str.of_nat (snd element) ++ "." ++ snd p)). }
  destruct (inputList r block) as [| e es] eqn:Elist.
  - reflexivity.
  - cbn [List.length Nat.eqb]. apply E.
Qed.

Lemma overrideNullValuesForSecurityGroup_nulls r :
  Utils.overrideNullValuesForSecurityGroup r
  = (Ok r, List.map (fun k => Override (r_path r) k VNull)
             (nullKeys
                (elementFields "ingress"
                   Utils.securityGroupPropertiesToOverride r
                 ++ elementFields "egress"
                      Utils.securityGroupPropertiesToOverride r))).
Proof.
  unfold Utils.overrideNullValuesForSecurityGroup.
  rewrite !overrideNullValuesIn_spec.
  unfold bind, ret. now rewrite nullKeys_app, map_app, app_nil_r.
Qed.

Lemma overrideNullValuesForSecurityGroup_spec r :
  r_kind r = SecurityGroup ->
  Utils.overrideNullValuesForSecurityGroup r
  = (Ok r, List.map (fun k => Override (r_path r) k VNull)
             (nullKeys (optionalFields r))).
Proof.
  intros Hkind. rewrite overrideNullValuesForSecurityGroup_nulls.
  unfold optionalFields. now rewrite Hkind.
Qed.

Lemma overrideNullValuesForRouteTable_nulls r :
  Utils.overrideNullValuesForRouteTable r
  = (Ok r, List.map (fun k => Override (r_path r) k VNull)
             (nullKeys (elementFields "route"
                          Utils.routeTablePropertiesToOverride r))).
Proof.
  unfold Utils.overrideNullValuesForRouteTable.
  rewrite overrideNullValuesIn_spec.
  unfold bind, ret. now rewrite app_nil_r.
Qed.

Lemma overrideNullValuesForRouteTable_spec r :
  r_kind r = RouteTable ->
  Utils.overrideNullValuesForRouteTable r
  = (Ok r, List.map (fun k => Override (r_path r) k VNull)
             (nullKeys (optionalFields r))).
Proof.
  intros Hkind. rewrite overrideNullValuesForRouteTable_nulls.
  unfold optionalFields. now rewrite Hkind.
Qed.

(** A constructor call wrapped in the helper of its kind. *)
Lemma normalising_wrapped allowed k this id config
    (helper : Resource -> M Resource) :
  (forall r, r_kind r = k ->
     helper r = (Ok r, List.map (fun key => Override (r_path r) key VNull)
                         (nullKeys (optionalFields r)))) ->
  respects (normalising allowed) (bind (new k this id config) helper).
Proof.
  intros Hhelper. unfold respects.
  set (r := mkResource k (this ++ [id]) config).
  rewrite (events_bind_Ok (new k this id config) _ r [Emit r] eq_refl).
  rewrite (Hhelper r eq_refl). apply normalising_block.
Qed.

Lemma normalising_wrapped_then {B} allowed k this id config
    (helper : Resource -> M Resource) (f : Resource -> M B) :
  (forall r, r_kind r = k ->
     helper r = (Ok r, List.map (fun key => Override (r_path r) key VNull)
                         (nullKeys (optionalFields r)))) ->
  (forall r, respects (normalising allowed) (f r)) ->
  respects (normalising allowed)
    (bind (new k this id config) (fun r => bind (helper r) f)).
Proof.
  intros Hhelper Hf. unfold respects.
  set (r := mkResource k (this ++ [id]) config).
  rewrite (events_bind_Ok (new k this id config) _ r [Emit r] eq_refl).
  rewrite (events_bind_Ok _ _ _ _ (Hhelper r eq_refl)).
  rewrite app_assoc. apply normalising_app; [| apply Hf].
  apply normalising_block.
Qed.

Ltac normalising_walk allowed :=
  walk (normalising_nil allowed) (normalising_app allowed)
    ltac:(idtac; lazymatch goal with
          | |- respects _ (bind (new SecurityGroupRule _ _ _) _) =>
              first
                [ apply (normalising_wrapped_then allowed SecurityGroupRule
                           _ _ _ Utils.overrideNullValuesForSecurityGroupRule _
                           overrideNullValuesForSecurityGroupRule_spec);
                  intros ?
                | apply (normalising_wrapped allowed SecurityGroupRule _ _ _
                           Utils.overrideNullValuesForSecurityGroupRule
                           overrideNullValuesForSecurityGroupRule_spec) ]
          | |- respects _ (bind (new SecurityGroup _ _ _) _) =>
              first
                [ apply (normalising_wrapped_then allowed SecurityGroup _ _ _
                           Utils.overrideNullValuesForSecurityGroup _
                           overrideNullValuesForSecurityGroup_spec);
                  intros ?
                | apply (normalising_wrapped allowed SecurityGroup _ _ _
                           Utils.overrideNullValuesForSecurityGroup
                           overrideNullValuesForSecurityGroup_spec) ]
          | |- respects _ (bind (new RouteTable _ _ _) _) =>
              first
                [ apply (normalising_wrapped_then allowed RouteTable _ _ _
                           Utils.overrideNullValuesForRouteTable _
                           overrideNullValuesForRouteTable_spec);
                  intros ?
                | apply (normalising_wrapped allowed RouteTable _ _ _
                           Utils.overrideNullValuesForRouteTable
                           overrideNullValuesForRouteTable_spec) ]
          | |- respects _ (new _ _ _ _) => apply normalising_new; reflexivity
          | |- respects _ (addOverride _ _ _) =>
              apply normalising_addOverride;
              first [left; reflexivity | right; reflexivity]
          end).

Lemma NetworkConstruct_normalising allowed scope id props :
  respects (normalising allowed) (Network.NetworkConstruct scope id props).
Proof. normalising_walk allowed. Qed.

Lemma codebuildSecurityGroup_normalising allowed this resourceNamesPrefix vpc :
  respects (normalising allowed)
    (ContinuousDeployment.codebuildSecurityGroup this resourceNamesPrefix vpc).
Proof. normalising_walk allowed. Qed.

Lemma settled_output allowed {A} (m : M A) :
  respects (normalising allowed) m ->
  Forall (settled allowed) (synth (events m)).
Proof. intros Hm. apply (Hm []). constructor. Qed.

Section NullOverrides.

Context `{Externals}.

Lemma ComputingConstruct_normalising allowed scope id props :
  respects (normalising allowed)
    (Computing.ComputingConstruct scope id props).
Proof. normalising_walk allowed. Qed.

Lemma ScaffoldAWSServerlessDocker_normalising scope id env :
  respects (normalising truthyValue)
    (Root.ScaffoldAWSServerlessDocker scope id env).
Proof.
  unfold Root.ScaffoldAWSServerlessDocker. cbv zeta.
  apply respects_bind;
    [exact (normalising_nil _) | exact (normalising_app _) | |].
  { apply respects_forEach;
      [exact (normalising_nil _) | exact (normalising_app _) | intros name].
    destruct (negb _); [apply respects_throw | apply respects_ret];
      exact (normalising_nil _). }
  intros _.
  destruct (_ =? 0); [apply respects_throw; exact (normalising_nil _) |].
  destruct (_ =? 0); [apply respects_throw; exact (normalising_nil _) |].
  do 4 (apply respects_bind;
        [ exact (normalising_nil _) | exact (normalising_app _)
        | apply normalising_new; reflexivity | intros ? ]).
  apply respects_bind;
    [ exact (normalising_nil _) | exact (normalising_app _)
    | apply NetworkConstruct_normalising | intros network ].
  apply respects_bind;
    [ exact (normalising_nil _) | exact (normalising_app _)
    | apply ComputingConstruct_normalising | intros computing ].
  apply respects_bind;
    [ exact (normalising_nil _) | exact (normalising_app _)
    | apply normalising_addOverride; right; reflexivity | intros _ ].
  apply respects_ret. exact (normalising_nil _).
Qed.

(** C4. Every security group, security group rule and route table that
    the network unit, the computing unit and the builds register has an
    explicit null override for each optional field of the known set that
    its configuration does not set to a truthy value.  The root unit then
    sets one such field by an override, the source security group of the
    load balancer's egress rule, left empty at construction: in the output
    of the stack every known optional field that is not set to a truthy
    value has an explicit null override, a field being set by the
    configuration or by an override.  The helpers are idempotent: their
    null overrides replayed a second time leave every descriptor as it
    is, and the output is a function of the input. *)
Theorem optional_fields_null_or_set :
  (forall scope id props,
     Forall nulled (synth (events (Network.NetworkConstruct scope id props))))
  /\ (forall scope id props,
        Forall nulled
          (synth (events (Computing.ComputingConstruct scope id props))))
  /\ (forall this resourceNamesPrefix vpc,
        Forall nulled
          (synth (events (ContinuousDeployment.codebuildSecurityGroup this
                            resourceNamesPrefix vpc))))
  /\ (forall scope id env,
        Forall normalised
          (synth (events (Root.ScaffoldAWSServerlessDocker scope id env))))
  /\ (forall r ds,
        let rule := events (Utils.overrideNullValuesForSecurityGroupRule r) in
        let group := events (Utils.overrideNullValuesForSecurityGroup r) in
        let table := events (Utils.overrideNullValuesForRouteTable r) in
        replay rule (replay rule ds) = replay rule ds
        /\ replay group (replay group ds) = replay group ds
        /\ replay table (replay table ds) = replay table ds).
Proof.
  split; [| split; [| split; [| split]]].
  - intros scope id props.
    eapply Forall_impl; [exact settled_onlyNull |].
    apply settled_output, NetworkConstruct_normalising.
  - intros scope id props.
    eapply Forall_impl; [exact settled_onlyNull |].
    apply settled_output, ComputingConstruct_normalising.
  - intros this resourceNamesPrefix vpc.
    eapply Forall_impl; [exact settled_onlyNull |].
    apply settled_output, codebuildSecurityGroup_normalising.
  - intros scope id env.
    eapply Forall_impl; [exact settled_truthyValue |].
    apply settled_output, ScaffoldAWSServerlessDocker_normalising.
  - intros r ds.
    rewrite overrideNullValuesForSecurityGroupRule_nulls,
      overrideNullValuesForSecurityGroup_nulls,
      overrideNullValuesForRouteTable_nulls.
    cbn [events snd]. repeat split; apply replay_nulls_twice.
Qed.

End NullOverrides.

(** ** The properties on the sample inputs *)

Lemma distinct_NoDup l : distinct l = true -> NoDup l.
Proof.
  induction l as [| k l IH]; simpl; [constructor |].
  intros E. apply andb_true_iff in E. destruct E as (Hk & Hl).
  constructor; [| now apply IH].
  intros Hin. apply negb_true_iff in Hk.
  assert (Hex : existsb (String.eqb k) l = true).
  { apply existsb_exists. exists k. split; [exact Hin | apply String.eqb_refl]. }
  congruence.
Qed.



(** The secret parameters of the sample environment: the integer-like
    name comes first, as [Object.keys] lists it. *)
Example sample_secret_parameters :
  List.map secretSuffix
    (emitted (events
       (@Computing.EnvironmentVariablesConstruct Sample.externals
          ["stack"; "computing"] "environment_variables"
          {| Computing.ev_buildsEnvironmentVariables :=
               Root.variablesPrefixed "BUILD_" Sample.env;
             Computing.ev_environmentVariables :=
               Root.variablesPrefixed "APPLICATION_" Sample.env;
             Computing.ev_resourceNamesPrefix := "demo" |})))
  = ["7"; "GREETING"; "TOKEN"].
Proof. vm_compute. reflexivity. Qed.

Lemma auto_scaling_gated_by_flag_witness :
  (exists target cpu memory,
     filter isAutoScaling
       (List.map d_resource (synth (events Sample.computingScaled)))
     = [target; cpu; memory]
     /\ r_kind target = AppautoscalingTarget
     /\ trackingPolicy "ECSServiceAverageCPUUtilization" 75 cpu
     /\ trackingPolicy "ECSServiceAverageMemoryUtilization" 75 memory)
  /\ filter isAutoScaling
       (List.map d_resource (synth (events Sample.computingUnchecked)))
     = [].
Proof.
  split.
  - edestruct (proj2 (@auto_scaling_gated_by_flag Sample.externals ["stack"]
                        "computing" (Sample.computingProps true 75 75 1 2)))
      as (_ & Hpresent).
    + vm_compute. reflexivity.
    + exact (Hpresent eq_refl).
  - exact (proj1 (@auto_scaling_gated_by_flag Sample.externals ["stack"]
                    "computing" (Sample.computingProps false 0 0 1 2))
             eq_refl).
Defined.

(** C2 as stated fails.  With auto-scaling unset, limits of 0 percent do
    not make the computing unit throw; with auto-scaling set they do, after
    the fourteen descriptors of the units composed before the auto-scaling
    unit have been registered. *)
Lemma auto_scaling_limits_unchecked_when_disabled :
  outsidePercent 0
  /\ succeeds Sample.computingUnchecked
  /\ outcome Sample.computingRejected
     = Throw "Memory limit must be comprised between 1 and 100"
  /\ List.length (synth (events Sample.computingRejected)) = 14%nat.
Proof.
  split; [left; lia |]. split; [eexists; vm_compute; reflexivity |].
  split; vm_compute; reflexivity.
Qed.

Lemma auto_scaling_limits_checked_when_enabled_witness :
  let unit :=
    @Computing.ComputingConstruct Sample.externals ["stack"] "computing"
      (Sample.computingProps true 0 0 1 2) in
  let earlier :=
    @Computing.ComputingConstruct Sample.externals ["stack"] "computing"
      (withAutoScaling false (Sample.computingProps true 0 0 1 2)) in
  outcome unit = Throw "Memory limit must be comprised between 1 and 100"
  /\ events unit = events earlier
  /\ succeeds earlier
  /\ (exists logsGroup others,
        List.map d_resource (synth (events unit)) = logsGroup :: others
        /\ r_kind logsGroup = CloudwatchLogGroup)
  /\ filter isAutoScaling (List.map d_resource (synth (events unit))) = [].
Proof.
  cbv zeta.
  assert (Houtside :
    outsidePercent (Computing.autoScalingCpuLimitPercent
                      (Sample.computingProps true 0 0 1 2))
    \/ outsidePercent (Computing.autoScalingMemoryLimitPercent
                         (Sample.computingProps true 0 0 1 2)))
    by (left; left; vm_compute; reflexivity).
  assert (Hmemory :
    outsidePercent (Computing.autoScalingMemoryLimitPercent
                      (Sample.computingProps true 0 0 1 2)))
    by (left; vm_compute; reflexivity).
  assert (Hminimum :
    1 <= Computing.minimumNumberOfRunningFargateTasks
           (Sample.computingProps true 0 0 1 2))
    by (vm_compute; discriminate).
  pose proof (proj1 (proj2 (@auto_scaling_limits_checked_when_enabled
                              Sample.externals ["stack"] "computing"
                              (Sample.computingProps true 0 0 1 2) Houtside))
                eq_refl)
    as (_ & Hfirst & Hnone & Hlog & Hreturns).
  pose proof (Hreturns Hminimum) as (Hearlier & Hthrow & _).
  split; [exact (Hthrow Hmemory) |]. split; [exact Hlog |].
  split; [exact Hearlier |]. split; [exact Hfirst | exact Hnone].
Defined.

Lemma service_task_definition_formula_witness :
  exists service,
    Computing.ServiceConstruct ["stack"; "computing"] "service"
      (Sample.serviceProps 2)
    = (Ok service, [Emit service])
    /\ r_kind service = EcsService
    /\ input service "taskDefinition"
       = Some (VStr
           ("demo_fargate_tasks:${max("
            ++ "aws_ecs_task_definition."
            ++ "stack_computing_task_main_fargate_tasks_definition"
            ++ ".revision, "
            ++ "data.aws_ecs_task_definition."
            ++ "stack_computing_task_current_main_fargate_tasks_definition"
            ++ ".revision)}")).
Proof.
  apply (service_task_definition_formula ["stack"; "computing"] "service"
           (Sample.serviceProps 2)).
  simpl. lia.
Defined.

Lemma minimum_running_tasks_enforced_witness :
  Computing.ServiceConstruct ["stack"; "computing"] "service"
    (Sample.serviceProps 0)
  = (Throw "Your Fargate cluster must run at least one task", [])
  /\ exists msg,
       Computing.AutoScalingConstruct ["stack"; "computing"] "service"
         (Sample.autoScalingProps 75 75 0 1)
       = (Throw msg, [])
       /\ (1 <= 75 <= 100 -> 1 <= 75 <= 100 ->
           msg = "Your Fargate cluster must run at least one task").
Proof.
  split.
  - apply (proj1 (@minimum_running_tasks_enforced Sample.externals
                    ["stack"; "computing"] "service") (Sample.serviceProps 0)).
    simpl. lia.
  - apply (proj1 (proj2 (@minimum_running_tasks_enforced Sample.externals
                           ["stack"; "computing"] "service"))
             (Sample.autoScalingProps 75 75 0 1)).
    simpl. lia.
Defined.

(** The end-to-end example of the specification: one zone, one domain
    name, no auto-scaling. *)
Example one_zone_stack :
  let env :=
    {| Root.CONTAINER_LISTEN_PORT := "8080";
       Root.DOMAIN_NAMES := "example.com";
       Root.ENABLE_AUTO_SCALING := "false";
       Root.ENABLE_HTTPS := "false";
       Root.FARGATE_TASKS_CPU := "256";
       Root.FARGATE_TASKS_MEMORY := "512";
       Root.GITHUB_BRANCH := "main";
       Root.GITHUB_OAUTH_TOKEN := "token";
       Root.GITHUB_REPO := "repo";
       Root.GITHUB_REPO_OWNER := "owner";
       Root.GITHUB_WEBHOOK_TOKEN := "webhook";
       Root.NODE_ENV := "production";
       Root.NUMBER_OF_AVAILABILITY_ZONES_USED := "1";
       Root.PRE_DEPLOY_COMMAND := EmptyString;
       Root.SCAFFOLD_AWS_PROFILE := "default";
       Root.SCAFFOLD_AWS_REGION := "eu-west-1";
       Root.SCAFFOLD_AWS_S3_BACKEND_BUCKET := "state";
       Root.SCAFFOLD_AWS_S3_BACKEND_DYNAMODB_TABLE := "locks";
       Root.SCAFFOLD_AWS_S3_BACKEND_KEY := "demo.tfstate";
       Root.SCAFFOLD_RESOURCE_NAMES_PREFIX := "demo";
       Root.others := [] |} in
  let unit := @Root.ScaffoldAWSServerlessDocker Sample.externals [] "stack" env in
  let output := synth (events unit) in
  succeeds unit
  /\ countDescriptors isPrivateSubnet output = 1%nat
  /\ countDescriptors isPublicSubnet output = 2%nat
  /\ countDescriptors (isKind NatGateway) output = 1%nat
  /\ countDescriptors isAutoScaling output = 0%nat
  /\ List.map (fun d => input (d_resource d) "desiredCount")
       (filter (fun d => isKind EcsService (d_resource d)) output)
     = [Some (VNum 1)].
Proof.
  split; [eexists; vm_compute; reflexivity |]. vm_compute. auto.
Qed.

(** The egress rule of the load balancer in the sample stack: its source
    security group is set by the override of the root unit, its other
    unset optional fields are null. *)
Example sample_egress_rule :
  List.map d_overrides
    (filter (fun d =>
         isKind SecurityGroupRule (d_resource d)
         && negb (truthy (input (d_resource d) "sourceSecurityGroupId"))
         && truthy (input (d_resource d) "securityGroupId")
         && negb (truthy (input (d_resource d) "cidrBlocks")))
       (synth (events Sample.stack)))
  = [[ ("description", VNull);
       ("ipv6_cidr_blocks", VNull);
       ("prefix_list_ids", VNull);
       ("source_security_group_id",
         VStr ("${aws_security_group."
               ++ "stack_computing_task_fargate_tasks_security_group.id}"));
       ("self", VNull);
       ("cidr_blocks", VNull) ]].
Proof. vm_compute. reflexivity. Qed.

(** * Further properties *)

Lemma Forall2_nth_error_left {A B} (R : A -> B -> Prop) xs ys i x :
  Forall2 R xs ys -> nth_error xs i = Some x ->
  exists y, nth_error ys i = Some y /\ R x y.
Proof.
  intros HR. revert i. induction HR as [| x0 y0 xs ys Hxy _ IH]; intros i Hi.
  - destruct i; discriminate.
  - destruct i as [| i]; simpl in *.
    + inversion Hi. subst. now exists y0.
    + now apply IH.
Qed.

Lemma Forall2_nth_error_right {A B} (R : A -> B -> Prop) xs ys i y :
  Forall2 R xs ys -> nth_error ys i = Some y ->
  exists x, nth_error xs i = Some x /\ R x y.
Proof.
  intros HR. revert i. induction HR as [| x0 y0 xs ys Hxy _ IH]; intros i Hi.
  - destruct i; discriminate.
  - destruct i as [| i]; simpl in *.
    + inversion Hi. subst. now exists x0.
    + now apply IH.
Qed.

Lemma nth_error_indexed_from {A} (xs : list A) s i :
  nth_error (combine xs (seq s (List.length xs))) i
  = option_map (fun x => (x, (s + i)%nat)) (nth_error xs i).
Proof.
  revert s i. induction xs as [| x xs IH]; intros s [| i]; simpl; auto.
  - now rewrite Nat.add_0_r.
  - rewrite IH. now rewrite Nat.add_succ_r.
Qed.

Lemma nth_error_indexed {A} (xs : list A) i :
  nth_error (indexed xs) i = option_map (fun x => (x, i)) (nth_error xs i).
Proof. apply nth_error_indexed_from. Qed.

Lemma length_indexed {A} (xs : list A) :
  List.length (indexed xs) = List.length xs.
Proof. unfold indexed. rewrite length_combine, length_seq. lia. Qed.

Lemma In_indexed {A} (xs : list A) x i :
  In (x, i) (indexed xs) -> nth_error xs i = Some x.
Proof.
  intros Hin. apply In_nth_error in Hin. destruct Hin as (n & Hn).
  rewrite nth_error_indexed in Hn.
  destruct (nth_error xs n) as [x' |] eqn:E; [| discriminate].
  simpl in Hn. inversion Hn. now subst.
Qed.

Lemma nth_error_upto n i :
  (i < Z.to_nat n)%nat -> nth_error (upto n) i = Some i.
Proof.
  intros Hi. unfold upto. rewrite nth_error_seq.
  destruct (Nat.ltb_spec i (Z.to_nat n)); [reflexivity | lia].
Qed.

Lemma In_upto n i : In i (upto n) <-> (i < Z.to_nat n)%nat.
Proof. unfold upto. rewrite in_seq. lia. Qed.

(** A loop that registers one object per element, each related to its
    element by [R]. *)
Lemma collect_related {A} (R : A -> Resource -> Prop) (f : A -> M Resource) xs :
  (forall x, In x xs ->
     exists r l, f x = (Ok r, l) /\ emitted l = [r] /\ R x r) ->
  exists rs l, collect f xs = (Ok rs, l) /\ emitted l = rs /\ Forall2 R xs rs.
Proof.
  induction xs as [| x xs IH]; intros Hf.
  - exists [], []. repeat split. constructor.
  - destruct (Hf x (or_introl eq_refl)) as (r & l & Hr & El & HR).
    destruct IH as (rs & l' & Hrs & El' & Hall).
    { intros y Hy. apply Hf. now right. }
    exists (r :: rs), (l ++ l')%list. cbn [collect].
    rewrite (bind_Ok _ _ _ _ Hr), (bind_Ok _ _ _ _ Hrs).
    cbn [outcome events ret fst snd]. rewrite app_nil_r.
    split; [reflexivity |]. split.
    + rewrite emitted_app, El, El'. reflexivity.
    + now constructor.
Qed.

Lemma forEach_related {A} (R : A -> Resource -> Prop) (f : A -> M unit) xs :
  (forall x, In x xs ->
     exists r l, f x = (Ok tt, l) /\ emitted l = [r] /\ R x r) ->
  exists rs l, forEach f xs = (Ok tt, l) /\ emitted l = rs /\ Forall2 R xs rs.
Proof.
  induction xs as [| x xs IH]; intros Hf.
  - exists [], []. repeat split. constructor.
  - destruct (Hf x (or_introl eq_refl)) as (r & l & Hr & El & HR).
    destruct IH as (rs & l' & Hrs & El' & Hall).
    { intros y Hy. apply Hf. now right. }
    exists (r :: rs), (l ++ l')%list. cbn [forEach].
    rewrite (bind_Ok _ _ _ _ Hr), Hrs.
    cbn [outcome events fst snd].
    split; [reflexivity |]. split.
    + rewrite emitted_app, El, El'. reflexivity.
    + now constructor.
Qed.

Lemma emitted_nulls path ks :
  emitted (List.map (fun k => Override path k VNull) ks) = [].
Proof. induction ks; simpl; auto. Qed.

Lemma idAt_nth_error xs i r :
  nth_error xs i = Some r -> Network.idAt xs i = ret (getId r).
Proof. intros E. unfold Network.idAt. now rewrite E. Qed.

Lemma idAt_out_of_range xs i :
  nth_error xs i = None ->
  Network.idAt xs i = throw "TypeError: Cannot read property 'id' of undefined".
Proof. intros E. unfold Network.idAt. now rewrite E. Qed.

(** ** The NAT gateways unit *)

Lemma natGateway_related this props i ip subnet :
  nth_error (Network.nat_elasticIps props) i = Some ip ->
  nth_error (Network.nat_publicSubnets props) i = Some subnet ->
  exists r l, Network.natGateway this props i = (Ok r, l)
              /\ emitted l = [r] /\ natGatewayIn ip subnet r.
Proof.
  intros Eip Esubnet. unfold Network.natGateway.
  rewrite (idAt_nth_error _ _ _ Eip), (idAt_nth_error _ _ _ Esubnet).
  do 2 eexists. split; [reflexivity |]. repeat split.
Qed.

Lemma lt_nth_error {A} (xs : list A) i :
  (i < List.length xs)%nat -> exists x, nth_error xs i = Some x.
Proof.
  intros Hi. destruct (nth_error xs i) as [x |] eqn:E; [now exists x |].
  apply nth_error_None in E. lia.
Qed.

(** What the NAT gateways unit does once its two checks have passed. *)
Lemma NatGatewaysConstruct_run scope id props :
  let zones := Network.nat_numberOfAvailabilityZonesUsed props in
  zones <= Z.of_nat (List.length (Network.nat_elasticIps props)) ->
  zones <= Z.of_nat (List.length (Network.nat_publicSubnets props)) ->
  exists gateways l,
    Network.NatGatewaysConstruct scope id props = (Ok gateways, l)
    /\ emitted l = gateways
    /\ Forall2 (fun i gateway => exists ip subnet,
                  nth_error (Network.nat_elasticIps props) i = Some ip
                  /\ nth_error (Network.nat_publicSubnets props) i = Some subnet
                  /\ natGatewayIn ip subnet gateway)
         (upto zones) gateways.
Proof.
  intros zones Hips Hsubnets.
  unfold Network.NatGatewaysConstruct. cbv zeta. fold zones.
  replace (Z.of_nat (List.length (Network.nat_elasticIps props)) <? zones)
    with false by (symmetry; apply Z.ltb_ge; lia).
  replace (Z.of_nat (List.length (Network.nat_publicSubnets props)) <? zones)
    with false by (symmetry; apply Z.ltb_ge; lia).
  apply collect_related. intros i Hi. apply In_upto in Hi.
  destruct (lt_nth_error (Network.nat_elasticIps props) i) as (ip & Eip);
    [lia |].
  destruct (lt_nth_error (Network.nat_publicSubnets props) i)
    as (subnet & Esubnet); [lia |].
  destruct (natGateway_related (scope ++ [id]) props i ip subnet Eip Esubnet)
    as (r & l & Hr & El & Hin).
  exists r, l. split; [exact Hr |]. split; [exact El |].
  now exists ip, subnet.
Qed.

(** X1. The checks of the NAT gateways unit: fewer elastic IPs than zones, or
    else fewer public subnets than zones, make it throw before anything
    is registered; it returns exactly when there are at least as many of
    both as zones, surplus ones being accepted. *)
Theorem nat_gateways_need_an_ip_and_a_subnet_per_zone scope id props :
  let unit := Network.NatGatewaysConstruct scope id props in
  let zones := Network.nat_numberOfAvailabilityZonesUsed props in
  let ips := Z.of_nat (List.length (Network.nat_elasticIps props)) in
  let subnets := Z.of_nat (List.length (Network.nat_publicSubnets props)) in
  (ips < zones ->
   unit = (Throw "The number of availability zones used must match the number of elastic IPs", []))
  /\ (zones <= ips -> subnets < zones ->
      unit = (Throw "The number of availability zones used must match the number of public subnets", []))
  /\ (succeeds unit <-> zones <= ips /\ zones <= subnets).
Proof.
  intros unit zones ips subnets.
  destruct (Z.ltb_spec ips zones) as [Hips | Hips].
  { assert (E : unit = (Throw "The number of availability zones used must match the number of elastic IPs", [])).
    { unfold unit, Network.NatGatewaysConstruct. cbv zeta.
      fold zones ips.
      now replace (ips <? zones) with true by (symmetry; apply Z.ltb_lt; lia). }
    split; [intros _; exact E |]. split; [lia |]. rewrite E.
    split; [intros (a & Ha); discriminate | lia]. }
  split; [lia |].
  destruct (Z.ltb_spec subnets zones) as [Hsubnets | Hsubnets].
  { assert (E : unit = (Throw "The number of availability zones used must match the number of public subnets", [])).
    { unfold unit, Network.NatGatewaysConstruct. cbv zeta.
      fold zones ips subnets.
      replace (ips <? zones) with false by (symmetry; apply Z.ltb_ge; lia).
      now replace (subnets <? zones) with true
        by (symmetry; apply Z.ltb_lt; lia). }
    split; [intros _ _; exact E |]. rewrite E.
    split; [intros (a & Ha); discriminate | lia]. }
  split; [lia |]. split; [lia | intros _].
  destruct (NatGatewaysConstruct_run scope id props Hips Hsubnets)
    as (gateways & l & E & _).
  exists gateways. unfold unit. now rewrite E.
Qed.

(** X2. When the NAT gateways unit returns, it has registered one gateway per
    zone and nothing else, and the gateway of zone [i] has the elastic IP
    of index [i] and sits in the public subnet of index [i]. *)
Theorem nat_gateway_of_each_zone scope id props gateways :
  let unit := Network.NatGatewaysConstruct scope id props in
  outcome unit = Ok gateways ->
  emitted (events unit) = gateways
  /\ List.length gateways
     = Z.to_nat (Network.nat_numberOfAvailabilityZonesUsed props)
  /\ forall i gateway, nth_error gateways i = Some gateway ->
       exists ip subnet,
         nth_error (Network.nat_elasticIps props) i = Some ip
         /\ nth_error (Network.nat_publicSubnets props) i = Some subnet
         /\ natGatewayIn ip subnet gateway.
Proof.
  intros unit Hok.
  set (zones := Network.nat_numberOfAvailabilityZonesUsed props).
  assert (Hchecks :
    zones <= Z.of_nat (List.length (Network.nat_elasticIps props))
    /\ zones <= Z.of_nat (List.length (Network.nat_publicSubnets props))).
  { unfold unit, Network.NatGatewaysConstruct in Hok. cbv zeta in Hok.
    fold zones in Hok.
    destruct (Z.ltb_spec
                (Z.of_nat (List.length (Network.nat_elasticIps props))) zones);
      [discriminate |].
    destruct (Z.ltb_spec
                (Z.of_nat (List.length (Network.nat_publicSubnets props)))
                zones); [discriminate |].
    lia. }
  destruct Hchecks as (Hips & Hsubnets).
  destruct (NatGatewaysConstruct_run scope id props Hips Hsubnets)
    as (rs & l & E & El & Hall).
  fold zones in Hall. unfold unit in *. rewrite E in Hok |- *.
  cbn [outcome events fst snd] in *.
  injection Hok as <-.
  split; [exact El |]. split.
  - apply Forall2_length in Hall. now rewrite <- Hall, length_upto.
  - intros i gateway Hi.
    destruct (Forall2_nth_error_right _ _ _ _ _ Hall Hi) as (j & Hj & Hrel).
    assert (j = i).
    { unfold upto in Hj. rewrite nth_error_seq in Hj.
      destruct (i <? Z.to_nat zones)%nat; [| discriminate].
      now inversion Hj. }
    now subst j.
Qed.

(** ** The route tables unit *)

Lemma privateSubnetsRouteTable_related this props entry gateway :
  nth_error (Network.rt_natGateways props) (snd entry) = Some gateway ->
  exists r l, Network.privateSubnetsRouteTable this props entry = (Ok r, l)
              /\ emitted l = [r] /\ routesThrough "natGatewayId" gateway r.
Proof.
  intros Egateway. unfold Network.privateSubnetsRouteTable. cbv zeta.
  rewrite (idAt_nth_error _ _ _ Egateway).
  rewrite (bind_Ok _ _ (getId gateway) [] eq_refl).
  match goal with
  | |- context [bind (new RouteTable ?t ?i ?c)] =>
      set (table := mkResource RouteTable (t ++ [i]) c);
      rewrite (bind_Ok (new RouteTable t i c) _ table [Emit table] eq_refl)
  end.
  rewrite overrideNullValuesForRouteTable_nulls.
  cbn [outcome events fst snd app].
  do 2 eexists. split; [reflexivity |]. split.
  - cbn [emitted]. now rewrite emitted_nulls.
  - split; reflexivity.
Qed.

(** What the route tables unit does once its check has passed. *)
Lemma RouteTablesConstruct_run scope id props :
  List.length (Network.rt_natGateways props)
  = List.length (Network.rt_privateSubnets props) ->
  exists publicTable publicAssociations privateTables privateAssociations l,
    Network.RouteTablesConstruct scope id props
    = (Ok {| Network.privateSubnetsRouteTables := privateTables;
             Network.publicSubnetsRouteTable := publicTable |}, l)
    /\ emitted l
       = (publicTable :: publicAssociations ++ privateTables
          ++ privateAssociations)%list
    /\ routesThrough "gatewayId" (Network.rt_internetGateway props) publicTable
    /\ Forall2 (fun entry association =>
                  associates publicTable (fst entry) association)
         (indexed (Network.rt_publicSubnets props)) publicAssociations
    /\ Forall2 (fun entry table => exists gateway,
                  nth_error (Network.rt_natGateways props) (snd entry)
                  = Some gateway
                  /\ routesThrough "natGatewayId" gateway table)
         (indexed (Network.rt_privateSubnets props)) privateTables
    /\ Forall2 (fun entry association => exists table,
                  nth_error privateTables (snd entry) = Some table
                  /\ associates table (fst entry) association)
         (indexed (Network.rt_privateSubnets props)) privateAssociations.
Proof.
  intros Hlen. unfold Network.RouteTablesConstruct. cbv zeta.
  rewrite Hlen, Nat.eqb_refl. cbn [negb].
  set (this := (scope ++ [id])%list).
  match goal with
  | |- context [bind (new RouteTable ?t ?i ?c)] =>
      set (publicTable := mkResource RouteTable (t ++ [i]) c);
      rewrite (bind_Ok (new RouteTable t i c) _ publicTable
                 [Emit publicTable] eq_refl)
  end.
  rewrite (bind_Ok _ _ _ _
             (overrideNullValuesForRouteTable_nulls publicTable)).
  cbn [outcome events fst snd].
  match goal with
  | |- context [bind (forEach ?f (indexed (Network.rt_publicSubnets props)))] =>
      destruct (forEach_related
                  (fun entry association =>
                     associates publicTable (fst entry) association)
                  f (indexed (Network.rt_publicSubnets props)))
        as (publicAssociations & l1 & E1 & El1 & H1)
  end.
  { intros entry _. do 2 eexists. split; [reflexivity |].
    split; [reflexivity |]. repeat split. }
  rewrite (bind_Ok _ _ _ _ E1). cbn [outcome events fst snd].
  destruct (collect_related
              (fun entry table => exists gateway,
                 nth_error (Network.rt_natGateways props) (snd entry)
                 = Some gateway
                 /\ routesThrough "natGatewayId" gateway table)
              (Network.privateSubnetsRouteTable this props)
              (indexed (Network.rt_privateSubnets props)))
    as (privateTables & l2 & E2 & El2 & H2).
  { intros [subnet i] Hin. apply In_indexed in Hin.
    destruct (lt_nth_error (Network.rt_natGateways props) i)
      as (gateway & Egateway).
    { rewrite Hlen. apply nth_error_Some. congruence. }
    destruct (privateSubnetsRouteTable_related this props (subnet, i) gateway
                Egateway) as (r & l & Hr & El & Hroute).
    exists r, l. split; [exact Hr |]. split; [exact El |].
    now exists gateway. }
  rewrite (bind_Ok _ _ _ _ E2). cbn [outcome events fst snd].
  match goal with
  | |- context [bind (forEach ?f (indexed (Network.rt_privateSubnets props)))] =>
      destruct (forEach_related
                  (fun entry association => exists table,
                     nth_error privateTables (snd entry) = Some table
                     /\ associates table (fst entry) association)
                  f (indexed (Network.rt_privateSubnets props)))
        as (privateAssociations & l3 & E3 & El3 & H3)
  end.
  { intros [subnet i] Hin. apply In_indexed in Hin. cbn [fst snd].
    destruct (lt_nth_error privateTables i) as (table & Etable).
    { apply Forall2_length in H2. rewrite <- H2, length_indexed.
      apply nth_error_Some. congruence. }
    rewrite (idAt_nth_error _ _ _ Etable).
    do 2 eexists. split; [reflexivity |]. split; [reflexivity |].
    exists table. split; [exact Etable |]. repeat split. }
  rewrite (bind_Ok _ _ _ _ E3). cbn [outcome events fst snd ret].
  exists publicTable, publicAssociations, privateTables, privateAssociations.
  eexists. split; [reflexivity |].
  split.
  { cbn [app emitted]. rewrite !emitted_app, emitted_nulls, El1, El2, El3.
    cbn [app emitted]. now rewrite app_nil_r. }
  split; [split; reflexivity |].
  split; [exact H1 |]. split; [exact H2 | exact H3].
Qed.

(** X3. When the route tables unit returns, it has registered the route table
    of the public subnets, routed through the internet gateway, one
    association per public subnet, then one route table per private
    subnet, routed through the NAT gateway of the same index, and one
    association per private subnet with the route table of its index. *)
Theorem route_table_of_each_subnet scope id props tables :
  let unit := Network.RouteTablesConstruct scope id props in
  let publicTable := Network.publicSubnetsRouteTable tables in
  let privateTables := Network.privateSubnetsRouteTables tables in
  outcome unit = Ok tables ->
  exists publicAssociations privateAssociations,
    emitted (events unit)
    = (publicTable :: publicAssociations ++ privateTables
       ++ privateAssociations)%list
    /\ routesThrough "gatewayId" (Network.rt_internetGateway props) publicTable
    /\ List.length publicAssociations
       = List.length (Network.rt_publicSubnets props)
    /\ List.length privateAssociations
       = List.length (Network.rt_privateSubnets props)
    /\ (forall i subnet,
          nth_error (Network.rt_publicSubnets props) i = Some subnet ->
          exists association,
            nth_error publicAssociations i = Some association
            /\ associates publicTable subnet association)
    /\ (forall i subnet,
          nth_error (Network.rt_privateSubnets props) i = Some subnet ->
          exists gateway table association,
            nth_error (Network.rt_natGateways props) i = Some gateway
            /\ nth_error privateTables i = Some table
            /\ nth_error privateAssociations i = Some association
            /\ routesThrough "natGatewayId" gateway table
            /\ associates table subnet association).
Proof.
  intros unit publicTable privateTables Hok.
  assert (Hlen : List.length (Network.rt_natGateways props)
                 = List.length (Network.rt_privateSubnets props)).
  { unfold unit, Network.RouteTablesConstruct in Hok. cbv zeta in Hok.
    destruct (Nat.eqb_spec (List.length (Network.rt_natGateways props))
                (List.length (Network.rt_privateSubnets props)));
      [assumption | discriminate]. }
  destruct (RouteTablesConstruct_run scope id props Hlen)
    as (pt & pas & pts & pras & l & E & El & Hpt & H1 & H2 & H3).
  unfold unit in *. rewrite E in Hok |- *. cbn [outcome events fst snd] in *.
  injection Hok as <-.
  cbn [Network.publicSubnetsRouteTable Network.privateSubnetsRouteTables]
    in publicTable, privateTables.
  exists pas, pras. split; [exact El |]. split; [exact Hpt |].
  split; [apply Forall2_length in H1; now rewrite <- H1, length_indexed |].
  split; [apply Forall2_length in H3; now rewrite <- H3, length_indexed |].
  split.
  - intros i subnet Hi.
    destruct (Forall2_nth_error_left _ _ _ i (subnet, i) H1)
      as (association & Ha & Hassoc).
    { now rewrite nth_error_indexed, Hi. }
    now exists association.
  - intros i subnet Hi.
    assert (Hentry : nth_error (indexed (Network.rt_privateSubnets props)) i
                     = Some (subnet, i))
      by now rewrite nth_error_indexed, Hi.
    destruct (Forall2_nth_error_left _ _ _ _ _ H2 Hentry)
      as (table & Ht & gateway & Hg & Hroute).
    destruct (Forall2_nth_error_left _ _ _ _ _ H3 Hentry)
      as (association & Ha & table' & Ht' & Hassoc).
    cbn [fst snd] in *.
    assert (table' = table) by congruence. subst table'.
    now exists gateway, table, association.
Qed.

(** X4. A different number of NAT gateways and of private subnets makes the
    route tables unit throw before anything is registered; it returns
    exactly when the two numbers are equal. *)
Theorem route_tables_need_a_gateway_per_private_subnet scope id props :
  let unit := Network.RouteTablesConstruct scope id props in
  let gateways := List.length (Network.rt_natGateways props) in
  let subnets := List.length (Network.rt_privateSubnets props) in
  (gateways <> subnets ->
   unit = (Throw "The number of NAT gateways must match the number of private subnets", []))
  /\ (succeeds unit <-> gateways = subnets).
Proof.
  intros unit gateways subnets.
  destruct (Nat.eq_dec gateways subnets) as [Hlen | Hlen].
  - split; [tauto |]. split; [auto | intros _].
    destruct (RouteTablesConstruct_run scope id props Hlen)
      as (pt & pas & pts & pras & l & E & _).
    unfold unit. rewrite E. eexists. reflexivity.
  - assert (E : unit = (Throw "The number of NAT gateways must match the number of private subnets", [])).
    { unfold unit, Network.RouteTablesConstruct. cbv zeta.
      fold gateways subnets.
      destruct (Nat.eqb_spec gateways subnets); [contradiction | reflexivity]. }
    split; [intros _; exact E |]. rewrite E.
    split; [intros (a & Ha); discriminate | contradiction].
Qed.

(** ** The subnets unit *)

(** The availability zone and the address block of the subnet of index
    [i], as the subnets unit writes them. *)
Lemma SubnetsConstruct_run scope id props :
  let zones := Network.sn_numberOfAvailabilityZonesUsed props in
  let block := fun n : nat =>
    Some (VStr ("${cidrsubnet(" ++ Str.quote
                ++ inputString (Network.sn_vpc props) "cidrBlock" ++ Str.quote
                ++ ", 8, " ++ Str.of_nat n ++ ")}")) in
  exists zonesData privates publics l,
    let zone := fun i : nat =>
      Some (VStr ("${" ++ fqn zonesData ++ ".names[" ++ Str.of_nat i ++ "]}")) in
    Network.SubnetsConstruct scope id props
    = (Ok {| Network.privateSubnets := privates;
             Network.publicSubnets := publics |}, l)
    /\ emitted l = (zonesData :: privates ++ publics)%list
    /\ census zonesData = (false, false, false, false)
    /\ Forall2 (fun i r => census r = (true, false, false, false)
                           /\ input r "availabilityZone" = zone i
                           /\ input r "cidrBlock" = block i)
         (upto zones) privates
    /\ Forall2 (fun i r => census r = (false, true, false, false)
                           /\ input r "availabilityZone" = zone i
                           /\ input r "cidrBlock" = block (i + 128)%nat)
         (upto (Z.max zones 2)) publics.
Proof.
  intros zones block. unfold Network.SubnetsConstruct. cbv zeta.
  set (this := (scope ++ [id])%list).
  set (zonesData := mkResource DataAwsAvailabilityZones
                      (this ++ ["availability_zone"]) []).
  set (zone := fun i : nat =>
      Some (VStr ("${" ++ fqn zonesData ++ ".names[" ++ Str.of_nat i ++ "]}"))).
  destruct (collect_related
              (fun i r => census r = (true, false, false, false)
                          /\ input r "availabilityZone" = zone i
                          /\ input r "cidrBlock" = block i)
              (Network.privateSubnet this props zonesData) (upto zones))
    as (privates & l1 & E1 & El1 & H1).
  { intros i _. do 2 eexists. split; [reflexivity |].
    split; [reflexivity |]. repeat split. }
  destruct (collect_related
              (fun i r => census r = (false, true, false, false)
                          /\ input r "availabilityZone" = zone i
                          /\ input r "cidrBlock" = block (i + 128)%nat)
              (Network.publicSubnet this props zonesData)
              (upto (Z.max zones 2)))
    as (publics & l2 & E2 & El2 & H2).
  { intros i _. do 2 eexists. split; [reflexivity |].
    split; [reflexivity |]. repeat split. }
  exists zonesData, privates, publics. eexists. cbv zeta.
  split; [| split; [| split; [reflexivity | split; [exact H1 | exact H2]]]].
  - rewrite (bind_Ok _ _ zonesData [Emit zonesData] eq_refl).
    fold zones. rewrite (bind_Ok _ _ _ _ E1). cbn [outcome events fst snd].
    rewrite (bind_Ok _ _ _ _ E2). cbn [outcome events fst snd ret].
    reflexivity.
  - cbn [app emitted]. rewrite !emitted_app, El1, El2. cbn [emitted].
    now rewrite app_nil_r.
Qed.

(** ** Strings *)

Lemma of_nat_injective a b : Str.of_nat a = Str.of_nat b -> a = b.
Proof.
  unfold Str.of_nat. intros E.
  apply (f_equal NilEmpty.uint_of_string) in E. rewrite !NilEmpty.usu in E.
  injection E as E. apply (f_equal Nat.of_uint) in E.
  now rewrite !Unsigned.of_to in E.
Qed.

Lemma append_cancel_l p a b : (p ++ a = p ++ b)%string -> a = b.
Proof. induction p as [| c p IH]; simpl; [auto |]. intros E. injection E. auto. Qed.


Lemma length_append a b :
  String.length (a ++ b) = (String.length a + String.length b)%nat.
Proof. induction a as [| c a IH]; simpl; auto. Qed.

Lemma append_cancel_r s a b : (a ++ s = b ++ s)%string -> a = b.
Proof.
  revert b. induction a as [| c a IH]; intros [| d b] E; simpl in E.
  - reflexivity.
  - apply (f_equal String.length) in E. simpl in E.
    rewrite length_append in E. lia.
  - apply (f_equal String.length) in E. simpl in E.
    rewrite length_append in E. lia.
  - injection E as -> E. f_equal. now apply IH.
Qed.

Lemma Forall2_map_eq {A B C} (g : B -> C) (h : A -> C) xs ys :
  Forall2 (fun x y => g y = h x) xs ys -> List.map g ys = List.map h xs.
Proof. induction 1; simpl; congruence. Qed.

Lemma NoDup_map_injective {A B} (f : A -> B) xs :
  (forall a b, f a = f b -> a = b) -> NoDup xs -> NoDup (List.map f xs).
Proof.
  intros Hf Hxs. apply NoDup_map_NoDup_ForallPairs; [| exact Hxs].
  intros a b _ _. apply Hf.
Qed.

(** X5. The subnets unit always returns.  The private and the public subnet
    of the same index are in the same availability zone.  With at most
    128 zones no two subnets are given the same address block; with more,
    the private subnet of index 128 is given the block of the first
    public subnet. *)
Theorem subnets_share_zones_not_blocks scope id props :
  let unit := Network.SubnetsConstruct scope id props in
  let zones := Network.sn_numberOfAvailabilityZonesUsed props in
  exists subnets,
    outcome unit = Ok subnets
    /\ (forall i private public,
          nth_error (Network.privateSubnets subnets) i = Some private ->
          nth_error (Network.publicSubnets subnets) i = Some public ->
          input private "availabilityZone" = input public "availabilityZone"
          /\ input private "availabilityZone" <> None)
    /\ (zones <= 128 ->
        NoDup (List.map (fun r => input r "cidrBlock")
                 (Network.privateSubnets subnets
                  ++ Network.publicSubnets subnets)))
    /\ (128 < zones ->
        exists private public,
          nth_error (Network.privateSubnets subnets) 128 = Some private
          /\ nth_error (Network.publicSubnets subnets) 0 = Some public
          /\ input private "cidrBlock" = input public "cidrBlock").
Proof.
  intros unit zones.
  destruct (SubnetsConstruct_run scope id props)
    as (zonesData & privates & publics & l & E & _ & _ & H1 & H2).
  fold zones in H1, H2. cbv zeta in H1, H2.
  eexists. unfold unit. rewrite E. split; [reflexivity |].
  cbn [Network.privateSubnets Network.publicSubnets].
  split; [| split].
  - intros i private public Hprivate Hpublic.
    destruct (Forall2_nth_error_right _ _ _ _ _ H1 Hprivate)
      as (j & Hj & _ & Hzone & _).
    destruct (Forall2_nth_error_right _ _ _ _ _ H2 Hpublic)
      as (j' & Hj' & _ & Hzone' & _).
    unfold upto in Hj, Hj'. rewrite nth_error_seq in Hj, Hj'.
    destruct (i <? _)%nat; [| discriminate].
    destruct (i <? _)%nat; [| discriminate].
    injection Hj as <-. injection Hj' as <-.
    rewrite Hzone, Hzone'. split; [reflexivity | discriminate].
  - intros Hzones. rewrite map_app.
    set (block := fun n : nat =>
      Some (VStr ("${cidrsubnet(" ++ Str.quote
                  ++ inputString (Network.sn_vpc props) "cidrBlock"
                  ++ Str.quote ++ ", 8, " ++ Str.of_nat n ++ ")}"))) in *.
    assert (Hblock : forall a b, block a = block b -> a = b).
    { intros a b Hab. unfold block in Hab. injection Hab as Hab.
      apply append_cancel_l in Hab. injection Hab as Hab.
      apply append_cancel_r in Hab.
      now apply of_nat_injective. }
    rewrite (Forall2_map_eq (fun r => input r "cidrBlock") block
               (upto zones) privates).
    2: { eapply Forall2_impl; [| exact H1]. cbv beta. tauto. }
    rewrite (Forall2_map_eq (fun r => input r "cidrBlock")
               (fun i => block (i + 128)%nat) (upto (Z.max zones 2)) publics).
    2: { eapply Forall2_impl; [| exact H2]. cbv beta. tauto. }
    rewrite <- (map_map (fun i => (i + 128)%nat) block), <- map_app.
    apply NoDup_map_injective; [exact Hblock |].
    apply NoDup_app.
    + apply seq_NoDup.
    + apply NoDup_map_injective; [intros a b; lia | apply seq_NoDup].
    + intros a Ha Hb. apply In_upto in Ha. apply in_map_iff in Hb.
      destruct Hb as (b & Eb & _). lia.
  - intros Hzones.
    destruct (lt_nth_error privates 128) as (private & Hprivate).
    { apply Forall2_length in H1. rewrite <- H1, length_upto. lia. }
    destruct (lt_nth_error publics 0) as (public & Hpublic).
    { apply Forall2_length in H2. rewrite <- H2, length_upto. lia. }
    exists private, public. split; [exact Hprivate |].
    split; [exact Hpublic |].
    destruct (Forall2_nth_error_right _ _ _ _ _ H1 Hprivate)
      as (j & Hj & _ & _ & Hblock).
    destruct (Forall2_nth_error_right _ _ _ _ _ H2 Hpublic)
      as (j' & Hj' & _ & _ & Hblock').
    rewrite nth_error_upto in Hj, Hj' by lia.
    injection Hj as <-. injection Hj' as <-.
    now rewrite Hblock, Hblock'.
Qed.

Lemma Forall2_Forall_right {A B} (R : A -> B -> Prop) (P : B -> Prop) xs ys :
  (forall x y, R x y -> P y) -> Forall2 R xs ys -> Forall P ys.
Proof. intros HRP. induction 1; constructor; eauto. Qed.

Lemma census_other_kind r :
  r_kind r <> Subnet -> r_kind r <> Eip -> r_kind r <> NatGateway ->
  census r = (false, false, false, false).
Proof.
  unfold census, isPrivateSubnet, isPublicSubnet, isKind.
  destruct (r_kind r); intros H1 H2 H3; try reflexivity; congruence.
Qed.

Lemma census_natGateway r :
  r_kind r = NatGateway -> census r = (false, false, false, true).
Proof.
  unfold census, isPrivateSubnet, isPublicSubnet, isKind. now intros ->.
Qed.

Lemma filter_census rs a b c d :
  Forall (fun r => census r = (a, b, c, d)) rs ->
  filter isPrivateSubnet rs = (if a then rs else [])
  /\ filter isPublicSubnet rs = (if b then rs else []).
Proof.
  intros Hall. split.
  - destruct a; [apply filter_all | apply filter_none];
      (eapply Forall_impl; [| exact Hall]); unfold census; intros r E;
      congruence.
  - destruct b; [apply filter_all | apply filter_none];
      (eapply Forall_impl; [| exact Hall]); unfold census; intros r E;
      congruence.
Qed.

(** ** The network unit as a whole *)

(** The network unit up to the certificate unit: what it has registered
    by then and how the registered objects refer to each other.  The
    certificate unit and the load balancer unit follow. *)
Lemma NetworkConstruct_layout scope id props :
  let this := (scope ++ [id])%list in
  let prefix := Network.net_resourceNamesPrefix props in
  let zones := Network.net_numberOfAvailabilityZonesUsed props in
  exists vpc gateway zonesData privates publics ips gateways
         publicTable publicAssociations privateTables privateAssociations
         before,
    let tail :=
      ssl <- Network.SslConstruct this "ssl"
        {| Network.ssl_resourceNamesPrefix := prefix;
           Network.ssl_domainNames := Network.net_domainNames props |} ;;
      loadBalancer <- Network.ApplicationLoadBalancerConstruct this
        "application_load_balancer"
        {| Network.alb_resourceNamesPrefix := prefix;
           Network.alb_publicSubnets := publics;
           Network.alb_vpc := vpc;
           Network.alb_currentAccount := Network.net_currentAccount props;
           Network.alb_acmCertificate := Network.acmCertificate ssl;
           Network.alb_enableHttps := Network.net_enableHttps props;
           Network.alb_currentRegionAsString :=
             Network.net_currentRegionAsString props |} ;;
      ret {| Network.applicationLoadBalancer := Network.alb_self loadBalancer;
             Network.applicationLoadBalancerSecurityGroup :=
               Network.alb_securityGroup loadBalancer;
             Network.applicationLoadBalancerSecurityGroupEgressRule :=
               Network.alb_securityGroupEgressRule loadBalancer;
             Network.applicationLoadBalancerTargetGroup :=
               Network.alb_targetGroup loadBalancer;
             Network.net_privateSubnets := privates;
             Network.sslValidationDnsRecords := Network.validationDns ssl;
             Network.net_vpc := vpc |} in
    Network.NetworkConstruct scope id props
    = (outcome tail, (before ++ events tail)%list)
    /\ emitted before
       = ([vpc; gateway; zonesData] ++ privates ++ publics ++ ips ++ gateways
          ++ publicTable :: publicAssociations ++ privateTables
          ++ privateAssociations)%list
    /\ r_kind vpc = Vpc
    /\ r_kind gateway = InternetGateway
    /\ census zonesData = (false, false, false, false)
    /\ Forall2 (fun i r => census r = (true, false, false, false)
                  /\ input r "availabilityZone"
                     = Some (VStr ("${" ++ fqn zonesData ++ ".names["
                                   ++ Str.of_nat i ++ "]}")))
         (upto zones) privates
    /\ Forall2 (fun i r => census r = (false, true, false, false)
                  /\ input r "availabilityZone"
                     = Some (VStr ("${" ++ fqn zonesData ++ ".names["
                                   ++ Str.of_nat i ++ "]}")))
         (upto (Z.max zones 2)) publics
    /\ Forall (fun r => census r = (false, false, true, false)) ips
    /\ Forall2 (fun i r => exists ip subnet,
                  nth_error ips i = Some ip
                  /\ nth_error publics i = Some subnet
                  /\ natGatewayIn ip subnet r)
         (upto zones) gateways
    /\ routesThrough "gatewayId" gateway publicTable
    /\ Forall2 (fun entry association =>
                  associates publicTable (fst entry) association)
         (indexed publics) publicAssociations
    /\ Forall2 (fun entry table => exists natGateway,
                  nth_error gateways (snd entry) = Some natGateway
                  /\ routesThrough "natGatewayId" natGateway table)
         (indexed privates) privateTables
    /\ Forall2 (fun entry association => exists table,
                  nth_error privateTables (snd entry) = Some table
                  /\ associates table (fst entry) association)
         (indexed privates) privateAssociations
    /\ filter isPrivateSubnet (emitted (before ++ events tail)) = privates
    /\ filter isPublicSubnet (emitted (before ++ events tail)) = publics.
Proof.
  intros this prefix zones. unfold Network.NetworkConstruct. cbv zeta.
  fold this prefix zones.
  unfold Network.VpcConstruct. cbv zeta.
  match goal with
  | |- context [bind (new Vpc ?t ?i ?c)] =>
      set (vpc := mkResource Vpc (t ++ [i]) c);
      rewrite (bind_Ok (new Vpc t i c) _ vpc [Emit vpc] eq_refl)
  end.
  cbn [outcome events fst snd].
  unfold Network.InternetGatewayConstruct. cbv zeta.
  match goal with
  | |- context [bind (new InternetGateway ?t ?i ?c)] =>
      set (gateway := mkResource InternetGateway (t ++ [i]) c);
      rewrite (bind_Ok (new InternetGateway t i c) _ gateway
                 [Emit gateway] eq_refl)
  end.
  cbn [outcome events fst snd].
  match goal with
  | |- context [bind (Network.SubnetsConstruct ?s ?i ?p)] =>
      destruct (SubnetsConstruct_run s i p)
        as (zonesData & privates & publics & l1 & E1 & El1 & Hzd & H1 & H2);
      rewrite (bind_Ok _ _ _ _ E1)
  end.
  cbn [outcome events fst snd Network.privateSubnets Network.publicSubnets].
  match goal with
  | |- context [bind (Network.ElasticIpsConstruct ?s ?i ?p)] =>
      destruct (ElasticIpsConstruct_spec s i p) as (ips & E2 & Hlen2 & H3);
      rewrite (bind_Ok _ _ _ _ E2)
  end.
  cbn [outcome events fst snd].
  cbn [Network.sn_numberOfAvailabilityZonesUsed
       Network.eip_numberOfAvailabilityZonesUsed] in *.
  assert (Hlen1 : List.length privates = Z.to_nat zones).
  { apply Forall2_length in H1. now rewrite <- H1, length_upto. }
  assert (Hlen1' : List.length publics = Z.to_nat (Z.max zones 2)).
  { apply Forall2_length in H2. now rewrite <- H2, length_upto. }
  match goal with
  | |- context [bind (Network.NatGatewaysConstruct ?s ?i ?p)] =>
      destruct (NatGatewaysConstruct_run s i p)
        as (gateways & l3 & E3 & El3 & H4);
      [ cbn; lia | cbn; lia | rewrite (bind_Ok _ _ _ _ E3) ]
  end.
  cbn [outcome events fst snd].
  cbn [Network.nat_numberOfAvailabilityZonesUsed Network.nat_elasticIps
       Network.nat_publicSubnets] in H4.
  assert (Hlen3 : List.length gateways = Z.to_nat zones).
  { apply Forall2_length in H4. now rewrite <- H4, length_upto. }
  match goal with
  | |- context [bind (Network.RouteTablesConstruct ?s ?i ?p)] =>
      destruct (RouteTablesConstruct_run s i p)
        as (publicTable & publicAssociations & privateTables
            & privateAssociations & l4 & E4 & El4 & Hpt & H5 & H6 & H7);
      [ cbn; lia | rewrite (bind_Ok _ _ _ _ E4) ]
  end.
  cbn [outcome events fst snd].
  cbn [Network.rt_internetGateway Network.rt_natGateways
       Network.rt_privateSubnets Network.rt_publicSubnets] in Hpt, H5, H6, H7.
  exists vpc, gateway, zonesData, privates, publics, ips, gateways,
    publicTable, publicAssociations, privateTables, privateAssociations.
  exists ([Emit vpc] ++ [Emit gateway] ++ l1 ++ List.map Emit ips ++ l3 ++ l4)%list.
  cbv zeta.
  match goal with
  | |- _ = (outcome ?t, _) /\ _ => set (tail := t)
  end.
  assert (Ebefore :
    emitted ([Emit vpc] ++ [Emit gateway] ++ l1 ++ List.map Emit ips
             ++ l3 ++ l4)
    = ([vpc; gateway; zonesData] ++ privates ++ publics ++ ips ++ gateways
       ++ publicTable :: publicAssociations ++ privateTables
       ++ privateAssociations)%list).
  { rewrite !emitted_app, El1, El3, El4, emitted_Emit. cbn [emitted app].
    now rewrite <- !app_assoc. }
  assert (Htail : Forall (fun r => census r = (false, false, false, false))
                    (emitted (events tail))).
  { unfold tail.
    apply respects_bind;
      [exact uncounted_nil | exact uncounted_app
      | apply SslConstruct_uncounted | intros ssl].
    apply respects_bind;
      [exact uncounted_nil | exact uncounted_app
      | apply ApplicationLoadBalancerConstruct_uncounted | intros lb].
    apply respects_ret. exact uncounted_nil. }
  assert (Hfirst : Forall (fun r => census r = (false, false, false, false))
                     [vpc; gateway; zonesData]).
  { repeat constructor. exact Hzd. }
  assert (Hprivates : Forall (fun r => census r = (true, false, false, false))
                        privates).
  { eapply Forall2_Forall_right; [| exact H1]. cbv beta. tauto. }
  assert (Hpublics : Forall (fun r => census r = (false, true, false, false))
                       publics).
  { eapply Forall2_Forall_right; [| exact H2]. cbv beta. tauto. }
  assert (Hgateways : Forall (fun r => census r = (false, false, false, true))
                        gateways).
  { eapply Forall2_Forall_right; [| exact H4]. cbv beta.
    intros i r (ip & subnet & _ & _ & Hk & _). now apply census_natGateway. }
  assert (Htables : Forall (fun r => census r = (false, false, false, false))
                      (publicTable :: publicAssociations ++ privateTables
                       ++ privateAssociations)).
  { constructor.
    { destruct Hpt as (Hk & _).
      apply census_other_kind; rewrite Hk; discriminate. }
    apply Forall_app. split.
    { eapply Forall2_Forall_right; [| exact H5]. cbv beta.
      intros entry r (Hk & _).
      apply census_other_kind; rewrite Hk; discriminate. }
    apply Forall_app. split.
    { eapply Forall2_Forall_right; [| exact H6]. cbv beta.
      intros entry r (g & _ & Hk & _).
      apply census_other_kind; rewrite Hk; discriminate. }
    eapply Forall2_Forall_right; [| exact H7]. cbv beta.
    intros entry r (t & _ & Hk & _).
    apply census_other_kind; rewrite Hk; discriminate. }
  split.
  { f_equal. now rewrite <- !app_assoc. }
  split; [exact Ebefore |].
  split; [reflexivity |]. split; [reflexivity |]. split; [exact Hzd |].
  split; [eapply Forall2_impl; [| exact H1]; cbv beta; tauto |].
  split; [eapply Forall2_impl; [| exact H2]; cbv beta; tauto |].
  split; [exact H3 |]. split; [exact H4 |]. split; [exact Hpt |].
  split; [exact H5 |]. split; [exact H6 |]. split; [exact H7 |].
  rewrite emitted_app, Ebefore, !filter_app.
  destruct (filter_census _ _ _ _ _ Htail) as (-> & ->).
  destruct (filter_census _ _ _ _ _ Hfirst) as (-> & ->).
  destruct (filter_census _ _ _ _ _ Hprivates) as (-> & ->).
  destruct (filter_census _ _ _ _ _ Hpublics) as (-> & ->).
  destruct (filter_census _ _ _ _ _ H3) as (-> & ->).
  destruct (filter_census _ _ _ _ _ Hgateways) as (-> & ->).
  destruct (filter_census _ _ _ _ _ Htables) as (-> & ->).
  cbn [app]. now rewrite !app_nil_r.
Qed.

(** What the load balancer unit returns, for every input. *)
Lemma ApplicationLoadBalancerConstruct_run scope id props :
  let prefix := Network.alb_resourceNamesPrefix props in
  exists result l bucket,
    Network.ApplicationLoadBalancerConstruct scope id props = (Ok result, l)
    /\ In (Network.alb_self result) (emitted l)
    /\ In (Network.alb_targetGroup result) (emitted l)
    /\ In (Network.alb_securityGroup result) (emitted l)
    /\ In (Network.alb_securityGroupEgressRule result) (emitted l)
    /\ In bucket (emitted l)
    /\ r_kind (Network.alb_self result) = Lb
    /\ r_kind (Network.alb_targetGroup result) = LbTargetGroup
    /\ r_kind (Network.alb_securityGroup result) = SecurityGroup
    /\ r_kind (Network.alb_securityGroupEgressRule result) = SecurityGroupRule
    /\ r_kind bucket = S3Bucket
    /\ input (Network.alb_self result) "subnets"
       = Some (VList (List.map (fun subnet => VStr (getId subnet))
                        (Network.alb_publicSubnets props)))
    /\ input (Network.alb_self result) "securityGroups"
       = Some (VList [VStr (getId (Network.alb_securityGroup result))])
    /\ input (Network.alb_self result) "name"
       = Some (VStr (Str.take 32 (Str.underscoresToDashes prefix)))
    /\ input (Network.alb_targetGroup result) "name"
       = Some (VStr (Str.take 32 (Str.underscoresToDashes prefix)))
    /\ input bucket "bucket"
       = Some (VStr (Str.underscoresToDashes prefix ++ "-alb-logs-bucket"))
    /\ configAt (Network.alb_self result)
         [Key "accessLogs"; Index 0; Key "bucket"]
       = input bucket "bucket"
    /\ input (Network.alb_securityGroupEgressRule result) "securityGroupId"
       = Some (VStr (getId (Network.alb_securityGroup result)))
    /\ input (Network.alb_securityGroupEgressRule result) "type"
       = Some (VStr "egress")
    /\ truthy (input (Network.alb_securityGroupEgressRule result)
                 "sourceSecurityGroupId") = false.
Proof.
  intros prefix. unfold Network.ApplicationLoadBalancerConstruct.
  do 3 eexists. split; [reflexivity |].
  cbn [Network.alb_self Network.alb_targetGroup Network.alb_securityGroup
       Network.alb_securityGroupEgressRule].
  split; [cbn; tauto |]. split; [cbn; tauto |]. split; [cbn; tauto |].
  split; [cbn; tauto |]. split; [cbn; do 4 right; left; reflexivity |].
  repeat split.
Qed.

(** The certificate unit followed by the load balancer unit returns
    exactly when a domain name is given. *)
Lemma certificate_then_load_balancer {B} this prefix domainNames
    (loadBalancerProps : Network.Ssl -> Network.IApplicationLoadBalancerConstructProps)
    (result : Network.Ssl -> Network.ApplicationLoadBalancer -> B) :
  let tail :=
    ssl <- Network.SslConstruct this "ssl"
      {| Network.ssl_resourceNamesPrefix := prefix;
         Network.ssl_domainNames := domainNames |} ;;
    loadBalancer <- Network.ApplicationLoadBalancerConstruct this
      "application_load_balancer" (loadBalancerProps ssl) ;;
    ret (result ssl loadBalancer) in
  respects uncounted tail
  /\ (domainNames = [] ->
      tail = (Throw "You must specify at least one domain name", []))
  /\ (domainNames <> [] ->
      exists ssl loadBalancer l,
        Network.SslConstruct this "ssl"
          {| Network.ssl_resourceNamesPrefix := prefix;
             Network.ssl_domainNames := domainNames |}
        = (Ok ssl, [Emit (Network.acmCertificate ssl)])
        /\ Network.ApplicationLoadBalancerConstruct this
             "application_load_balancer" (loadBalancerProps ssl)
           = (Ok loadBalancer, l)
        /\ tail = (Ok (result ssl loadBalancer),
                   Emit (Network.acmCertificate ssl) :: l)).
Proof.
  intros tail. split; [| split].
  - unfold tail.
    apply respects_bind;
      [exact uncounted_nil | exact uncounted_app
      | apply SslConstruct_uncounted | intros ssl].
    apply respects_bind;
      [exact uncounted_nil | exact uncounted_app
      | apply ApplicationLoadBalancerConstruct_uncounted | intros lb].
    apply respects_ret. exact uncounted_nil.
  - intros ->. reflexivity.
  - intros Hnames. destruct domainNames as [| first others]; [congruence |].
    unfold tail.
    destruct (ssl_accepts_domain_names this "ssl" prefix first others)
      as (certificate & validation & Essl & _).
    set (ssl := {| Network.acmCertificate := certificate;
                   Network.validationDns := validation |}) in *.
    destruct (ApplicationLoadBalancerConstruct_run this
                "application_load_balancer" (loadBalancerProps ssl))
      as (loadBalancer & l & _ & Elb & _).
    exists ssl, loadBalancer, l.
    split; [exact Essl |]. split; [exact Elb |].
    rewrite (bind_Ok _ _ _ _ Essl). cbn [outcome events fst snd].
    rewrite (bind_Ok _ _ _ _ Elb). cbn [outcome events fst snd ret].
    now rewrite app_nil_r.
Qed.

(** X6. For every number of zones, the network unit returns exactly when at
    least one domain name is given: the checks of the NAT gateways unit
    and of the route tables unit never fail inside it. *)
Theorem network_returns_iff_domain_name scope id props :
  let unit := Network.NetworkConstruct scope id props in
  (Network.net_domainNames props = [] ->
   outcome unit = Throw "You must specify at least one domain name")
  /\ (succeeds unit <-> Network.net_domainNames props <> []).
Proof.
  intros unit.
  destruct (NetworkConstruct_layout scope id props)
    as (vpc & gateway & zonesData & privates & publics & ips & gateways
        & publicTable & publicAssociations & privateTables
        & privateAssociations & before & E & _).
  cbv zeta in E.
  match type of E with
  | _ = (outcome (bind _ (fun ssl => bind (_ _ _ (@?p ssl))
                                       (fun lb => ret (@?r ssl lb)))), _) =>
      destruct (certificate_then_load_balancer (scope ++ [id])
                  (Network.net_resourceNamesPrefix props)
                  (Network.net_domainNames props) p r)
        as (_ & Hnone & Hsome)
  end.
  cbv zeta beta in Hnone, Hsome. unfold unit. rewrite E.
  cbn [outcome fst].
  destruct (Network.net_domainNames props) as [| first others] eqn:Enames.
  - rewrite (Hnone eq_refl). cbn [outcome fst].
    split; [reflexivity |].
    split; [intros (a & Ha); discriminate | congruence].
  - split; [discriminate |]. split; [discriminate | intros _].
    destruct Hsome as (ssl & lb & l & _ & _ & ->); [discriminate |].
    eexists. reflexivity.
Qed.

Lemma NetworkConstruct_succeeds scope id props :
  Network.net_domainNames props <> [] ->
  succeeds (Network.NetworkConstruct scope id props).
Proof.
  intros Hnames.
  destruct (NetworkConstruct_layout scope id props)
    as (vpc & gateway & zonesData & privates & publics & ips & gateways
        & publicTable & publicAssociations & privateTables
        & privateAssociations & before & E & _).
  cbv zeta in E.
  match type of E with
  | _ = (outcome (bind _ (fun ssl => bind (_ _ _ (@?p ssl))
                                       (fun lb => ret (@?r ssl lb)))), _) =>
      destruct (certificate_then_load_balancer (scope ++ [id])
                  (Network.net_resourceNamesPrefix props)
                  (Network.net_domainNames props) p r)
        as (_ & _ & Hsome)
  end.
  cbv zeta beta in Hsome. rewrite E. cbn [outcome fst].
  destruct (Hsome Hnames) as (ssl & lb & l & _ & _ & ->).
  eexists. reflexivity.
Qed.

(** Membership in the resources registered before the certificate unit. *)
Ltac in_layout E :=
  rewrite E; cbn [app];
  repeat first [rewrite in_app_iff | progress cbn [In]]; tauto.

(** X7. Every private subnet that the network unit registers is associated
    with a route table of its own, whose only route sends all traffic
    through a NAT gateway; that gateway has an elastic IP of the unit and
    sits in a public subnet of the same availability zone as the private
    subnet.  This holds whether or not the unit returns. *)
Theorem private_subnets_route_within_their_zone scope id props private :
  let output := emitted (events (Network.NetworkConstruct scope id props)) in
  In private output -> isPrivateSubnet private = true ->
  exists association table gateway ip public,
    In association output /\ In table output /\ In gateway output
    /\ In ip output /\ In public output
    /\ associates table private association
    /\ routesThrough "natGatewayId" gateway table
    /\ natGatewayIn ip public gateway
    /\ isKind Eip ip = true
    /\ isPublicSubnet public = true
    /\ input public "availabilityZone" = input private "availabilityZone"
    /\ input private "availabilityZone" <> None.
Proof.
  intros output Hin Hprivate.
  destruct (NetworkConstruct_layout scope id props)
    as (vpc & gateway & zonesData & privates & publics & ips & gateways
        & publicTable & publicAssociations & privateTables
        & privateAssociations & before & E & Ebefore & Hvpc & Hgateway & Hzd
        & H1 & H2 & H3 & H4 & Hpt & H5 & H6 & H7 & Fprivates & _).
  cbv zeta in E, Fprivates.
  match type of E with
  | _ = (outcome ?t, _) => set (tail := t) in *
  end.
  assert (Eoutput : output = emitted (before ++ events tail)).
  { unfold output. now rewrite E. }
  assert (Hwhere : In private privates).
  { rewrite <- Fprivates, <- Eoutput. apply filter_In. now split. }
  apply In_nth_error in Hwhere. destruct Hwhere as (i & Hi).
  assert (Hentry : nth_error (indexed privates) i = Some (private, i))
    by now rewrite nth_error_indexed, Hi.
  destruct (Forall2_nth_error_left _ _ _ _ _ H7 Hentry)
    as (association & Ha & table & Ht & Hassoc).
  destruct (Forall2_nth_error_left _ _ _ _ _ H6 Hentry)
    as (table' & Ht' & natGateway & Hg & Hroute).
  cbn [fst snd] in *.
  assert (table' = table) by congruence. subst table'.
  destruct (Forall2_nth_error_right _ _ _ _ _ H4 Hg)
    as (j & Hj & ip & public & Hip & Hpublic & Hnat).
  assert (j = i).
  { unfold upto in Hj. rewrite nth_error_seq in Hj.
    destruct (i <? _)%nat; [| discriminate]. now inversion Hj. }
  subst j.
  destruct (Forall2_nth_error_right _ _ _ _ _ H2 Hpublic)
    as (j & Hj' & Hcensus & Hzone).
  assert (j = i).
  { unfold upto in Hj'. rewrite nth_error_seq in Hj'.
    destruct (i <? _)%nat; [| discriminate]. now inversion Hj'. }
  subst j.
  destruct (Forall2_nth_error_right _ _ _ _ _ H1 Hi)
    as (j & Hj'' & _ & Hzone').
  assert (j = i).
  { unfold upto in Hj''. rewrite nth_error_seq in Hj''.
    destruct (i <? _)%nat; [| discriminate]. now inversion Hj''. }
  subst j.
  apply nth_error_In in Ha, Ht, Hg, Hip, Hpublic.
  exists association, table, natGateway, ip, public.
  assert (Hbefore : forall r, In r (emitted before) -> In r output).
  { intros r Hr. rewrite Eoutput, emitted_app. apply in_or_app. now left. }
  split; [apply Hbefore; in_layout Ebefore |].
  split; [apply Hbefore; in_layout Ebefore |].
  split; [apply Hbefore; in_layout Ebefore |].
  split; [apply Hbefore; in_layout Ebefore |].
  split; [apply Hbefore; in_layout Ebefore |].
  split; [exact Hassoc |]. split; [exact Hroute |]. split; [exact Hnat |].
  split.
  { rewrite Forall_forall in H3. specialize (H3 _ Hip).
    unfold census in H3. congruence. }
  split; [unfold census in Hcensus; congruence |].
  rewrite Hzone, Hzone'. split; [reflexivity | discriminate].
Qed.

Lemma NoDup_indexed {A B} (f : nat -> B) (xs : list A) :
  (forall a b, f a = f b -> a = b) ->
  NoDup (List.map (fun entry : A * nat => f (snd entry)) (indexed xs)).
Proof.
  intros Hf. unfold indexed. generalize 0%nat.
  induction xs as [| x xs IH]; intros start;
    cbn [List.length seq combine List.map snd]; [constructor |].
  constructor; [| apply IH].
  intros Hin. apply in_map_iff in Hin.
  destruct Hin as ((x' & j) & Ej & Hj). cbn [snd] in Ej.
  apply Hf in Ej. subst j. apply in_combine_r in Hj.
  apply in_seq in Hj. lia.
Qed.

(** ** The certificate unit *)

(** X8. When the certificate unit returns, it has registered one certificate
    and nothing else; the certificate is issued for the first domain name
    with the others as alternative names; and there is one validation
    record per domain name, the record of a name reading the validation
    option of the index of the name, so that no two records read the same
    option. *)
Theorem certificate_covers_every_domain_name scope id props ssl :
  let unit := Network.SslConstruct scope id props in
  let certificate := Network.acmCertificate ssl in
  outcome unit = Ok ssl ->
  events unit = [Emit certificate]
  /\ r_kind certificate = AcmCertificate
  /\ (exists first others,
        Network.ssl_domainNames props = first :: others
        /\ input certificate "domainName" = Some (VStr first)
        /\ input certificate "subjectAlternativeNames"
           = Some (VList (List.map VStr others)))
  /\ input certificate "validationMethod" = Some (VStr "DNS")
  /\ List.length (Network.validationDns ssl)
     = List.length (Network.ssl_domainNames props)
  /\ (forall i record,
        nth_error (Network.validationDns ssl) i = Some record ->
        Network.dns_name record
        = Network.validationOption certificate i "resource_record_name"
        /\ Network.dns_type record
           = Network.validationOption certificate i "resource_record_type"
        /\ Network.dns_value record
           = Network.validationOption certificate i "resource_record_value")
  /\ NoDup (List.map Network.dns_name (Network.validationDns ssl)).
Proof.
  intros unit certificate Hok. unfold unit in *.
  unfold Network.SslConstruct in *. cbv zeta in *.
  destruct (Network.ssl_domainNames props) as [| first others] eqn:Enames;
    [discriminate |].
  rewrite <- Enames in *.
  match type of Hok with
  | outcome (bind (new ?k ?t ?i ?c) _) = _ =>
      set (created := mkResource k (t ++ [i]) c) in *;
      rewrite (bind_Ok (new k t i c) _ created [Emit created] eq_refl) in Hok;
      rewrite (bind_Ok (new k t i c) _ created [Emit created] eq_refl)
  end.
  cbn [outcome events fst snd ret] in *. injection Hok as <-.
  unfold certificate. cbn [Network.acmCertificate Network.validationDns].
  split; [reflexivity |]. split; [reflexivity |].
  split; [exists first, others; split; [exact Enames | split; reflexivity] |].
  split; [reflexivity |].
  split; [now rewrite length_map, length_indexed |].
  split.
  - intros i record Hi. rewrite nth_error_map, nth_error_indexed in Hi.
    destruct (nth_error (Network.ssl_domainNames props) i); [| discriminate].
    cbn [option_map] in Hi. injection Hi as <-. cbn. auto.
  - rewrite map_map. cbn [Network.dns_name].
    apply (NoDup_indexed
             (fun i => Network.validationOption created i
                         "resource_record_name")).
    intros a b Hab. unfold Network.validationOption in Hab.
    injection Hab as Hab. apply append_cancel_l in Hab.
    injection Hab as Hab. apply append_cancel_r in Hab.
    now apply of_nat_injective.
Qed.

Lemma NetworkConstruct_result scope id props network :
  let unit := Network.NetworkConstruct scope id props in
  let output := emitted (events unit) in
  let zones := Network.net_numberOfAvailabilityZonesUsed props in
  let loadBalancer := Network.applicationLoadBalancer network in
  let group := Network.applicationLoadBalancerSecurityGroup network in
  let rule := Network.applicationLoadBalancerSecurityGroupEgressRule network in
  outcome unit = Ok network ->
  In loadBalancer output /\ r_kind loadBalancer = Lb
  /\ input loadBalancer "subnets"
     = Some (VList (List.map (fun subnet => VStr (getId subnet))
                      (filter isPublicSubnet output)))
  /\ List.length (filter isPublicSubnet output) = Z.to_nat (Z.max zones 2)
  /\ Network.net_privateSubnets network = filter isPrivateSubnet output
  /\ List.length (Network.net_privateSubnets network) = Z.to_nat zones
  /\ In (Network.net_vpc network) output
  /\ r_kind (Network.net_vpc network) = Vpc
  /\ In group output /\ r_kind group = SecurityGroup
  /\ input loadBalancer "securityGroups" = Some (VList [VStr (getId group)])
  /\ In rule output /\ r_kind rule = SecurityGroupRule
  /\ input rule "type" = Some (VStr "egress")
  /\ input rule "securityGroupId" = Some (VStr (getId group))
  /\ truthy (input rule "sourceSecurityGroupId") = false
  /\ List.length (Network.sslValidationDnsRecords network)
     = List.length (Network.net_domainNames props).
Proof.
  intros unit output zones loadBalancer group rule Hok.
  destruct (NetworkConstruct_layout scope id props)
    as (vpc & gateway & zonesData & privates & publics & ips & gateways
        & publicTable & publicAssociations & privateTables
        & privateAssociations & before & E & Ebefore & Hvpc & Hgateway & Hzd
        & H1 & H2 & H3 & H4 & Hpt & H5 & H6 & H7 & Fprivates & Fpublics).
  fold zones in H1, H2, H4. cbv zeta in E, Fprivates, Fpublics.
  match type of E with
  | _ = (outcome (bind _ (fun ssl => bind (_ _ _ (@?p ssl))
                                       (fun lb => ret (@?r ssl lb)))), _) =>
      destruct (certificate_then_load_balancer (scope ++ [id])
                  (Network.net_resourceNamesPrefix props)
                  (Network.net_domainNames props) p r)
        as (_ & Hnone & Hsome)
  end.
  cbv zeta beta in Hnone, Hsome.
  match type of E with
  | _ = (outcome ?t, _) => set (tail := t) in *
  end.
  assert (Eoutput : output = emitted (before ++ events tail)).
  { unfold output, unit. now rewrite E. }
  unfold unit in Hok. rewrite E in Hok. cbn [outcome fst] in Hok.
  destruct (Network.net_domainNames props) as [| first others] eqn:Enames.
  { rewrite (Hnone eq_refl) in Hok. discriminate. }
  destruct Hsome as (ssl & lb & l & Essl & Elb & Etail); [discriminate |].
  rewrite Etail in Hok, Eoutput. cbn [outcome events fst snd] in Hok, Eoutput.
  injection Hok as <-.
  match type of Elb with
  | Network.ApplicationLoadBalancerConstruct ?s ?i ?q = _ =>
      destruct (ApplicationLoadBalancerConstruct_run s i q)
        as (lb' & l' & bucket & Elb' & Hlb)
  end.
  rewrite Elb in Elb'. injection Elb' as <- <-.
  destruct Hlb as (I1 & I2 & I3 & I4 & _ & K1 & K2 & K3 & K4 & _ & Hsubnets
                   & Hgroups & _ & _ & _ & _ & Hrule & Htype & Hsource).
  cbn [Network.alb_publicSubnets] in Hsubnets.
  unfold loadBalancer, group, rule.
  cbn [Network.applicationLoadBalancer Network.net_privateSubnets
       Network.applicationLoadBalancerSecurityGroup
       Network.applicationLoadBalancerSecurityGroupEgressRule
       Network.net_vpc Network.sslValidationDnsRecords].
  rewrite Etail in Fprivates, Fpublics. cbn [events snd] in Fprivates, Fpublics.
  rewrite <- Eoutput in Fprivates, Fpublics. rewrite Fprivates, Fpublics.
  assert (Hlast : forall r, In r (emitted l) -> In r output).
  { intros r0 Hr. rewrite Eoutput, emitted_app. apply in_or_app. right.
    cbn [emitted]. now right. }
  split; [now apply Hlast |]. split; [exact K1 |].
  split; [exact Hsubnets |].
  split; [apply Forall2_length in H2; now rewrite <- H2, length_upto |].
  split; [reflexivity |].
  split; [apply Forall2_length in H1; now rewrite <- H1, length_upto |].
  split.
  { rewrite Eoutput, emitted_app, Ebefore. apply in_or_app. left. now left. }
  split; [exact Hvpc |].
  split; [now apply Hlast |]. split; [exact K3 |]. split; [exact Hgroups |].
  split; [now apply Hlast |]. split; [exact K4 |]. split; [exact Htype |].
  split; [exact Hrule |]. split; [exact Hsource |].
  apply (f_equal (fun m : M Network.Ssl =>
                    match outcome m with
                    | Ok s => List.length (Network.validationDns s)
                    | Throw _ => 0%nat
                    end)) in Essl.
  cbn [outcome fst] in Essl. rewrite <- Essl.
  unfold Network.SslConstruct. cbv zeta. cbn [Network.ssl_domainNames].
  match goal with
  | |- context [bind (new ?k ?t ?i ?c)] =>
      rewrite (bind_Ok (new k t i c) _ (mkResource k (t ++ [i]) c)
                 [Emit (mkResource k (t ++ [i]) c)] eq_refl)
  end.
  cbn [outcome events fst snd ret Network.validationDns].
  now rewrite length_map, length_indexed.
Qed.

(** X9. When the network unit returns, the load balancer it returns is
    attached to exactly the public subnets the unit has registered, of
    which there are max(N, 2); the private subnets it returns are exactly
    the private subnets it has registered, of which there are N; the
    egress rule it returns belongs to the security group it returns and
    names no destination yet; and there is one validation record per
    domain name. *)
Theorem network_hands_over_what_it_registered scope id props network :
  let unit := Network.NetworkConstruct scope id props in
  let output := emitted (events unit) in
  let zones := Network.net_numberOfAvailabilityZonesUsed props in
  let loadBalancer := Network.applicationLoadBalancer network in
  let group := Network.applicationLoadBalancerSecurityGroup network in
  let rule := Network.applicationLoadBalancerSecurityGroupEgressRule network in
  outcome unit = Ok network ->
  In loadBalancer output /\ r_kind loadBalancer = Lb
  /\ input loadBalancer "subnets"
     = Some (VList (List.map (fun subnet => VStr (getId subnet))
                      (filter isPublicSubnet output)))
  /\ List.length (filter isPublicSubnet output) = Z.to_nat (Z.max zones 2)
  /\ Network.net_privateSubnets network = filter isPrivateSubnet output
  /\ List.length (Network.net_privateSubnets network) = Z.to_nat zones
  /\ In (Network.net_vpc network) output
  /\ r_kind (Network.net_vpc network) = Vpc
  /\ In group output /\ r_kind group = SecurityGroup
  /\ input loadBalancer "securityGroups" = Some (VList [VStr (getId group)])
  /\ In rule output /\ r_kind rule = SecurityGroupRule
  /\ input rule "type" = Some (VStr "egress")
  /\ input rule "securityGroupId" = Some (VStr (getId group))
  /\ truthy (input rule "sourceSecurityGroupId") = false
  /\ List.length (Network.sslValidationDnsRecords network)
     = List.length (Network.net_domainNames props).
Proof. exact (NetworkConstruct_result scope id props network). Qed.

(** ** Names given by the load balancer unit *)







(** ** The helpers override nothing else *)

Lemma in_nullKeys k fields :
  In k (nullKeys fields) ->
  exists f, In f fields /\ snd f = k /\ truthy (fst f) = false.
Proof.
  unfold nullKeys. intros Hin. apply in_map_iff in Hin.
  destruct Hin as (f & Ek & Hf). apply filter_In in Hf.
  destruct Hf as (Hf & Hunset). apply negb_true_iff in Hunset.
  now exists f.
Qed.

Lemma in_nulls target key v path ks :
  In (Override target key v)
     (List.map (fun k => Override path k VNull) ks) ->
  target = path /\ v = VNull /\ In key ks.
Proof.
  intros Hin. apply in_map_iff in Hin. destruct Hin as (k & E & Hk).
  injection E as <- <- <-. auto.
Qed.

Lemma in_elementFields f block properties r :
  In f (elementFields block properties r) ->
  exists element index property,
    nth_error (inputList r block) index = Some element
    /\ In property properties
    /\ fst f = Utils.field (fst property) element
    /\ snd f = block ++ "." ++ Str.of_nat index ++ "." ++ snd property.
Proof.
  unfold elementFields. intros Hin. apply in_flat_map in Hin.
  destruct Hin as ((element & index) & Helement & Hf).
  apply In_indexed in Helement. apply in_map_iff in Hf.
  destruct Hf as (property & <- & Hproperty).
  now exists element, index, property.
Qed.

(** X11. The three helpers return the object they are given, register
    nothing, and every override they add is a null override on that
    object, for a known optional field that the object, or the element of
    its rule or route list, does not set to a truthy value. *)
Theorem helpers_override_only_unset_fields r :
  let rule := Utils.overrideNullValuesForSecurityGroupRule r in
  let group := Utils.overrideNullValuesForSecurityGroup r in
  let table := Utils.overrideNullValuesForRouteTable r in
  (outcome rule = Ok r /\ outcome group = Ok r /\ outcome table = Ok r)
  /\ (emitted (events rule) = [] /\ emitted (events group) = []
      /\ emitted (events table) = [])
  /\ (forall e, In e (events rule) ->
        exists property,
          In property Utils.securityGroupRulePropertiesToOverride
          /\ e = Override (r_path r) (snd property) VNull
          /\ truthy (input r (fst property)) = false)
  /\ (forall e, In e (events group) ->
        exists block element index property,
          (block = "ingress" \/ block = "egress")
          /\ nth_error (inputList r block) index = Some element
          /\ In property Utils.securityGroupPropertiesToOverride
          /\ e = Override (r_path r)
                   (block ++ "." ++ Str.of_nat index ++ "." ++ snd property)
                   VNull
          /\ truthy (Utils.field (fst property) element) = false)
  /\ (forall e, In e (events table) ->
        exists element index property,
          nth_error (inputList r "route") index = Some element
          /\ In property Utils.routeTablePropertiesToOverride
          /\ e = Override (r_path r)
                   ("route." ++ Str.of_nat index ++ "." ++ snd property) VNull
          /\ truthy (Utils.field (fst property) element) = false).
Proof.
  intros rule group table. unfold rule, group, table.
  rewrite overrideNullValuesForSecurityGroupRule_nulls,
    overrideNullValuesForSecurityGroup_nulls,
    overrideNullValuesForRouteTable_nulls.
  cbn [outcome events fst snd].
  split; [repeat split |]. split; [rewrite !emitted_nulls; repeat split |].
  split; [| split].
  - intros e He. apply in_map_iff in He. destruct He as (key & <- & Hkey).
    apply in_nullKeys in Hkey. destruct Hkey as (f & Hf & <- & Hunset).
    apply in_map_iff in Hf. destruct Hf as (property & <- & Hproperty).
    now exists property.
  - intros e He. apply in_map_iff in He. destruct He as (key & <- & Hkey).
    apply in_nullKeys in Hkey. destruct Hkey as (f & Hf & <- & Hunset).
    apply in_app_or in Hf.
    destruct Hf as [Hf | Hf]; apply in_elementFields in Hf;
      destruct Hf as (element & index & property & Helement & Hproperty
                      & Efst & ->);
      rewrite Efst in Hunset.
    + exists "ingress", element, index, property. auto.
    + exists "egress", element, index, property. auto.
  - intros e He. apply in_map_iff in He. destruct He as (key & <- & Hkey).
    apply in_nullKeys in Hkey. destruct Hkey as (f & Hf & <- & Hunset).
    apply in_elementFields in Hf.
    destruct Hf as (element & index & property & Helement & Hproperty
                    & Efst & ->).
    rewrite Efst in Hunset. now exists element, index, property.
Qed.

(** ** The variables of the application and of the builds *)

Lemma startsWith_append p s : Str.startsWith p (p ++ s) = true.
Proof.
  induction p as [| a p IH]; simpl; [reflexivity |].
  now rewrite Ascii.eqb_refl, IH.
Qed.

Lemma stripPrefix_append p s : Str.stripPrefix p (p ++ s) = s.
Proof.
  unfold Str.stripPrefix. rewrite startsWith_append.
  induction p as [| a p IH]; simpl; auto.
Qed.

(** X12. Reading a name in the object that the root unit builds for a
    prefix.  The name [__proto__] reads the prototype of the object,
    whatever the environment holds: the reduce keeps no property under
    it.  Any other name reads the value that the environment holds under
    the prefix followed by the name, as an own property; when the
    environment holds none, the read is the one of an empty object, an
    inherited member or nothing.  The own properties are exactly the
    variables of the prefix other than the one named [__proto__]. *)
Theorem prefixed_variables_round_trip prefix env name :
  let variables := Root.variablesPrefixed prefix env in
  NoDup (Root.Object_keys env) ->
  JS.get name variables
  = (if String.eqb name "__proto__" then JS.Inherited "[object Object]"
     else match lookup (prefix ++ name) (Root.entries env) with
          | Some v => JS.Own v
          | None => JS.get name []
          end)
  /\ (JS.hasOwn name variables = true
      <-> name <> "__proto__" /\ In (prefix ++ name) (Root.Object_keys env)).
Proof.
  intros variables Hnodup. unfold variables.
  rewrite (variablesPrefixed_entries prefix env Hnodup).
  set (prefixed := filter (fun k => kept (Str.stripPrefix prefix k))
                     (filter (Str.startsWith prefix) (Root.Object_keys env))).
  assert (Hprefixed : forall key,
            In key prefixed
            <-> In key (Root.Object_keys env)
                /\ Str.startsWith prefix key = true
                /\ Str.stripPrefix prefix key <> "__proto__").
  { intros key. unfold prefixed, kept. rewrite !filter_In, negb_true_iff.
    rewrite String.eqb_neq. tauto. }
  assert (Habsent : forall key,
            ~ In (prefix ++ key) prefixed ->
            lookup key
              (List.map (fun k => (Str.stripPrefix prefix k,
                                   Root.valueOf env k)) prefixed)
            = None).
  { intros key Hout. apply lookup_absent.
    rewrite map_map. cbn [fst]. intros Hin. apply in_map_iff in Hin.
    destruct Hin as (origin & Eorigin & Horigin). apply Hout.
    pose proof (proj1 (Hprefixed origin) Horigin) as (_ & Hstarts & _).
    now rewrite <- Eorigin, (stripPrefix_prefixed _ _ Hstarts). }
  assert (Hpresent : forall key,
            In (prefix ++ key) prefixed ->
            lookup key
              (List.map (fun k => (Str.stripPrefix prefix k,
                                   Root.valueOf env k)) prefixed)
            = Some (Root.valueOf env (prefix ++ key))).
  { intros key Hin.
    rewrite <- (stripPrefix_append prefix key) at 1.
    apply (lookup_map_distinct (Str.stripPrefix prefix) (Root.valueOf env));
      [| exact Hin].
    now apply kept_names_distinct. }
  split.
  - unfold JS.get.
    destruct (String.eqb_spec name "__proto__") as [-> | Hname].
    + rewrite Habsent; [reflexivity |].
      intros Hin. apply Hprefixed in Hin. destruct Hin as (_ & _ & Hne).
      apply Hne. apply stripPrefix_append.
    + destruct (in_dec string_dec (prefix ++ name) (Root.Object_keys env))
        as [Hin | Hout].
      * destruct (lookup_present _ _ Hin) as (v & Ev). rewrite Ev.
        rewrite Hpresent.
        -- unfold Root.valueOf. now rewrite Ev.
        -- apply Hprefixed. split; [exact Hin |].
           split; [apply startsWith_append |].
           now rewrite stripPrefix_append.
      * rewrite (lookup_absent _ _ Hout).
        rewrite Habsent; [reflexivity |].
        intros Hin. apply Hprefixed in Hin. tauto.
  - unfold JS.hasOwn. split.
    + intros Hown.
      destruct (in_dec string_dec (prefix ++ name) prefixed) as [Hin | Hout].
      * apply Hprefixed in Hin. destruct Hin as (Hin & _ & Hne).
        rewrite stripPrefix_append in Hne. now split.
      * rewrite (Habsent _ Hout) in Hown. discriminate Hown.
    + intros (Hname & Hin). rewrite Hpresent; [reflexivity |].
      apply Hprefixed. split; [exact Hin |].
      split; [apply startsWith_append |].
      now rewrite stripPrefix_append.
Qed.

(** ** The secret parameters *)

Lemma map_lower_injective_path (this : list string) (purpose : string) a b :
  (this ++ [("ssm_parameter_" ++ purpose ++ "_" ++ a)%string])%list
  = (this ++ [("ssm_parameter_" ++ purpose ++ "_" ++ b)%string])%list ->
  a = b.
Proof.
  intros E. apply app_inv_head in E. injection E as E.
  apply append_cancel_l in E. now injection E.
Qed.

Lemma NoDup_map_iff {A B} (f : A -> B) xs :
  (forall a b, f a = f b -> a = b) -> NoDup (List.map f xs) <-> NoDup xs.
Proof.
  intros Hf. split; [apply NoDup_map_inv | now apply NoDup_map_injective].
Qed.

Section SecretParameterIds.

Context `{Externals}.

Lemma ssmParameters_run this prefix purpose folder variables names :
  exists parameters,
    collect (Computing.ssmParameter this prefix purpose folder variables) names
    = (Ok parameters, List.map Emit parameters)
    /\ List.map secretSuffix parameters = names
    /\ List.map r_path parameters
       = List.map (fun name =>
             (this ++ [("ssm_parameter_" ++ purpose ++ "_"
                        ++ Str.toLowerCase name)%string])%list) names
    /\ Forall (fun r => r_kind r = SsmParameter
                 /\ input r "name"
                    = Some (VStr ("/" ++ prefix ++ "/" ++ folder ++ "/"
                                  ++ secretSuffix r))
                 /\ input r "type" = Some (VStr "SecureString")
                 /\ input r "value"
                    = Some (VStr (escapeTemplateForTerraform
                                    (JS.print (JS.get (secretSuffix r)
                                                 variables)))))
         parameters.
Proof.
  pose (g := fun name : string =>
    mkResource SsmParameter
      (this ++ ["ssm_parameter_" ++ purpose ++ "_" ++ Str.toLowerCase name])
      [ ("name", VStr ("/" ++ prefix ++ "/" ++ folder ++ "/" ++ name));
        ("type", VStr "SecureString");
        ("value", VStr (escapeTemplateForTerraform
                          (JS.print (JS.get name variables))));
        ("tags", VObj [("name", VStr name)]) ]).
  exists (List.map g names). split; [| split; [| split]].
  - rewrite (collect_exact _ g); [| reflexivity]. now rewrite map_map.
  - rewrite map_map. rewrite (map_ext _ (fun k => k)) by reflexivity.
    apply map_id.
  - now rewrite map_map.
  - apply Forall_forall. intros r Hr. apply in_map_iff in Hr.
    destruct Hr as (name & <- & _). repeat split.
Qed.

Lemma EnvironmentVariablesConstruct_run scope id props :
  let this := (scope ++ [id])%list in
  let prefix := Computing.ev_resourceNamesPrefix props in
  let names := JS.keys (Computing.ev_environmentVariables props) in
  let buildsNames := JS.keys (Computing.ev_buildsEnvironmentVariables props) in
  exists application builds,
    Computing.EnvironmentVariablesConstruct scope id props
    = (Ok {| Computing.applicationEnvironmentVariables := application;
             Computing.ev_builds := builds |},
       List.map Emit application ++ List.map Emit builds)%list
    /\ List.map secretSuffix application = names
    /\ List.map secretSuffix builds = buildsNames
    /\ List.map r_path application
       = List.map (fun name =>
             (this ++ [("ssm_parameter_" ++ "application" ++ "_"
                        ++ Str.toLowerCase name)%string])%list) names
    /\ List.map r_path builds
       = List.map (fun name =>
             (this ++ [("ssm_parameter_" ++ "builds" ++ "_"
                        ++ Str.toLowerCase name)%string])%list) buildsNames
    /\ Forall (fun r => r_kind r = SsmParameter
                 /\ input r "type" = Some (VStr "SecureString")
                 /\ input r "name"
                    = Some (VStr ("/" ++ prefix ++ "/fargate-tasks-env/"
                                  ++ secretSuffix r)))
         application
    /\ Forall (fun r => r_kind r = SsmParameter
                 /\ input r "type" = Some (VStr "SecureString")
                 /\ input r "name"
                    = Some (VStr ("/" ++ prefix ++ "/builds-env/"
                                  ++ secretSuffix r)))
         builds.
Proof.
  intros this prefix names buildsNames.
  unfold Computing.EnvironmentVariablesConstruct. cbv zeta.
  fold this prefix names buildsNames.
  destruct (ssmParameters_run this prefix "application" "fargate-tasks-env"
              (Computing.ev_environmentVariables props) names)
    as (application & E1 & S1 & P1 & H1).
  destruct (ssmParameters_run this prefix "builds" "builds-env"
              (Computing.ev_buildsEnvironmentVariables props) buildsNames)
    as (builds & E2 & S2 & P2 & H2).
  exists application, builds.
  split.
  { rewrite (bind_Ok _ _ _ _ E1). cbn [outcome events fst snd].
    rewrite (bind_Ok _ _ _ _ E2). cbn [outcome events fst snd ret].
    now rewrite app_nil_r. }
  split; [exact S1 |]. split; [exact S2 |].
  split; [exact P1 |]. split; [exact P2 |].
  split.
  { eapply Forall_impl; [| exact H1]. cbv beta.
    intros r (Hk & Hn & Ht & _). auto. }
  eapply Forall_impl; [| exact H2]. cbv beta.
  intros r (Hk & Hn & Ht & _). auto.
Qed.

(** X13. When the names of the application variables are pairwise
    different without regard to case, and so are the names of the builds
    variables, the secret parameters unit returns, with one parameter per
    variable of the application, in the order of [Object.keys], then one
    per variable of the builds; each is a secure string named by the
    prefix, the folder of its partition and the name of its variable.
    The construct id of a parameter is made of its partition and of the
    lower-cased name of its variable, and the ids of all the parameters
    registered are pairwise different. *)
Theorem secret_parameter_ids_ignore_case scope id props :
  let unit := Computing.EnvironmentVariablesConstruct scope id props in
  let this := (scope ++ [id])%list in
  let prefix := Computing.ev_resourceNamesPrefix props in
  let names := JS.keys (Computing.ev_environmentVariables props) in
  let buildsNames := JS.keys (Computing.ev_buildsEnvironmentVariables props) in
  NoDup (List.map Str.toLowerCase names) ->
  NoDup (List.map Str.toLowerCase buildsNames) ->
  exists application builds,
    unit = (Ok {| Computing.applicationEnvironmentVariables := application;
                  Computing.ev_builds := builds |},
            List.map Emit application ++ List.map Emit builds)%list
    /\ List.map secretSuffix application = names
    /\ List.map secretSuffix builds = buildsNames
    /\ Forall (fun r => r_kind r = SsmParameter
                 /\ input r "type" = Some (VStr "SecureString")
                 /\ input r "name"
                    = Some (VStr ("/" ++ prefix ++ "/fargate-tasks-env/"
                                  ++ secretSuffix r)))
         application
    /\ Forall (fun r => r_kind r = SsmParameter
                 /\ input r "type" = Some (VStr "SecureString")
                 /\ input r "name"
                    = Some (VStr ("/" ++ prefix ++ "/builds-env/"
                                  ++ secretSuffix r)))
         builds
    /\ List.map r_path application
       = List.map (fun name =>
             (this ++ [("ssm_parameter_application_"
                        ++ Str.toLowerCase name)%string])%list) names
    /\ List.map r_path builds
       = List.map (fun name =>
             (this ++ [("ssm_parameter_builds_"
                        ++ Str.toLowerCase name)%string])%list) buildsNames
    /\ NoDup (List.map r_path (application ++ builds)).
Proof.
  intros unit this prefix names buildsNames Hnames HbuildsNames.
  destruct (EnvironmentVariablesConstruct_run scope id props)
    as (application & builds & E & S1 & S2 & P1 & P2 & H1 & H2).
  fold this prefix names buildsNames in S1, S2, P1, P2, H1, H2.
  cbv zeta in P1, P2. fold this in P1, P2.
  exists application, builds.
  split; [exact E |]. split; [exact S1 |]. split; [exact S2 |].
  split; [exact H1 |]. split; [exact H2 |].
  split; [exact P1 |]. split; [exact P2 |].
  rewrite map_app. apply NoDup_app.
  - rewrite P1, <- (map_map Str.toLowerCase
                      (fun s => (this
                                 ++ [("ssm_parameter_" ++ "application"
                                      ++ "_" ++ s)%string])%list)).
    apply NoDup_map_iff; [| exact Hnames].
    intros a b. apply map_lower_injective_path.
  - rewrite P2, <- (map_map Str.toLowerCase
                      (fun s => (this
                                 ++ [("ssm_parameter_" ++ "builds"
                                      ++ "_" ++ s)%string])%list)).
    apply NoDup_map_iff; [| exact HbuildsNames].
    intros a b. apply map_lower_injective_path.
  - intros path Ha Hb.
    rewrite P1 in Ha. rewrite P2 in Hb.
    apply in_map_iff in Ha, Hb.
    destruct Ha as (na & Ea & _), Hb as (nb & Eb & _).
    rewrite <- Eb in Ea. apply app_inv_head in Ea.
    injection Ea as Ea. discriminate.
Qed.

End SecretParameterIds.

(** ** The computing unit as a whole *)

Section ComputingWiring.

Context `{Externals}.

(** What the tasks unit returns, for every input. *)
Lemma TasksConstruct_run scope id props :
  let prefix := Computing.tk_resourceNamesPrefix props in
  exists tasks l role document,
    Computing.TasksConstruct scope id props = (Ok tasks, l)
    /\ In (Computing.tk_securityGroup tasks) (emitted l)
    /\ In (Computing.mainDefinition tasks) (emitted l)
    /\ In (Computing.preDeployDefinition tasks) (emitted l)
    /\ In role (emitted l) /\ In document (emitted l)
    /\ Forall (fun r => isKind EcsService r = false
                        /\ isAutoScaling r = false
                        /\ r_kind r <> SsmParameter) (emitted l)
    /\ r_kind (Computing.tk_securityGroup tasks) = SecurityGroup
    /\ configAt (Computing.tk_securityGroup tasks)
         [Key "ingress"; Index 0; Key "securityGroups"]
       = Some (VList [VStr (getId
           (Computing.tk_applicationLoadBalancerSecurityGroup props))])
    /\ configAt (Computing.tk_securityGroup tasks)
         [Key "ingress"; Index 1] = None
    /\ r_kind (Computing.mainDefinition tasks) = EcsTaskDefinition
    /\ r_kind (Computing.preDeployDefinition tasks) = EcsTaskDefinition
    /\ r_kind role = IamRole
    /\ input (Computing.mainDefinition tasks) "executionRoleArn"
       = Some (VStr (getArn role))
    /\ input (Computing.preDeployDefinition tasks) "executionRoleArn"
       = Some (VStr (getArn role))
    /\ r_kind document = DataAwsIamPolicyDocument
    /\ configAt document [Key "statement"; Index 3; Key "actions"]
       = Some (VList [VStr "ssm:GetParameters"])
    /\ configAt document [Key "statement"; Index 3; Key "resources"]
       = Some (VList [VStr
           ("arn:aws:ssm:" ++ attr (Computing.tk_currentRegion props) "name"
            ++ ":" ++ attr (Computing.tk_currentAccount props) "account_id"
            ++ ":parameter" ++ "/" ++ prefix ++ "/fargate-tasks-env/" ++ "*")])
    /\ (exists policy, In policy (emitted l) /\ r_kind policy = IamRolePolicy
          /\ input policy "role" = Some (VStr (getId role))
          /\ input policy "policy" = Some (VStr (attr document "json")))
    /\ input (Computing.currentDefinition tasks) "taskDefinition"
       = input (Computing.mainDefinition tasks) "family".
Proof.
  intros prefix. unfold Computing.TasksConstruct.
  do 4 eexists. split; [reflexivity |].
  cbn [Computing.tk_securityGroup Computing.mainDefinition
       Computing.preDeployDefinition Computing.currentDefinition].
  split; [cbn; tauto |]. split; [cbn; tauto |]. split; [cbn; tauto |].
  split; [cbn; right; left; reflexivity |].
  split; [cbn; right; right; left; reflexivity |].
  split; [cbn; repeat constructor; discriminate |].
  split; [reflexivity |]. split; [reflexivity |]. split; [reflexivity |].
  split; [reflexivity |]. split; [reflexivity |]. split; [reflexivity |].
  split; [reflexivity |]. split; [reflexivity |]. split; [reflexivity |].
  split; [reflexivity |].
  split; [reflexivity |]. split; [| reflexivity].
  eexists. split; [cbn; do 3 right; left; reflexivity |].
  repeat split.
Qed.

(** The computing unit up to the service unit: what it has registered by
    then.  The service unit and, with the flag set, the auto-scaling unit
    follow. *)
Lemma ComputingConstruct_layout scope id props :
  let this := (scope ++ [id])%list in
  let prefix := Computing.resourceNamesPrefix props in
  exists logsGroup application builds cluster repository tasks lt before,
    let tail :=
      service <- Computing.ServiceConstruct this "service"
        {| Computing.svc_resourceNamesPrefix := prefix;
           Computing.svc_containerListenPort :=
             Computing.containerListenPort props;
           Computing.svc_containerName := Computing.containerName props;
           Computing.svc_applicationLoadBalancerTargetGroup :=
             Computing.applicationLoadBalancerTargetGroup props;
           Computing.svc_privateSubnets := Computing.privateSubnets props;
           Computing.svc_tasksSecurityGroup := Computing.tk_securityGroup tasks;
           Computing.svc_mainTaskDefinition := Computing.mainDefinition tasks;
           Computing.svc_minimumNumberOfRunningTasks :=
             Computing.minimumNumberOfRunningFargateTasks props;
           Computing.svc_currentTaskDefinition :=
             Computing.currentDefinition tasks;
           Computing.svc_cluster := cluster |} ;;
      (if Computing.enableAutoScaling props
       then Computing.AutoScalingConstruct this "auto_scaling"
         {| Computing.as_resourceNamesPrefix := prefix;
            Computing.as_cluster := cluster;
            Computing.as_cpuLimitPercent :=
              Computing.autoScalingCpuLimitPercent props;
            Computing.as_memoryLimitPercent :=
              Computing.autoScalingMemoryLimitPercent props;
            Computing.as_maximumNumberOfRunningTasks :=
              Computing.maximumNumberOfRunningFargateTasks props;
            Computing.as_minimumNumberOfRunningTasks :=
              Computing.minimumNumberOfRunningFargateTasks props;
            Computing.as_service := service |}
       else ret tt) ;;;
      ret {| Computing.cp_buildsEnvironmentVariables := builds;
             Computing.containersLogsGroup := logsGroup;
             Computing.ecrRepository := repository;
             Computing.fargateCluster := cluster;
             Computing.fargateService := service;
             Computing.fargateTasksSecurityGroup :=
               Computing.tk_securityGroup tasks;
             Computing.predeployFargateTaskDefinition :=
               Computing.preDeployDefinition tasks |} in
    Computing.ComputingConstruct scope id props
    = (outcome tail, (before ++ events tail)%list)
    /\ emitted before
       = (logsGroup :: application ++ builds
          ++ cluster :: repository :: emitted lt)%list
    /\ r_kind logsGroup = CloudwatchLogGroup
    /\ r_kind cluster = EcsCluster
    /\ input cluster "name" = Some (VStr (prefix ++ "_fargate_cluster"))
    /\ r_kind repository = EcrRepository
    /\ Computing.EnvironmentVariablesConstruct this "environment_variables"
         {| Computing.ev_buildsEnvironmentVariables :=
              Computing.buildsEnvironmentVariables props;
            Computing.ev_environmentVariables :=
              Computing.environmentVariables props;
            Computing.ev_resourceNamesPrefix := prefix |}
       = (Ok {| Computing.applicationEnvironmentVariables := application;
                Computing.ev_builds := builds |},
          List.map Emit application ++ List.map Emit builds)%list
    /\ Computing.TasksConstruct this "task"
         {| Computing.tk_resourceNamesPrefix := prefix;
            Computing.tk_tasksCpu := Computing.fargateTasksCpu props;
            Computing.tk_tasksMemory := Computing.fargateTasksMemory props;
            Computing.tk_vpc := Computing.vpc props;
            Computing.tk_currentAccount := Computing.currentAccount props;
            Computing.tk_currentRegion := Computing.currentRegion props;
            Computing.tk_containersLogsGroup := logsGroup;
            Computing.tk_containerListenPort :=
              Computing.containerListenPort props;
            Computing.tk_containerName := Computing.containerName props;
            Computing.tk_applicationLoadBalancerSecurityGroup :=
              Computing.applicationLoadBalancerSecurityGroup props;
            Computing.tk_ecrRepository := repository;
            Computing.tk_environmentVariables := application;
            Computing.tk_preDeployCommand := Computing.preDeployCommand props |}
       = (Ok tasks, lt).
Proof.
  intros this prefix. unfold Computing.ComputingConstruct. cbv zeta.
  fold this prefix.
  match goal with
  | |- context [bind (new CloudwatchLogGroup ?t ?i ?c)] =>
      set (logsGroup := mkResource CloudwatchLogGroup (t ++ [i]) c);
      rewrite (bind_Ok (new CloudwatchLogGroup t i c) _ logsGroup
                 [Emit logsGroup] eq_refl)
  end.
  cbn [outcome events fst snd].
  match goal with
  | |- context [bind (Computing.EnvironmentVariablesConstruct ?s ?i ?p)] =>
      destruct (EnvironmentVariablesConstruct_run s i p)
        as (application & builds & E1 & _);
      rewrite (bind_Ok _ _ _ _ E1)
  end.
  cbn [outcome events fst snd Computing.applicationEnvironmentVariables
       Computing.ev_builds].
  unfold Computing.ClusterConstruct. cbv zeta.
  match goal with
  | |- context [bind (new EcsCluster ?t ?i ?c)] =>
      set (cluster := mkResource EcsCluster (t ++ [i]) c);
      rewrite (bind_Ok (new EcsCluster t i c) _ cluster [Emit cluster] eq_refl)
  end.
  cbn [outcome events fst snd].
  unfold Computing.RepositoryConstruct. cbv zeta.
  match goal with
  | |- context [bind (new EcrRepository ?t ?i ?c)] =>
      set (repository := mkResource EcrRepository (t ++ [i]) c);
      rewrite (bind_Ok (new EcrRepository t i c) _ repository
                 [Emit repository] eq_refl)
  end.
  cbn [outcome events fst snd].
  match goal with
  | |- context [bind (Computing.TasksConstruct ?s ?i ?p)] =>
      destruct (TasksConstruct_run s i p) as (tasks & lt & _ & _ & E2 & _);
      rewrite (bind_Ok _ _ _ _ E2)
  end.
  cbn [outcome events fst snd].
  exists logsGroup, application, builds, cluster, repository, tasks, lt.
  exists ([Emit logsGroup] ++ (List.map Emit application ++ List.map Emit builds)
          ++ [Emit cluster] ++ [Emit repository] ++ lt)%list.
  cbv zeta. split.
  { f_equal. now rewrite <- !app_assoc. }
  split.
  { rewrite !emitted_app, !emitted_Emit. cbn [emitted app].
    now rewrite <- !app_assoc. }
  split; [reflexivity |]. split; [reflexivity |]. split; [reflexivity |].
  split; [reflexivity |]. split; [exact E1 | exact E2].
Qed.


Lemma ServiceConstruct_run scope id props :
  1 <= Computing.svc_minimumNumberOfRunningTasks props ->
  exists service,
    Computing.ServiceConstruct scope id props = (Ok service, [Emit service])
    /\ r_kind service = EcsService
    /\ input service "name"
       = Some (VStr (Computing.svc_resourceNamesPrefix props
                     ++ "_fargate_service"))
    /\ input service "cluster"
       = Some (VStr (getId (Computing.svc_cluster props)))
    /\ input service "desiredCount"
       = Some (VNum (Computing.svc_minimumNumberOfRunningTasks props))
    /\ configAt service [Key "networkConfiguration"; Index 0; Key "subnets"]
       = Some (VList (List.map (fun subnet => VStr (getId subnet))
                        (Computing.svc_privateSubnets props)))
    /\ configAt service
         [Key "networkConfiguration"; Index 0; Key "assignPublicIp"]
       = Some (VBool false)
    /\ configAt service
         [Key "networkConfiguration"; Index 0; Key "securityGroups"]
       = Some (VList [VStr (getId (Computing.svc_tasksSecurityGroup props))])
    /\ configAt service [Key "loadBalancer"; Index 0; Key "targetGroupArn"]
       = Some (VStr (getArn
                       (Computing.svc_applicationLoadBalancerTargetGroup props)))
    /\ configAt service [Key "loadBalancer"; Index 0; Key "containerPort"]
       = Some (VNum (Computing.svc_containerListenPort props)).
Proof.
  intros Hminimum. unfold Computing.ServiceConstruct. cbv zeta.
  replace (Computing.svc_minimumNumberOfRunningTasks props <? 1) with false
    by (symmetry; apply Z.ltb_ge; lia).
  eexists. repeat split.
Qed.

(** X15. The computing unit returns exactly when at least one running task is
    asked for and, with auto-scaling enabled, both limits are percentages
    from 1 to 100 and the maximum number of tasks is at least 1.  With
    auto-scaling disabled neither the limits nor the maximum matter, and
    the minimum and the maximum are never compared. *)
Theorem computing_returns_iff scope id props :
  let unit := Computing.ComputingConstruct scope id props in
  succeeds unit
  <-> 1 <= Computing.minimumNumberOfRunningFargateTasks props
      /\ (Computing.enableAutoScaling props = true ->
          1 <= Computing.autoScalingMemoryLimitPercent props <= 100
          /\ 1 <= Computing.autoScalingCpuLimitPercent props <= 100
          /\ 1 <= Computing.maximumNumberOfRunningFargateTasks props).
Proof.
  intros unit. split.
  - intros (computing & Hok).
    destruct (ComputingConstruct_layout scope id props)
      as (logsGroup & application & builds & cluster & repository & tasks & lt
          & before & E & _).
    cbv zeta in E. unfold unit in Hok. rewrite E in Hok.
    cbn [outcome fst] in Hok.
    destruct (Z.ltb_spec
                (Computing.minimumNumberOfRunningFargateTasks props) 1)
      as [Hlow | Hminimum].
    { match type of Hok with
      | context [Computing.ServiceConstruct ?s ?i ?q] =>
          rewrite (ServiceConstruct_throws s i q Hlow) in Hok
      end.
      discriminate. }
    split; [exact Hminimum |]. intros Hflag.
    match type of Hok with
    | context [Computing.ServiceConstruct ?s ?i ?q] =>
        destruct (ServiceConstruct_run s i q Hminimum) as (service & Es & _);
        rewrite (bind_Ok _ _ _ _ Es) in Hok
    end.
    cbn [outcome fst] in Hok. rewrite Hflag in Hok.
    match type of Hok with
    | context [Computing.AutoScalingConstruct ?s ?i ?q] =>
        destruct (AutoScalingConstruct_cases s i q)
          as [(msg & Ea & _) | (_ & _ & Hin)]
    end.
    + rewrite Ea in Hok. discriminate.
    + cbn in Hin. lia.
  - intros (Hminimum & Hscaling).
    now apply ComputingConstruct_succeeds.
Qed.

Lemma ComputingConstruct_result scope id props computing :
  let unit := Computing.ComputingConstruct scope id props in
  let output := emitted (events unit) in
  let service := Computing.fargateService computing in
  let group := Computing.fargateTasksSecurityGroup computing in
  outcome unit = Ok computing ->
  In service output /\ r_kind service = EcsService
  /\ In (Computing.fargateCluster computing) output
  /\ r_kind (Computing.fargateCluster computing) = EcsCluster
  /\ input service "cluster"
     = Some (VStr (getId (Computing.fargateCluster computing)))
  /\ input service "desiredCount"
     = Some (VNum (Computing.minimumNumberOfRunningFargateTasks props))
  /\ 1 <= Computing.minimumNumberOfRunningFargateTasks props
  /\ configAt service [Key "networkConfiguration"; Index 0; Key "subnets"]
     = Some (VList (List.map (fun subnet => VStr (getId subnet))
                      (Computing.privateSubnets props)))
  /\ configAt service
       [Key "networkConfiguration"; Index 0; Key "assignPublicIp"]
     = Some (VBool false)
  /\ configAt service
       [Key "networkConfiguration"; Index 0; Key "securityGroups"]
     = Some (VList [VStr (getId group)])
  /\ configAt service [Key "loadBalancer"; Index 0; Key "targetGroupArn"]
     = Some (VStr (getArn (Computing.applicationLoadBalancerTargetGroup props)))
  /\ configAt service [Key "loadBalancer"; Index 0; Key "containerPort"]
     = Some (VNum (Computing.containerListenPort props))
  /\ In group output /\ r_kind group = SecurityGroup
  /\ configAt group [Key "ingress"; Index 0; Key "securityGroups"]
     = Some (VList [VStr (getId
         (Computing.applicationLoadBalancerSecurityGroup props))])
  /\ configAt group [Key "ingress"; Index 1] = None
  /\ List.map secretSuffix (Computing.cp_buildsEnvironmentVariables computing)
     = JS.keys (Computing.buildsEnvironmentVariables props)
  /\ incl (Computing.cp_buildsEnvironmentVariables computing) output.
Proof.
  intros unit output service group Hok.
  destruct (ComputingConstruct_layout scope id props)
    as (logsGroup & application & builds & cluster & repository & tasks & lt
        & before & E & Ebefore & _ & Kcluster & _ & _ & Evariables & Etasks).
  cbv zeta in E.
  assert (Eoutput : output = emitted (events unit)) by reflexivity.
  unfold unit in Hok, Eoutput. rewrite E in Hok, Eoutput.
  cbn [outcome events fst snd] in Hok, Eoutput.
  destruct (Z.ltb_spec
              (Computing.minimumNumberOfRunningFargateTasks props) 1)
    as [Hlow | Hminimum].
  { match type of Hok with
    | context [Computing.ServiceConstruct ?s ?i ?q] =>
        rewrite (ServiceConstruct_throws s i q Hlow) in Hok
    end.
    discriminate. }
  match type of Hok with
  | context [Computing.ServiceConstruct ?s ?i ?q] =>
      destruct (ServiceConstruct_run s i q Hminimum)
        as (created & Es & Ks & _ & Hcluster & Hcount & Hsubnets & Hpublic
            & Hgroups & Htarget & Hport);
      rewrite (bind_Ok _ _ _ _ Es) in Hok, Eoutput
  end.
  cbn [outcome events fst snd] in Hok, Eoutput.
  cbn [Computing.svc_cluster Computing.svc_minimumNumberOfRunningTasks
       Computing.svc_privateSubnets Computing.svc_tasksSecurityGroup
       Computing.svc_applicationLoadBalancerTargetGroup
       Computing.svc_containerListenPort]
    in Hcluster, Hcount, Hsubnets, Hgroups, Htarget, Hport.
  rewrite outcome_bind in Hok.
  match type of Hok with
  | match outcome ?m with _ => _ end = _ =>
      destruct (outcome m) as [[] | msg]; [| discriminate]
  end.
  cbn [outcome ret fst] in Hok. injection Hok as <-.
  match type of Evariables with
  | Computing.EnvironmentVariablesConstruct ?s ?i ?p = _ =>
      destruct (EnvironmentVariablesConstruct_run s i p)
        as (application' & builds' & Evariables' & _ & S2 & _)
  end.
  rewrite Evariables in Evariables'. injection Evariables' as <- <-.
  cbn [Computing.ev_buildsEnvironmentVariables] in S2.
  match type of Etasks with
  | Computing.TasksConstruct ?s ?i ?p = _ =>
      destruct (TasksConstruct_run s i p)
        as (tasks' & lt' & role & document & Etasks' & Igroup & _ & _ & _ & _
            & _ & Kgroup & Hingress & Hsingle & _)
  end.
  rewrite Etasks in Etasks'. injection Etasks' as <- <-.
  cbn [Computing.tk_applicationLoadBalancerSecurityGroup] in Hingress.
  unfold service, group.
  cbn [Computing.fargateService Computing.fargateTasksSecurityGroup
       Computing.fargateCluster Computing.cp_buildsEnvironmentVariables].
  assert (Hbefore : forall r, In r (emitted before) -> In r output).
  { intros r Hr. rewrite Eoutput, emitted_app. apply in_or_app. now left. }
  split.
  { rewrite Eoutput, emitted_app. apply in_or_app. right. now left. }
  split; [exact Ks |].
  split; [apply Hbefore; in_layout Ebefore |].
  split; [exact Kcluster |]. split; [exact Hcluster |].
  split; [exact Hcount |]. split; [exact Hminimum |].
  split; [exact Hsubnets |]. split; [exact Hpublic |].
  split; [exact Hgroups |]. split; [exact Htarget |]. split; [exact Hport |].
  split; [apply Hbefore; in_layout Ebefore |].
  split; [exact Kgroup |]. split; [exact Hingress |].
  split; [exact Hsingle |]. split; [exact S2 |].
  intros r Hr. apply Hbefore. in_layout Ebefore.
Qed.


(** What the auto-scaling unit registers once its checks have passed. *)
Lemma AutoScalingConstruct_run scope id props :
  1 <= Computing.as_memoryLimitPercent props <= 100 ->
  1 <= Computing.as_cpuLimitPercent props <= 100 ->
  1 <= Computing.as_minimumNumberOfRunningTasks props ->
  1 <= Computing.as_maximumNumberOfRunningTasks props ->
  exists target cpu memory,
    Computing.AutoScalingConstruct scope id props
    = (Ok tt, [Emit target; Emit cpu; Emit memory])
    /\ r_kind target = AppautoscalingTarget
    /\ input target "minCapacity"
       = Some (VNum (Computing.as_minimumNumberOfRunningTasks props))
    /\ input target "maxCapacity"
       = Some (VNum (Computing.as_maximumNumberOfRunningTasks props))
    /\ input target "resourceId"
       = Some (VStr ("service/"
                     ++ inputString (Computing.as_cluster props) "name" ++ "/"
                     ++ inputString (Computing.as_service props) "name"))
    /\ input target "scalableDimension" = Some (VStr "ecs:service:DesiredCount")
    /\ input target "serviceNamespace" = Some (VStr "ecs")
    /\ trackingPolicy "ECSServiceAverageCPUUtilization"
         (Computing.as_cpuLimitPercent props) cpu
    /\ trackingPolicy "ECSServiceAverageMemoryUtilization"
         (Computing.as_memoryLimitPercent props) memory
    /\ scales target cpu /\ scales target memory.
Proof.
  intros Hmemory Hcpu Hminimum Hmaximum.
  unfold Computing.AutoScalingConstruct. cbv zeta.
  replace (Computing.as_memoryLimitPercent props <? 1) with false
    by (symmetry; apply Z.ltb_ge; lia).
  replace (Computing.as_memoryLimitPercent props >? 100) with false
    by (symmetry; rewrite Z.gtb_ltb; apply Z.ltb_ge; lia).
  replace (Computing.as_cpuLimitPercent props <? 1) with false
    by (symmetry; apply Z.ltb_ge; lia).
  replace (Computing.as_cpuLimitPercent props >? 100) with false
    by (symmetry; rewrite Z.gtb_ltb; apply Z.ltb_ge; lia).
  replace (Computing.as_minimumNumberOfRunningTasks props <? 1) with false
    by (symmetry; apply Z.ltb_ge; lia).
  replace (Computing.as_maximumNumberOfRunningTasks props <? 1) with false
    by (symmetry; apply Z.ltb_ge; lia).
  cbn [orb]. do 3 eexists. split; [reflexivity |]. repeat split.
Qed.

Lemma isAutoScaling_other_kind r :
  r_kind r <> AppautoscalingTarget -> r_kind r <> AppautoscalingPolicy ->
  isAutoScaling r = false.
Proof.
  unfold isAutoScaling, isKind.
  destruct (r_kind r); intros H1 H2; try reflexivity; congruence.
Qed.

(** The auto-scaling descriptors of the computing unit, when the unit
    returns with the flag set. *)
Lemma ComputingConstruct_scaling_result scope id props computing :
  let unit := Computing.ComputingConstruct scope id props in
  let output := emitted (events unit) in
  outcome unit = Ok computing ->
  Computing.enableAutoScaling props = true ->
  exists target cpu memory,
    filter isAutoScaling output = [target; cpu; memory]
    /\ r_kind target = AppautoscalingTarget
    /\ input target "minCapacity"
       = Some (VNum (Computing.minimumNumberOfRunningFargateTasks props))
    /\ input target "maxCapacity"
       = Some (VNum (Computing.maximumNumberOfRunningFargateTasks props))
    /\ input target "resourceId"
       = Some (VStr ("service/"
                     ++ inputString (Computing.fargateCluster computing) "name"
                     ++ "/"
                     ++ inputString (Computing.fargateService computing) "name"))
    /\ input target "scalableDimension" = Some (VStr "ecs:service:DesiredCount")
    /\ trackingPolicy "ECSServiceAverageCPUUtilization"
         (Computing.autoScalingCpuLimitPercent props) cpu
    /\ trackingPolicy "ECSServiceAverageMemoryUtilization"
         (Computing.autoScalingMemoryLimitPercent props) memory
    /\ scales target cpu /\ scales target memory.
Proof.
  intros unit output Hok Hflag.
  destruct (ComputingConstruct_layout scope id props)
    as (logsGroup & application & builds & cluster & repository & tasks & lt
        & before & E & Ebefore & Klogs & Kcluster & _ & Krepository
        & Evariables & Etasks).
  cbv zeta in E.
  assert (Eoutput : output = emitted (events unit)) by reflexivity.
  unfold unit in Hok, Eoutput. rewrite E in Hok, Eoutput.
  cbn [outcome events fst snd] in Hok, Eoutput.
  assert (Hnone : filter isAutoScaling (emitted before) = []).
  { apply filter_none. rewrite Ebefore.
    match type of Evariables with
    | Computing.EnvironmentVariablesConstruct ?s ?i ?p = _ =>
        destruct (EnvironmentVariablesConstruct_run s i p)
          as (application' & builds' & Evariables' & _ & _ & _ & _ & H1 & H2)
    end.
    rewrite Evariables in Evariables'. injection Evariables' as <- <-.
    match type of Etasks with
    | Computing.TasksConstruct ?s ?i ?p = _ =>
        destruct (TasksConstruct_run s i p)
          as (tasks' & lt' & role & document & Etasks' & _ & _ & _ & _ & _
              & Hlt & _)
    end.
    rewrite Etasks in Etasks'. injection Etasks' as <- <-.
    constructor; [apply isAutoScaling_other_kind; rewrite Klogs; discriminate |].
    apply Forall_app. split.
    { eapply Forall_impl; [| exact H1]. cbv beta. intros r (Hk & _).
      apply isAutoScaling_other_kind; rewrite Hk; discriminate. }
    apply Forall_app. split.
    { eapply Forall_impl; [| exact H2]. cbv beta. intros r (Hk & _).
      apply isAutoScaling_other_kind; rewrite Hk; discriminate. }
    constructor;
      [apply isAutoScaling_other_kind; rewrite Kcluster; discriminate |].
    constructor;
      [apply isAutoScaling_other_kind; rewrite Krepository; discriminate |].
    eapply Forall_impl; [| exact Hlt]. cbv beta. tauto. }
  destruct (Z.ltb_spec
              (Computing.minimumNumberOfRunningFargateTasks props) 1)
    as [Hlow | Hminimum].
  { match type of Hok with
    | context [Computing.ServiceConstruct ?s ?i ?q] =>
        rewrite (ServiceConstruct_throws s i q Hlow) in Hok
    end.
    discriminate. }
  match type of Hok with
  | context [Computing.ServiceConstruct ?s ?i ?q] =>
      destruct (ServiceConstruct_run s i q Hminimum)
        as (service & Es & Ks & _);
      rewrite (bind_Ok _ _ _ _ Es) in Hok, Eoutput
  end.
  cbn [outcome events fst snd] in Hok, Eoutput. rewrite Hflag in Hok, Eoutput.
  match type of Hok with
  | context [Computing.AutoScalingConstruct ?s ?i ?q] =>
      destruct (AutoScalingConstruct_cases s i q)
        as [(msg & Ea & _) | (_ & _ & Hmemory & Hcpu & Hmin & Hmax)];
      [ rewrite Ea in Hok; discriminate
      | destruct (AutoScalingConstruct_run s i q Hmemory Hcpu Hmin Hmax)
          as (target & cpu & memory & Ea & Kt & Hlow & Hhigh & Hid & Hdim & _
              & Hc & Hm & Sc & Sm) ]
  end.
  rewrite (bind_Ok _ _ _ _ Ea) in Hok, Eoutput.
  cbn [outcome events fst snd ret] in Hok, Eoutput.
  injection Hok as <-.
  cbn [Computing.as_minimumNumberOfRunningTasks
       Computing.as_maximumNumberOfRunningTasks Computing.as_cluster
       Computing.as_service Computing.as_cpuLimitPercent
       Computing.as_memoryLimitPercent] in Hlow, Hhigh, Hid, Hc, Hm.
  exists target, cpu, memory.
  split.
  { rewrite Eoutput, emitted_app, filter_app, Hnone.
    cbn [app emitted filter].
    replace (isAutoScaling service) with false
      by (symmetry; apply isAutoScaling_other_kind; rewrite Ks; discriminate).
    destruct Hc as (Kc & _), Hm as (Km & _).
    unfold isAutoScaling, isKind. now rewrite Kt, Kc, Km. }
  cbn [Computing.fargateCluster Computing.fargateService].
  repeat (split; [assumption |]). assumption.
Qed.

(** X17. When the computing unit returns with auto-scaling enabled, its
    auto-scaling descriptors are one target and two policies.  The target
    keeps the number of tasks between the minimum and the maximum it was
    given and names the service it returns, in the cluster it returns, as
    the resource to scale; the two policies track the CPU and the memory
    limits and scale that same resource. *)
Theorem auto_scaling_scales_the_service scope id props computing :
  let unit := Computing.ComputingConstruct scope id props in
  let output := emitted (events unit) in
  outcome unit = Ok computing ->
  Computing.enableAutoScaling props = true ->
  exists target cpu memory,
    filter isAutoScaling output = [target; cpu; memory]
    /\ r_kind target = AppautoscalingTarget
    /\ input target "minCapacity"
       = Some (VNum (Computing.minimumNumberOfRunningFargateTasks props))
    /\ input target "maxCapacity"
       = Some (VNum (Computing.maximumNumberOfRunningFargateTasks props))
    /\ input target "resourceId"
       = Some (VStr ("service/"
                     ++ inputString (Computing.fargateCluster computing) "name"
                     ++ "/"
                     ++ inputString (Computing.fargateService computing) "name"))
    /\ input target "scalableDimension" = Some (VStr "ecs:service:DesiredCount")
    /\ trackingPolicy "ECSServiceAverageCPUUtilization"
         (Computing.autoScalingCpuLimitPercent props) cpu
    /\ trackingPolicy "ECSServiceAverageMemoryUtilization"
         (Computing.autoScalingMemoryLimitPercent props) memory
    /\ scales target cpu /\ scales target memory.
Proof. exact (ComputingConstruct_scaling_result scope id props computing). Qed.

Lemma ComputingConstruct_throws_low scope id props :
  Computing.minimumNumberOfRunningFargateTasks props < 1 ->
  outcome (Computing.ComputingConstruct scope id props)
  = Throw "Your Fargate cluster must run at least one task".
Proof.
  intros Hlow.
  destruct (ComputingConstruct_layout scope id props)
    as (logsGroup & application & builds & cluster & repository & tasks & lt
        & before & E & _).
  cbv zeta in E. rewrite E. cbn [outcome fst].
  match goal with
  | |- context [Computing.ServiceConstruct ?s ?i ?q] =>
      now rewrite (ServiceConstruct_throws s i q Hlow)
  end.
Qed.

Lemma ComputingConstruct_uncounted scope id props :
  respects uncounted (Computing.ComputingConstruct scope id props).
Proof. uncounted_walk. Qed.

End ComputingWiring.

Lemma NetworkConstruct_without_scaling scope id props :
  respects (without isAutoScaling) (Network.NetworkConstruct scope id props).
Proof. without_walk isAutoScaling. Qed.

(** ** The root unit *)

Lemma split_not_empty c s : Str.split c s <> [].
Proof.
  destruct s as [| a s]; simpl; [discriminate |].
  destruct (Ascii.eqb a c); [discriminate |].
  destruct (Str.split c s); discriminate.
Qed.

Lemma validation_run msg names :
  forEach (fun name =>
      if negb (Str.matchesName name) then @throw unit msg else ret tt) names
  = if forallb Str.matchesName names then (Ok tt, []) else (Throw msg, []).
Proof.
  induction names as [| name names IH]; [reflexivity |].
  cbn [forEach forallb]. destruct (Str.matchesName name); cbn [negb andb].
  - rewrite (bind_Ok _ _ tt [] eq_refl), IH.
    now destruct (forallb Str.matchesName names).
  - reflexivity.
Qed.

Section RootProperties.

Context `{Externals}.

(** The root unit once its three checks have passed: the backend, the
    provider and the two data sources, then the network unit, the
    computing unit and the patch of the egress rule. *)
Lemma ScaffoldAWSServerlessDocker_layout scope id env :
  let this := (scope ++ [id])%list in
  let zones := Number (Root.NUMBER_OF_AVAILABILITY_ZONES_USED env) in
  let port := Number (Root.CONTAINER_LISTEN_PORT env) in
  forallb Str.matchesName (Root.Object_keys env) = true ->
  zones <> 0 -> port <> 0 ->
  exists backend provider,
    let currentRegion := mkResource DataAwsRegion (this ++ ["current_region"]) [] in
    let currentAccount :=
      mkResource DataAwsCallerIdentity (this ++ ["current_account"]) [] in
    let networkProps :=
      {| Network.net_resourceNamesPrefix :=
           Root.SCAFFOLD_RESOURCE_NAMES_PREFIX env;
         Network.net_currentAccount := currentAccount;
         Network.net_domainNames := Str.split "," (Root.DOMAIN_NAMES env);
         Network.net_enableHttps := String.eqb (Root.ENABLE_HTTPS env) "true";
         Network.net_currentRegionAsString := Root.SCAFFOLD_AWS_REGION env;
         Network.net_numberOfAvailabilityZonesUsed := zones |} in
    let computingProps := fun network =>
      {| Computing.autoScalingCpuLimitPercent := 75;
         Computing.autoScalingMemoryLimitPercent := 75;
         Computing.buildsEnvironmentVariables :=
           Root.variablesPrefixed "BUILD_" env;
         Computing.resourceNamesPrefix :=
           Root.SCAFFOLD_RESOURCE_NAMES_PREFIX env;
         Computing.dockerImageName := "main";
         Computing.containerName := "main";
         Computing.containerListenPort := port;
         Computing.enableAutoScaling :=
           String.eqb (Root.ENABLE_AUTO_SCALING env) "true";
         Computing.fargateTasksCpu := Root.FARGATE_TASKS_CPU env;
         Computing.fargateTasksMemory := Root.FARGATE_TASKS_MEMORY env;
         Computing.privateSubnets := Network.net_privateSubnets network;
         Computing.currentAccount := currentAccount;
         Computing.currentRegion := currentRegion;
         Computing.vpc := Network.net_vpc network;
         Computing.applicationLoadBalancerSecurityGroup :=
           Network.applicationLoadBalancerSecurityGroup network;
         Computing.applicationLoadBalancerTargetGroup :=
           Network.applicationLoadBalancerTargetGroup network;
         Computing.environmentVariables :=
           Root.variablesPrefixed "APPLICATION_" env;
         Computing.preDeployCommand :=
           (if String.eqb (Root.PRE_DEPLOY_COMMAND env) EmptyString
            then "echo No pre-deploy command"
            else Root.PRE_DEPLOY_COMMAND env);
         Computing.minimumNumberOfRunningFargateTasks := zones;
         Computing.maximumNumberOfRunningFargateTasks := (3 * zones + 1) / 2 |} in
    let tail :=
      network <- Network.NetworkConstruct this "network" networkProps ;;
      computing <- Computing.ComputingConstruct this "computing"
                     (computingProps network) ;;
      addOverride (Network.applicationLoadBalancerSecurityGroupEgressRule network)
        "source_security_group_id"
        (VStr (getId (Computing.fargateTasksSecurityGroup computing))) ;;;
      ret {| Root.network := network; Root.computing := computing |} in
    Root.ScaffoldAWSServerlessDocker scope id env
    = (outcome tail,
       ([Emit backend; Emit provider; Emit currentRegion; Emit currentAccount]
        ++ events tail)%list)
    /\ r_kind backend = TerraformBackendS3
    /\ r_kind provider = AwsProvider.
Proof.
  intros this zones port Hnames Hzones Hport.
  unfold Root.ScaffoldAWSServerlessDocker. cbv zeta. fold this zones port.
  rewrite validation_run, Hnames.
  rewrite (bind_Ok _ _ tt [] eq_refl). cbn [outcome events fst snd app].
  replace (zones =? 0) with false by (symmetry; now apply Z.eqb_neq).
  replace (port =? 0) with false by (symmetry; now apply Z.eqb_neq).
  match goal with
  | |- context [bind (new TerraformBackendS3 ?t ?i ?c)] =>
      set (backend := mkResource TerraformBackendS3 (t ++ [i]) c);
      rewrite (bind_Ok (new TerraformBackendS3 t i c) _ backend
                 [Emit backend] eq_refl)
  end.
  cbn [outcome events fst snd].
  match goal with
  | |- context [bind (new AwsProvider ?t ?i ?c)] =>
      set (provider := mkResource AwsProvider (t ++ [i]) c);
      rewrite (bind_Ok (new AwsProvider t i c) _ provider
                 [Emit provider] eq_refl)
  end.
  cbn [outcome events fst snd].
  match goal with
  | |- context [bind (new DataAwsRegion ?t ?i ?c)] =>
      rewrite (bind_Ok (new DataAwsRegion t i c) _
                 (mkResource DataAwsRegion (t ++ [i]) c)
                 [Emit (mkResource DataAwsRegion (t ++ [i]) c)] eq_refl)
  end.
  cbn [outcome events fst snd].
  match goal with
  | |- context [bind (new DataAwsCallerIdentity ?t ?i ?c)] =>
      rewrite (bind_Ok (new DataAwsCallerIdentity t i c) _
                 (mkResource DataAwsCallerIdentity (t ++ [i]) c)
                 [Emit (mkResource DataAwsCallerIdentity (t ++ [i]) c)] eq_refl)
  end.
  cbn [outcome events fst snd].
  exists backend, provider. cbv zeta.
  split; [reflexivity |]. split; reflexivity.
Qed.

(** X18. The checks of the root unit come before anything is registered: a
    variable of the environment whose name is empty or has a character
    other than a letter, a digit, an underscore or a dash, then a number
    of zones that is 0 or not a number, then a listen port that is 0 or
    not a number, each make the unit throw with an empty log. *)
Theorem stack_checks_come_first scope id env :
  let unit := Root.ScaffoldAWSServerlessDocker scope id env in
  let zones := Number (Root.NUMBER_OF_AVAILABILITY_ZONES_USED env) in
  let port := Number (Root.CONTAINER_LISTEN_PORT env) in
  let named := forallb Str.matchesName (Root.Object_keys env) in
  (named = false ->
   unit = (Throw "Environment variable names must match /^[a-z0-9_-]+$/i format", []))
  /\ (named = true -> zones = 0 ->
      unit = (Throw "Invalid number of availability zones used", []))
  /\ (named = true -> zones <> 0 -> port = 0 ->
      unit = (Throw "Invalid container listen port", [])).
Proof.
  intros unit zones port named.
  unfold unit, Root.ScaffoldAWSServerlessDocker. cbv zeta.
  fold zones port. rewrite validation_run. fold named.
  split; [| split].
  - intros ->. reflexivity.
  - intros -> ->. reflexivity.
  - intros -> Hzones ->.
    rewrite (bind_Ok _ _ tt [] eq_refl). cbn [outcome events fst snd app].
    now replace (zones =? 0) with false by (symmetry; now apply Z.eqb_neq).
Qed.

Lemma stack_with_zones scope id env :
  let unit := Root.ScaffoldAWSServerlessDocker scope id env in
  let zones := Number (Root.NUMBER_OF_AVAILABILITY_ZONES_USED env) in
  let port := Number (Root.CONTAINER_LISTEN_PORT env) in
  forallb Str.matchesName (Root.Object_keys env) = true ->
  zones <> 0 -> port <> 0 ->
  (1 <= zones -> succeeds unit)
  /\ (zones < 1 ->
      outcome unit = Throw "Your Fargate cluster must run at least one task"
      /\ exists vpc, In vpc (emitted (events unit)) /\ r_kind vpc = Vpc).
Proof.
  intros unit zones port Hnames Hzones Hport.
  destruct (ScaffoldAWSServerlessDocker_layout scope id env Hnames Hzones Hport)
    as (backend & provider & E & _).
  cbv zeta in E. fold zones port in E. unfold unit. rewrite E.
  cbn [outcome events fst snd].
  match goal with
  | |- context [bind (Network.NetworkConstruct ?s ?i ?p)] =>
      destruct (NetworkConstruct_succeeds s i p) as (network & Hnetwork);
      [ apply split_not_empty | ];
      destruct (Network.NetworkConstruct s i p) as [o l1] eqn:En;
      cbn [outcome fst] in Hnetwork; subst o;
      pose proof (NetworkConstruct_result s i p network) as Hresult;
      cbv zeta in Hresult; rewrite En in Hresult;
      cbn [outcome events fst snd] in Hresult;
      destruct (Hresult eq_refl) as (_ & _ & _ & _ & _ & _ & Hvpc & Kvpc & _);
      clear Hresult
  end.
  rewrite (bind_Ok _ _ _ _ eq_refl). cbn [outcome events fst snd].
  split.
  - intros Hone.
    match goal with
    | |- context [bind (Computing.ComputingConstruct ?s ?i ?p)] =>
        destruct (ComputingConstruct_succeeds s i p) as (computing & Hcomputing);
        [ exact Hone
        | intros _;
          cbn [Computing.autoScalingMemoryLimitPercent
               Computing.autoScalingCpuLimitPercent
               Computing.maximumNumberOfRunningFargateTasks];
          split; [lia |]; split; [lia |];
          apply Z.div_le_lower_bound; lia
        | destruct (Computing.ComputingConstruct s i p) as [o l2];
          cbn [outcome fst] in Hcomputing; subst o ]
    end.
    rewrite (bind_Ok _ _ _ _ eq_refl). cbn [outcome events fst snd].
    eexists. reflexivity.
  - intros Hlow.
    match goal with
    | |- context [bind (Computing.ComputingConstruct ?s ?i ?p)] =>
        pose proof (ComputingConstruct_throws_low s i p Hlow) as Hthrow;
        destruct (Computing.ComputingConstruct s i p) as [o l2];
        cbn [outcome fst] in Hthrow; subst o
    end.
    split; [reflexivity |].
    exists (Network.net_vpc network). split; [| exact Kvpc].
    cbn [bind snd]. cbn [app emitted]. do 4 right.
    rewrite emitted_app. apply in_or_app. now left.
Qed.

(** X19. The root unit, up to the patch of the egress rule, returns exactly
    when every name of the environment is well formed, the number of
    zones is at least 1 and the listen port is not 0.  When it throws,
    the message is one of its own three or that of the service unit: the
    errors of the certificate unit, of the NAT gateways unit, of the route
    tables unit and of the auto-scaling unit cannot occur.  A negative
    number of zones passes the check of the root unit and makes the
    service unit throw, after the network has been registered. *)
Theorem stack_returns_iff scope id env :
  let unit := Root.ScaffoldAWSServerlessDocker scope id env in
  let zones := Number (Root.NUMBER_OF_AVAILABILITY_ZONES_USED env) in
  let port := Number (Root.CONTAINER_LISTEN_PORT env) in
  let named := forallb Str.matchesName (Root.Object_keys env) in
  (succeeds unit <-> named = true /\ 1 <= zones /\ port <> 0)
  /\ (forall msg, outcome unit = Throw msg ->
        In msg [ "Environment variable names must match /^[a-z0-9_-]+$/i format";
                 "Invalid number of availability zones used";
                 "Invalid container listen port";
                 "Your Fargate cluster must run at least one task" ])
  /\ (named = true -> zones < 0 -> port <> 0 ->
      outcome unit = Throw "Your Fargate cluster must run at least one task"
      /\ exists vpc, In vpc (emitted (events unit)) /\ r_kind vpc = Vpc).
Proof.
  intros unit zones port named.
  assert (Hchecks :
    (named = false ->
     unit = (Throw "Environment variable names must match /^[a-z0-9_-]+$/i format", []))
    /\ (named = true -> zones = 0 ->
        unit = (Throw "Invalid number of availability zones used", []))
    /\ (named = true -> zones <> 0 -> port = 0 ->
        unit = (Throw "Invalid container listen port", []))).
  { unfold unit, Root.ScaffoldAWSServerlessDocker. cbv zeta.
    fold zones port. rewrite validation_run. fold named.
    split; [| split].
    - intros ->. reflexivity.
    - intros -> ->. reflexivity.
    - intros -> Hzones ->.
      rewrite (bind_Ok _ _ tt [] eq_refl). cbn [outcome events fst snd app].
      now replace (zones =? 0) with false by (symmetry; now apply Z.eqb_neq). }
  destruct Hchecks as (Hnamed & Hzero & Hnoport).
  destruct named eqn:Enamed.
  2: { rewrite (Hnamed eq_refl). cbn [outcome fst].
       split; [| split].
       - split; [intros (a & Ha); discriminate | intros (Hn & _); discriminate].
       - intros msg Hmsg. injection Hmsg as <-. now left.
       - discriminate. }
  destruct (Z.eq_dec zones 0) as [Ezones | Hzones].
  { rewrite (Hzero eq_refl Ezones). cbn [outcome fst].
    split; [| split].
    - split; [intros (a & Ha); discriminate | intros (_ & Hz & _); lia].
    - intros msg Hmsg. injection Hmsg as <-. right. now left.
    - intros _ Hz _. lia. }
  destruct (Z.eq_dec port 0) as [Eport | Hport].
  { rewrite (Hnoport eq_refl Hzones Eport). cbn [outcome fst].
    split; [| split].
    - split; [intros (a & Ha); discriminate | tauto].
    - intros msg Hmsg. injection Hmsg as <-. right. right. now left.
    - tauto. }
  destruct (stack_with_zones scope id env Enamed Hzones Hport)
    as (Hreturns & Hthrows).
  fold unit zones in Hreturns, Hthrows.
  destruct (Z.le_gt_cases 1 zones) as [Hone | Hlow].
  - destruct (Hreturns Hone) as (stack & Hstack).
    split; [| split].
    + split; [auto | intros _; now exists stack].
    + intros msg Hmsg. congruence.
    + intros _ Hz _. lia.
  - destruct (Hthrows Hlow) as (Hthrow & Hvpc).
    split; [| split].
    + split; [intros (a & Ha); congruence | intros (_ & Hz & _); lia].
    + intros msg Hmsg. rewrite Hthrow in Hmsg. injection Hmsg as <-.
      do 3 right. now left.
    + intros _ _ _. split; [exact Hthrow | exact Hvpc].
Qed.

(** The root unit when it returns: the two units it has composed, the
    properties it has given them, and its log. *)
Lemma stack_run scope id env stack :
  let unit := Root.ScaffoldAWSServerlessDocker scope id env in
  let this := (scope ++ [id])%list in
  let zones := Number (Root.NUMBER_OF_AVAILABILITY_ZONES_USED env) in
  let port := Number (Root.CONTAINER_LISTEN_PORT env) in
  let network := Root.network stack in
  let computing := Root.computing stack in
  outcome unit = Ok stack ->
  exists first networkProps computingProps l1 l2,
    events unit
    = (first ++ l1 ++ l2
       ++ [Override
             (r_path (Network.applicationLoadBalancerSecurityGroupEgressRule
                        network))
             "source_security_group_id"
             (VStr (getId (Computing.fargateTasksSecurityGroup computing)))])%list
    /\ Forall (fun r => census r = (false, false, false, false)
                        /\ isAutoScaling r = false) (emitted first)
    /\ Network.NetworkConstruct this "network" networkProps = (Ok network, l1)
    /\ Computing.ComputingConstruct this "computing" computingProps
       = (Ok computing, l2)
    /\ Network.net_numberOfAvailabilityZonesUsed networkProps = zones
    /\ Computing.privateSubnets computingProps
       = Network.net_privateSubnets network
    /\ Computing.applicationLoadBalancerSecurityGroup computingProps
       = Network.applicationLoadBalancerSecurityGroup network
    /\ Computing.applicationLoadBalancerTargetGroup computingProps
       = Network.applicationLoadBalancerTargetGroup network
    /\ Computing.minimumNumberOfRunningFargateTasks computingProps = zones
    /\ Computing.maximumNumberOfRunningFargateTasks computingProps
       = (3 * zones + 1) / 2
    /\ Computing.autoScalingCpuLimitPercent computingProps = 75
    /\ Computing.autoScalingMemoryLimitPercent computingProps = 75
    /\ Computing.enableAutoScaling computingProps
       = String.eqb (Root.ENABLE_AUTO_SCALING env) "true"
    /\ Computing.containerListenPort computingProps = port
    /\ 1 <= zones /\ port <> 0.
Proof.
  intros unit this zones port network computing Hok.
  assert (Hnames : forallb Str.matchesName (Root.Object_keys env) = true).
  { destruct (forallb Str.matchesName (Root.Object_keys env)) eqn:E;
      [reflexivity |].
    unfold unit, Root.ScaffoldAWSServerlessDocker in Hok. cbv zeta in Hok.
    rewrite validation_run, E in Hok. discriminate. }
  assert (Hzones : zones <> 0).
  { intros Ez.
    unfold unit, Root.ScaffoldAWSServerlessDocker in Hok. cbv zeta in Hok.
    fold zones in Hok. rewrite validation_run, Hnames, Ez in Hok.
    discriminate. }
  assert (Hport : port <> 0).
  { intros Ep.
    unfold unit, Root.ScaffoldAWSServerlessDocker in Hok. cbv zeta in Hok.
    fold zones port in Hok. rewrite validation_run, Hnames, Ep in Hok.
    rewrite (bind_Ok _ _ tt [] eq_refl) in Hok. cbn [outcome fst] in Hok.
    destruct (zones =? 0); discriminate. }
  assert (Hone : 1 <= zones).
  { destruct (Z.le_gt_cases 1 zones) as [Hone | Hlow]; [exact Hone |].
    destruct (stack_with_zones scope id env Hnames Hzones Hport)
      as (_ & Hthrows).
    destruct (Hthrows Hlow) as (Hthrow & _). fold unit in Hthrow. congruence. }
  destruct (ScaffoldAWSServerlessDocker_layout scope id env Hnames Hzones Hport)
    as (backend & provider & E & Kbackend & Kprovider).
  cbv zeta in E. fold this zones port in E. unfold unit in *.
  rewrite E in Hok |- *. cbn [outcome events fst snd] in Hok |- *.
  match type of Hok with
  | context [bind (Network.NetworkConstruct ?s ?i ?p)] =>
      destruct (Network.NetworkConstruct s i p) as [[created | msg] l1] eqn:En;
      [| discriminate];
      rewrite (bind_Ok _ _ _ _ eq_refl) in Hok |- *;
      cbn [outcome events fst snd] in Hok |- *
  end.
  match type of Hok with
  | context [bind (Computing.ComputingConstruct ?s ?i ?p)] =>
      destruct (Computing.ComputingConstruct s i p)
        as [[created' | msg] l2] eqn:Ec;
      [| discriminate];
      rewrite (bind_Ok _ _ _ _ eq_refl) in Hok |- *;
      cbn [outcome events fst snd] in Hok |- *
  end.
  cbn [bind addOverride ret app] in Hok |- *. cbn [fst snd] in Hok.
  injection Hok as <-.
  unfold network, computing. cbn [Root.network Root.computing].
  match goal with
  | |- context [Emit backend :: Emit provider :: Emit ?r :: Emit ?a :: _] =>
      exists [Emit backend; Emit provider; Emit r; Emit a]
  end.
  do 2 eexists. exists l1, l2.
  split; [cbn [app]; reflexivity |].
  split.
  { cbn [emitted]. repeat constructor;
      first [ apply census_other_kind;
              first [rewrite Kbackend | rewrite Kprovider | cbn [r_kind]];
              discriminate
            | apply isAutoScaling_other_kind;
              first [rewrite Kbackend | rewrite Kprovider | cbn [r_kind]];
              discriminate ]. }
  split; [exact En |]. split; [exact Ec |].
  repeat (split; [reflexivity |]). split; [exact Hone | exact Hport].
Qed.


(** X21. When the root unit returns, the sizes of the stack follow the number
    of zones N, which is at least 1: there are N private subnets and
    max(N, 2) public subnets; the load balancer is attached to the public
    subnets; the service asks for N tasks and runs them in the private
    subnets, behind the target group of the load balancer and on the
    listen port; and with auto-scaling enabled the target keeps between N
    and the ceiling of 1.5 N tasks, which is no less than N, and both
    policies track 75 percent, while with auto-scaling disabled there is
    no auto-scaling descriptor. *)
Theorem stack_sizes_follow_the_zone_count scope id env stack :
  let unit := Root.ScaffoldAWSServerlessDocker scope id env in
  let output := emitted (events unit) in
  let zones := Number (Root.NUMBER_OF_AVAILABILITY_ZONES_USED env) in
  let port := Number (Root.CONTAINER_LISTEN_PORT env) in
  let network := Root.network stack in
  let service := Computing.fargateService (Root.computing stack) in
  let scaling := filter isAutoScaling output in
  outcome unit = Ok stack ->
  1 <= zones
  /\ List.length (filter isPrivateSubnet output) = Z.to_nat zones
  /\ List.length (filter isPublicSubnet output) = Z.to_nat (Z.max zones 2)
  /\ input (Network.applicationLoadBalancer network) "subnets"
     = Some (VList (List.map (fun subnet => VStr (getId subnet))
                      (filter isPublicSubnet output)))
  /\ configAt service [Key "networkConfiguration"; Index 0; Key "subnets"]
     = Some (VList (List.map (fun subnet => VStr (getId subnet))
                      (filter isPrivateSubnet output)))
  /\ input service "desiredCount" = Some (VNum zones)
  /\ configAt service [Key "loadBalancer"; Index 0; Key "targetGroupArn"]
     = Some (VStr (getArn (Network.applicationLoadBalancerTargetGroup network)))
  /\ configAt service [Key "loadBalancer"; Index 0; Key "containerPort"]
     = Some (VNum port)
  /\ zones <= (3 * zones + 1) / 2 <= 2 * zones
  /\ (if String.eqb (Root.ENABLE_AUTO_SCALING env) "true"
      then exists target cpu memory,
             scaling = [target; cpu; memory]
             /\ r_kind target = AppautoscalingTarget
             /\ input target "minCapacity" = Some (VNum zones)
             /\ input target "maxCapacity"
                = Some (VNum ((3 * zones + 1) / 2))
             /\ trackingPolicy "ECSServiceAverageCPUUtilization" 75 cpu
             /\ trackingPolicy "ECSServiceAverageMemoryUtilization" 75 memory
      else scaling = []).
Proof.
  intros unit output zones port network service scaling Hok.
  destruct (stack_run scope id env stack Hok)
    as (first & networkProps & computingProps & l1 & l2 & E & Hfirst & En & Ec
        & Ezones & Esubnets & _ & Etarget & Eminimum & Emaximum & Ecpu
        & Ememory & Eflag & Eport & Hone & _).
  fold unit zones port network in E, En, Ezones, Esubnets, Etarget, Eminimum,
    Emaximum, Eport, Hone.
  pose proof (NetworkConstruct_result _ _ _ network (f_equal fst En)) as Hn.
  cbv zeta in Hn. rewrite En in Hn. cbn [events snd] in Hn.
  rewrite Ezones in Hn.
  destruct Hn as (_ & _ & Hbalancer & Hpublics & Hprivates & Hcount & _).
  pose proof (ComputingConstruct_result _ _ _ (Root.computing stack)
                (f_equal fst Ec)) as Hc.
  cbv zeta in Hc. rewrite Ec in Hc. cbn [events snd] in Hc.
  fold service in Hc.
  rewrite Esubnets, Etarget, Eminimum, Eport in Hc.
  destruct Hc as (_ & _ & _ & _ & _ & Hdesired & _ & Hsubnets & _ & _
                  & Htarget & Hport & _).
  assert (Hcomputing : uncounted l2).
  { pose proof (ComputingConstruct_uncounted (scope ++ [id]) "computing"
                  computingProps) as Hu.
    unfold respects in Hu. now rewrite Ec in Hu. }
  assert (Hnetwork : without isAutoScaling l1).
  { pose proof (NetworkConstruct_without_scaling (scope ++ [id]) "network"
                  networkProps) as Hw.
    unfold respects in Hw. now rewrite En in Hw. }
  assert (Eoutput : output
    = (emitted first ++ emitted l1 ++ emitted l2 ++ [])%list).
  { unfold output. rewrite E, !emitted_app. reflexivity. }
  assert (Hfirst' : Forall (fun r => census r = (false, false, false, false))
                      (emitted first)).
  { eapply Forall_impl; [| exact Hfirst]. cbv beta. tauto. }
  assert (Fprivates : filter isPrivateSubnet output
                      = filter isPrivateSubnet (emitted l1)).
  { rewrite Eoutput, !filter_app.
    destruct (filter_census _ _ _ _ _ Hfirst') as (-> & _).
    destruct (filter_census _ _ _ _ _ Hcomputing) as (-> & _).
    cbn [app filter]. now rewrite app_nil_r. }
  assert (Fpublics : filter isPublicSubnet output
                     = filter isPublicSubnet (emitted l1)).
  { rewrite Eoutput, !filter_app.
    destruct (filter_census _ _ _ _ _ Hfirst') as (_ & ->).
    destruct (filter_census _ _ _ _ _ Hcomputing) as (_ & ->).
    cbn [app filter]. now rewrite app_nil_r. }
  assert (Fscaling : scaling = filter isAutoScaling (emitted l2)).
  { unfold scaling. rewrite Eoutput, !filter_app.
    rewrite (without_filter _ _ Hnetwork).
    rewrite (filter_none isAutoScaling (emitted first)).
    - cbn [app filter]. now rewrite app_nil_r.
    - eapply Forall_impl; [| exact Hfirst]. cbv beta. tauto. }
  split; [exact Hone |].
  split; [rewrite Fprivates, <- Hprivates; exact Hcount |].
  split; [rewrite Fpublics; exact Hpublics |].
  split; [rewrite Fpublics; exact Hbalancer |].
  split; [rewrite Fprivates, <- Hprivates; exact Hsubnets |].
  split; [exact Hdesired |]. split; [exact Htarget |]. split; [exact Hport |].
  split.
  { split.
    - apply Z.div_le_lower_bound; lia.
    - apply Z.div_le_upper_bound; lia. }
  rewrite <- Eflag.
  destruct (Computing.enableAutoScaling computingProps) eqn:Hflag.
  - pose proof (ComputingConstruct_scaling_result _ _ _ (Root.computing stack)
                  (f_equal fst Ec) Hflag) as Hs.
    cbv zeta in Hs. rewrite Ec in Hs. cbn [events snd] in Hs.
    rewrite Eminimum, Emaximum, Ecpu, Ememory in Hs.
    destruct Hs as (target & cpu & memory & Hs & Kt & Hmin & Hmax & _ & _
                    & Hc & Hm & _).
    exists target, cpu, memory. rewrite Fscaling.
    split; [exact Hs |]. split; [exact Kt |]. split; [exact Hmin |].
    split; [exact Hmax |]. split; [exact Hc | exact Hm].
  - rewrite Fscaling.
    destruct (scaling_of_output (scope ++ [id]) "computing" computingProps)
      as [(_ & Hnone) | (l & Hstep & Hl)];
      cbv zeta in *; rewrite resources_synth, Ec in *;
      cbn [events snd] in *.
    + exact Hnone.
    + unfold scalingStep in Hstep. rewrite Hflag in Hstep.
      destruct Hstep as (_ & ->). exact Hl.
Qed.

End RootProperties.

(** ** The builds and the bucket of the pipeline *)





Section BuildsSecrets.

Context `{Externals}.


End BuildsSecrets.

(** ** The further properties on the sample inputs *)

Lemma nat_gateways_need_an_ip_and_a_subnet_per_zone_witness :
  Network.NatGatewaysConstruct ["stack"; "network"] "nat_gateways"
    (Inputs.natGatewaysProps 2 [Inputs.elasticIp])
  = (Throw "The number of availability zones used must match the number of elastic IPs", []).
Proof.
  apply (proj1 (nat_gateways_need_an_ip_and_a_subnet_per_zone
                  ["stack"; "network"] "nat_gateways"
                  (Inputs.natGatewaysProps 2 [Inputs.elasticIp]))).
  vm_compute. reflexivity.
Defined.

Lemma nat_gateway_of_each_zone_witness :
  let unit :=
    Network.NatGatewaysConstruct ["stack"; "network"] "nat_gateways"
      (Inputs.natGatewaysProps 1 [Inputs.elasticIp]) in
  let gateways := Inputs.returned unit [] in
  outcome unit = Ok gateways
  /\ emitted (events unit) = gateways
  /\ exists gateway,
       nth_error gateways 0 = Some gateway
       /\ natGatewayIn Inputs.elasticIp (Inputs.publicSubnet "1") gateway.
Proof.
  cbv zeta.
  match goal with
  | |- ?hypothesis /\ _ =>
      assert (Hok : hypothesis) by (vm_compute; reflexivity)
  end.
  split; [exact Hok |].
  pose proof (nat_gateway_of_each_zone _ _ _ _ Hok) as (Hlog & _ & Hall).
  split; [exact Hlog |].
  pose proof (Hall 0%nat _ eq_refl)
    as (ip & subnet & Hip & Hsubnet & Hgateway).
  injection Hip as <-. injection Hsubnet as <-.
  eexists. split; [reflexivity | exact Hgateway].
Defined.

Lemma route_table_of_each_subnet_witness :
  let unit :=
    Network.RouteTablesConstruct ["stack"; "network"] "route_tables"
      (Inputs.routeTablesProps [Inputs.natGateway]) in
  let tables :=
    Inputs.returned unit
      {| Network.publicSubnetsRouteTable := Inputs.nothing;
         Network.privateSubnetsRouteTables := [] |} in
  outcome unit = Ok tables
  /\ routesThrough "gatewayId" Inputs.internetGateway
       (Network.publicSubnetsRouteTable tables)
  /\ exists table,
       nth_error (Network.privateSubnetsRouteTables tables) 0 = Some table
       /\ routesThrough "natGatewayId" Inputs.natGateway table.
Proof.
  cbv zeta.
  match goal with
  | |- ?hypothesis /\ _ =>
      assert (Hok : hypothesis) by (vm_compute; reflexivity)
  end.
  split; [exact Hok |].
  pose proof (route_table_of_each_subnet _ _ _ _ Hok)
    as (publicAssociations & privateAssociations & _ & Hpublic & _ & _ & _
        & Hprivate).
  split; [exact Hpublic |].
  pose proof (Hprivate 0%nat Inputs.privateSubnet eq_refl)
    as (gateway & table & association & Hgateway & Htable & _ & Hroute & _).
  injection Hgateway as <-.
  exists table. split; [exact Htable | exact Hroute].
Defined.

Lemma route_tables_need_a_gateway_per_private_subnet_witness :
  Network.RouteTablesConstruct ["stack"; "network"] "route_tables"
    (Inputs.routeTablesProps [])
  = (Throw "The number of NAT gateways must match the number of private subnets", []).
Proof.
  apply (proj1 (route_tables_need_a_gateway_per_private_subnet
                  ["stack"; "network"] "route_tables"
                  (Inputs.routeTablesProps []))).
  vm_compute. discriminate.
Defined.

Lemma subnets_share_zones_not_blocks_witness :
  (exists subnets,
     outcome (Network.SubnetsConstruct ["stack"; "network"] "subnets"
                (Inputs.subnetsProps 3)) = Ok subnets
     /\ NoDup (List.map (fun r => input r "cidrBlock")
                 (Network.privateSubnets subnets
                  ++ Network.publicSubnets subnets)))
  /\ (exists subnets private public,
        outcome (Network.SubnetsConstruct ["stack"; "network"] "subnets"
                   (Inputs.subnetsProps 129)) = Ok subnets
        /\ nth_error (Network.privateSubnets subnets) 128 = Some private
        /\ nth_error (Network.publicSubnets subnets) 0 = Some public
        /\ input private "cidrBlock" = input public "cidrBlock").
Proof.
  split.
  - pose proof (subnets_share_zones_not_blocks ["stack"; "network"] "subnets"
                  (Inputs.subnetsProps 3))
      as (subnets & Hok & _ & Hdistinct & _).
    exists subnets. split; [exact Hok |].
    apply Hdistinct. vm_compute. discriminate.
  - pose proof (subnets_share_zones_not_blocks ["stack"; "network"] "subnets"
                  (Inputs.subnetsProps 129))
      as (subnets & Hok & _ & _ & Hoverlap).
    assert (Hzones : 128 < Network.sn_numberOfAvailabilityZonesUsed
                           (Inputs.subnetsProps 129))
      by (vm_compute; reflexivity).
    pose proof (Hoverlap Hzones)
      as (private & public & Hprivate & Hpublic & Hblock).
    exists subnets, private, public.
    split; [exact Hok |]. split; [exact Hprivate |].
    split; [exact Hpublic | exact Hblock].
Defined.

Lemma network_returns_iff_domain_name_witness :
  outcome (Network.NetworkConstruct ["stack"] "network"
             (Sample.networkProps 3 [] "eu-west-1" true))
  = Throw "You must specify at least one domain name".
Proof.
  apply (proj1 (network_returns_iff_domain_name ["stack"] "network"
                  (Sample.networkProps 3 [] "eu-west-1" true))).
  reflexivity.
Defined.

Lemma private_subnets_route_within_their_zone_witness :
  let unit :=
    Network.NetworkConstruct ["stack"] "network"
      (Sample.networkProps 3 ["example.com"] "eu-west-1" true) in
  let output := emitted (events unit) in
  let private := Inputs.firstPrivateSubnet in
  In private output /\ isPrivateSubnet private = true
  /\ exists association table gateway ip public,
       associates table private association
       /\ routesThrough "natGatewayId" gateway table
       /\ natGatewayIn ip public gateway
       /\ input public "availabilityZone" = input private "availabilityZone".
Proof.
  cbv zeta.
  match goal with
  | |- In ?private ?output /\ _ =>
      assert (Hin : In private (filter isPrivateSubnet output))
        by (vm_compute; left; reflexivity);
      pose proof (proj1 (filter_In isPrivateSubnet private output) Hin)
        as (Hregistered & Hprivate)
  end.
  split; [exact Hregistered |]. split; [exact Hprivate |].
  pose proof (private_subnets_route_within_their_zone _ _ _ _ Hregistered
                Hprivate)
    as (association & table & gateway & ip & public & _ & _ & _ & _ & _
        & Hassociates & Hroute & Hgateway & _ & _ & Hzone & _).
  exists association, table, gateway, ip, public.
  split; [exact Hassociates |]. split; [exact Hroute |].
  split; [exact Hgateway | exact Hzone].
Defined.

Lemma certificate_covers_every_domain_name_witness :
  let unit := Network.SslConstruct ["stack"; "network"] "ssl" Inputs.sslProps in
  let ssl :=
    Inputs.returned unit
      {| Network.acmCertificate := Inputs.nothing;
         Network.validationDns := [] |} in
  outcome unit = Ok ssl
  /\ events unit = [Emit (Network.acmCertificate ssl)]
  /\ List.length (Network.validationDns ssl) = 2%nat
  /\ NoDup (List.map Network.dns_name (Network.validationDns ssl)).
Proof.
  cbv zeta.
  match goal with
  | |- ?hypothesis /\ _ =>
      assert (Hok : hypothesis) by (vm_compute; reflexivity)
  end.
  split; [exact Hok |].
  pose proof (certificate_covers_every_domain_name _ _ _ _ Hok)
    as (Hlog & _ & _ & _ & Hlength & _ & Hdistinct).
  split; [exact Hlog |]. split; [exact Hlength | exact Hdistinct].
Defined.

Lemma network_hands_over_what_it_registered_witness :
  let unit :=
    Network.NetworkConstruct ["stack"] "network"
      (Sample.networkProps 3 ["example.com"] "eu-west-1" true) in
  let output := emitted (events unit) in
  let network := Inputs.returned unit (Root.network Inputs.emptyStack) in
  outcome unit = Ok network
  /\ Network.net_privateSubnets network = filter isPrivateSubnet output
  /\ List.length (Network.net_privateSubnets network) = 3%nat
  /\ input (Network.applicationLoadBalancer network) "subnets"
     = Some (VList (List.map (fun subnet => VStr (getId subnet))
                      (filter isPublicSubnet output))).
Proof.
  cbv zeta.
  match goal with
  | |- ?hypothesis /\ _ =>
      assert (Hok : hypothesis) by (vm_compute; reflexivity)
  end.
  split; [exact Hok |].
  pose proof (network_hands_over_what_it_registered _ _ _ _ Hok)
    as (_ & _ & Hsubnets & _ & Hprivate & Hlength & _).
  split; [exact Hprivate |]. split; [exact Hlength | exact Hsubnets].
Defined.

Lemma helpers_override_only_unset_fields_witness :
  let rule := Utils.overrideNullValuesForSecurityGroupRule Inputs.openEgressRule in
  events rule <> []
  /\ Forall (fun e =>
       exists property,
         In property Utils.securityGroupRulePropertiesToOverride
         /\ e = Override (r_path Inputs.openEgressRule) (snd property) VNull
         /\ truthy (input Inputs.openEgressRule (fst property)) = false)
       (events rule).
Proof.
  split; [vm_compute; discriminate |].
  apply Forall_forall.
  exact (proj1 (proj2 (proj2
           (helpers_override_only_unset_fields Inputs.openEgressRule)))).
Defined.

Lemma prefixed_variables_round_trip_witness :
  let env :=
    Inputs.envWith "2" "8080"
      [ ("APPLICATION___proto__", "polluted");
        ("APPLICATION_GREETING", "hello") ] in
  let variables := Root.variablesPrefixed "APPLICATION_" env in
  NoDup (Root.Object_keys env)
  /\ JS.get "GREETING" variables = JS.Own "hello"
  /\ JS.get "__proto__" variables = JS.Inherited "[object Object]"
  /\ JS.get "toString" variables
     = JS.Inherited "function toString() { [native code] }"
  /\ JS.get "FAREWELL" variables = JS.Undefined.
Proof.
  cbv zeta.
  assert (Hkeys : NoDup (Root.Object_keys
                           (Inputs.envWith "2" "8080"
                              [ ("APPLICATION___proto__", "polluted");
                                ("APPLICATION_GREETING", "hello") ])))
    by (apply distinct_NoDup; vm_compute; reflexivity).
  split; [exact Hkeys |].
  split; [| split; [| split]].
  - exact (proj1 (prefixed_variables_round_trip "APPLICATION_" _ "GREETING"
                    Hkeys)).
  - exact (proj1 (prefixed_variables_round_trip "APPLICATION_" _ "__proto__"
                    Hkeys)).
  - exact (proj1 (prefixed_variables_round_trip "APPLICATION_" _ "toString"
                    Hkeys)).
  - exact (proj1 (prefixed_variables_round_trip "APPLICATION_" _ "FAREWELL"
                    Hkeys)).
Defined.

Lemma secret_parameter_ids_ignore_case_witness :
  let props :=
    {| Computing.ev_buildsEnvironmentVariables := [("TOKEN", "t")];
       Computing.ev_environmentVariables :=
         [("GREETING", "hello"); ("token", "x")];
       Computing.ev_resourceNamesPrefix := "demo" |} in
  let unit :=
    @Computing.EnvironmentVariablesConstruct Sample.externals
      ["stack"; "computing"] "environment_variables" props in
  NoDup (List.map Str.toLowerCase
           (JS.keys (Computing.ev_environmentVariables props)))
  /\ NoDup (List.map Str.toLowerCase
              (JS.keys (Computing.ev_buildsEnvironmentVariables props)))
  /\ succeeds unit
  /\ List.map r_path (emitted (events unit))
     = [ ["stack"; "computing"; "environment_variables";
          "ssm_parameter_application_greeting"];
         ["stack"; "computing"; "environment_variables";
          "ssm_parameter_application_token"];
         ["stack"; "computing"; "environment_variables";
          "ssm_parameter_builds_token"] ]
  /\ NoDup (List.map r_path (emitted (events unit))).
Proof.
  cbv zeta.
  match goal with
  | |- ?names /\ ?buildsNames /\ _ =>
      assert (Hnames : names)
        by (apply distinct_NoDup; vm_compute; reflexivity);
      assert (HbuildsNames : buildsNames)
        by (apply distinct_NoDup; vm_compute; reflexivity)
  end.
  split; [exact Hnames |]. split; [exact HbuildsNames |].
  pose proof (@secret_parameter_ids_ignore_case Sample.externals
                ["stack"; "computing"] "environment_variables" _
                Hnames HbuildsNames)
    as (application & builds & E & _ & _ & _ & _ & P1 & P2 & Hdistinct).
  rewrite E. cbn [events snd outcome fst].
  split; [eexists; reflexivity |].
  rewrite emitted_app, !emitted_Emit, map_app, P1, P2.
  split; [reflexivity |].
  rewrite <- P1, <- P2, <- map_app. exact Hdistinct.
Defined.


Lemma auto_scaling_scales_the_service_witness :
  let unit :=
    @Computing.ComputingConstruct Sample.externals ["stack"] "computing"
      (Sample.computingProps true 75 75 1 2) in
  let computing := Inputs.returned unit (Root.computing Inputs.emptyStack) in
  outcome unit = Ok computing
  /\ exists target cpu memory,
       filter isAutoScaling (emitted (events unit)) = [target; cpu; memory]
       /\ input target "minCapacity" = Some (VNum 1)
       /\ input target "maxCapacity" = Some (VNum 2)
       /\ scales target cpu /\ scales target memory.
Proof.
  cbv zeta.
  match goal with
  | |- ?hypothesis /\ _ =>
      assert (Hok : hypothesis) by (vm_compute; reflexivity)
  end.
  split; [exact Hok |].
  pose proof (auto_scaling_scales_the_service _ _ _ _ Hok eq_refl)
    as (target & cpu & memory & Hscaling & _ & Hmin & Hmax & _ & _ & _ & _
        & Hcpu & Hmemory).
  exists target, cpu, memory.
  split; [exact Hscaling |]. split; [exact Hmin |]. split; [exact Hmax |].
  split; [exact Hcpu | exact Hmemory].
Defined.

Lemma stack_checks_come_first_witness :
  @Root.ScaffoldAWSServerlessDocker Sample.externals [] "stack"
    (Inputs.envWith "2" "80" [("BAD NAME", "x")])
  = (Throw "Environment variable names must match /^[a-z0-9_-]+$/i format", [])
  /\ @Root.ScaffoldAWSServerlessDocker Sample.externals [] "stack"
       (Inputs.envWith "0" "80" [])
     = (Throw "Invalid number of availability zones used", [])
  /\ @Root.ScaffoldAWSServerlessDocker Sample.externals [] "stack"
       (Inputs.envWith "2" "0" [])
     = (Throw "Invalid container listen port", []).
Proof.
  split; [| split].
  - apply (proj1 (@stack_checks_come_first Sample.externals [] "stack"
                    (Inputs.envWith "2" "80" [("BAD NAME", "x")]))).
    vm_compute. reflexivity.
  - apply (proj1 (proj2 (@stack_checks_come_first Sample.externals []
                           "stack" (Inputs.envWith "0" "80" [])))).
    + vm_compute. reflexivity.
    + vm_compute. reflexivity.
  - apply (proj2 (proj2 (@stack_checks_come_first Sample.externals []
                           "stack" (Inputs.envWith "2" "0" [])))).
    + vm_compute. reflexivity.
    + vm_compute. discriminate.
    + vm_compute. reflexivity.
Defined.

Lemma stack_returns_iff_witness :
  let unit :=
    @Root.ScaffoldAWSServerlessDocker Inputs.signedExternals [] "stack"
      (Inputs.envWith "-1" "80" []) in
  outcome unit = Throw "Your Fargate cluster must run at least one task"
  /\ exists vpc, In vpc (emitted (events unit)) /\ r_kind vpc = Vpc.
Proof.
  apply (proj2 (proj2 (@stack_returns_iff Inputs.signedExternals [] "stack"
                         (Inputs.envWith "-1" "80" [])))).
  - vm_compute. reflexivity.
  - vm_compute. reflexivity.
  - vm_compute. discriminate.
Defined.


Lemma stack_sizes_follow_the_zone_count_witness :
  let unit :=
    @Root.ScaffoldAWSServerlessDocker Sample.externals [] "stack" Sample.env in
  let stack := Inputs.returned unit Inputs.emptyStack in
  let output := emitted (events unit) in
  outcome unit = Ok stack
  /\ List.length (filter isPrivateSubnet output) = 2%nat
  /\ List.length (filter isPublicSubnet output) = 2%nat
  /\ input (Computing.fargateService (Root.computing stack)) "desiredCount"
     = Some (VNum 2)
  /\ exists target cpu memory,
       filter isAutoScaling output = [target; cpu; memory]
       /\ input target "minCapacity" = Some (VNum 2)
       /\ input target "maxCapacity" = Some (VNum 3).
Proof.
  cbv zeta.
  match goal with
  | |- ?hypothesis /\ _ =>
      assert (Hok : hypothesis) by (vm_compute; reflexivity)
  end.
  split; [exact Hok |].
  pose proof (stack_sizes_follow_the_zone_count _ _ _ _ Hok)
    as (_ & Hprivate & Hpublic & _ & _ & Hcount & _ & _ & _ & Hscaling).
  split; [exact Hprivate |]. split; [exact Hpublic |]. split; [exact Hcount |].
  destruct Hscaling as (target & cpu & memory & Hlist & _ & Hmin & Hmax & _).
  exists target, cpu, memory.
  split; [exact Hlist |]. split; [exact Hmin | exact Hmax].
Defined.
